(** * The tool-calling conversation relay, the tool endpoint client and the
      chat store of mcp-biconomy-backend

    The repository holds two generations of the same backend:
    - [src/mcpClient.js] with [src/server.js], which talks to the Anthropic
      messages API (module [Anthropic] below);
    - a later [mcpClient.js] / [server.js] pair which talks to the OpenAI
      chat-completions API and reconnects lazily (module [OpenAI]), with the
      chat store [chatDatabase.js] (module [ChatDatabase]).

    The handlers are asynchronous JavaScript that runs sequentially inside one
    request ([await] at every external call).  They are embedded as functions
    in a state-and-exception monad over the process-wide [MCPClientManager]
    singleton and the trace of calls made on the external collaborators.  The
    collaborators themselves (the remote tool service, the model provider,
    the JavaScript built-ins [JSON.parse] / [JSON.stringify]) are a [World]:
    every statement below is quantified over it. *)

From Stdlib Require Import List String Ascii ZArith Bool Lia.
From Stdlib Require Import DecimalString.
From Stdlib Require Import Permutation Sorted.
Import ListNotations.
Local Open Scope string_scope.
Local Open Scope Z_scope.

Set Implicit Arguments.

(* ================================================================== *)
(** * JavaScript values, as far as JSON can carry them *)
(* ================================================================== *)

(** Request bodies come out of [express.json()], provider replies and tool
    results out of the SDKs' JSON decoding: a value is [undefined] (an absent
    property), or one of the six JSON shapes.  Numbers are kept as integers;
    no handler computes with a number other than an array length.  (The type
    is nested through [list]; no induction principle is generated for it,
    and none is needed.) *)
Unset Elimination Schemes.
Inductive JsVal : Type :=
| JUndefined
| JNull
| JBool (b : bool)
| JNum (n : Z)
| JStr (s : string)
| JArr (items : list JsVal)
| JObj (props : list (string * JsVal)).
Set Elimination Schemes.

(** A thrown JavaScript error; the handlers only ever read [error.message]. *)
Inductive Exn : Type :=
| Error (msg : string)
| TypeError (msg : string)
| SyntaxError (msg : string).

Definition message (e : Exn) : string :=
  match e with Error m | TypeError m | SyntaxError m => m end.

(** The outcome of an expression that may throw. *)
Inductive Res (A : Type) : Type :=
| Ok (a : A)
| Throw (e : Exn).
Arguments Ok {A} a.
Arguments Throw {A} e.

Definition res_bind {A B} (r : Res A) (k : A -> Res B) : Res B :=
  match r with Ok a => k a | Throw e => Throw e end.

(** Own properties of an object literal, first binding first. *)
Fixpoint lookup (k : string) (props : list (string * JsVal)) : option JsVal :=
  match props with
  | [] => None
  | (k', v) :: rest => if String.eqb k k' then Some v else lookup k rest
  end.

Definition has_field (k : string) (v : JsVal) : bool :=
  match v with
  | JObj props => match lookup k props with Some _ => true | None => false end
  | _ => false
  end.

(** [ToBoolean]: what [!x], [x ? a : b] and [x && y] test. *)
Definition truthy (v : JsVal) : bool :=
  match v with
  | JUndefined | JNull => false
  | JBool b => b
  | JNum n => negb (n =? 0)
  | JStr s => negb (String.eqb s "")
  | JArr _ | JObj _ => true
  end.

Definition isArray (v : JsVal) : bool :=
  match v with JArr _ => true | _ => false end.

Definition string_of_Z (n : Z) : string := NilZero.string_of_int (Z.to_int n).

(** [ToString], used by template literals and by [JSON.parse] on its
    argument.  A number is printed with all its digits, which is how
    JavaScript prints an integer below 10^21. *)
Fixpoint ToString (v : JsVal) : string :=
  match v with
  | JUndefined => "undefined"
  | JNull => "null"
  | JBool true => "true"
  | JBool false => "false"
  | JNum n => string_of_Z n
  | JStr s => s
  | JArr items =>
      String.concat ","
        (map (fun x => match x with
                       | JUndefined | JNull => ""
                       | _ => ToString x
                       end) items)
  | JObj _ => "[object Object]"
  end.

(** [v.k] for a named data property [k].  Reading a property of [undefined]
    or [null] throws; a primitive, or an object without the property, gives
    [undefined]; arrays and strings have their [length].  (Index properties
    are read by [getFirst].) *)
Definition getProp (v : JsVal) (k : string) : Res JsVal :=
  match v with
  | JUndefined | JNull =>
      Throw (TypeError ("Cannot read properties of " ++ ToString v
                        ++ " (reading '" ++ k ++ "')"))
  | JObj props =>
      Ok (match lookup k props with Some x => x | None => JUndefined end)
  | JArr items =>
      Ok (if String.eqb k "length" then JNum (Z.of_nat (List.length items))
          else JUndefined)
  | JStr s =>
      Ok (if String.eqb k "length" then JNum (Z.of_nat (String.length s))
          else JUndefined)
  | JBool _ | JNum _ => Ok JUndefined
  end.

(** [v[0]]. *)
Definition getFirst (v : JsVal) : Res JsVal :=
  match v with
  | JArr items => Ok (match items with x :: _ => x | [] => JUndefined end)
  | JStr (String c _) => Ok (JStr (String c ""))
  | _ => getProp v "0"
  end.

(** [x === 'literal']. *)
Definition strict_eq_str (v : JsVal) (s : string) : bool :=
  match v with JStr t => String.eqb t s | _ => false end.

Fixpoint map_res {A B} (f : A -> Res B) (l : list A) : Res (list B) :=
  match l with
  | [] => Ok []
  | x :: rest =>
      res_bind (f x) (fun y =>
      res_bind (map_res f rest) (fun ys => Ok (y :: ys)))
  end.

(** [v.map(f)], as the list of the new array's items: only an array has a
    [map]; on anything else the call throws (property read of a nullish
    value, or "is not a function").  [expr] is the expression the source
    calls [map] on, which the error names. *)
Definition array_map (expr : string) (f : JsVal -> Res JsVal) (v : JsVal)
  : Res (list JsVal) :=
  match v with
  | JArr items => map_res f items
  | JUndefined | JNull => res_bind (getProp v "map") (fun _ => Ok [])
  | _ => Throw (TypeError (expr ++ ".map is not a function"))
  end.

(** The values [for (const x of v)] visits; [expr] is the expression the
    source iterates, which the error names. *)
Definition iterate (expr : string) (v : JsVal) : Res (list JsVal) :=
  match v with
  | JArr items => Ok items
  | JStr s => Ok (map (fun c => JStr (String c "")) (list_ascii_of_string s))
  | _ => Throw (TypeError (expr ++ " is not iterable"))
  end.

(** The [msg => ({ role: msg.role, content: msg.content })] of both servers. *)
Definition cleanMessage (msg : JsVal) : Res JsVal :=
  res_bind (getProp msg "role") (fun role =>
  res_bind (getProp msg "content") (fun content =>
  Ok (JObj [("role", role); ("content", content)]))).

(* ================================================================== *)
(** * The external collaborators *)
(* ================================================================== *)

(** A tool descriptor as [client.listTools()] resolves it: the SDK has checked
    the reply against its result schema, so [toolsList.tools] is an array of
    tool objects. *)
Record ToolDescriptor : Type := {
  name : JsVal;
  description : JsVal;
  inputSchema : JsVal
}.

(** A call on a collaborator.  [EvConnect] is [this.client.connect(transport)]
    together with the construction of its transport.  [EvModel] is one call
    of the provider SDK's [create()]: the HTTP requests the SDK makes to
    serve it, its own retries among them, happen inside the call. *)
Inductive Event : Type :=
| EvConnect
| EvListTools
| EvCallTool (toolName args : JsVal)
| EvModel (request : JsVal).

(** How the collaborators answer.  An answer may depend on everything that
    was asked before (the services are stateful), so each takes the trace of
    earlier calls.  [StringToNumber] is the built-in string-to-number
    conversion behind [>]; [None] is [NaN]. *)
Record World : Type := {
  JSON_parse : string -> Res JsVal;
  JSON_stringify : JsVal -> JsVal;
  StringToNumber : string -> option Z;
  client_connect : list Event -> Res unit;
  client_listTools : list Event -> Res (list ToolDescriptor);
  client_callTool : list Event -> JsVal -> JsVal -> Res JsVal;
  model_create : list Event -> JsVal -> Res JsVal
}.

(** [ToNumber]; [None] is [NaN]. *)
Definition ToNumber (W : World) (v : JsVal) : option Z :=
  match v with
  | JUndefined => None
  | JNull => Some 0
  | JBool b => Some (if b then 1 else 0)
  | JNum n => Some n
  | JStr s => StringToNumber W s
  | JArr _ | JObj _ => StringToNumber W (ToString v)
  end.

(** [v > 0]. *)
Definition gt_zero (W : World) (v : JsVal) : bool :=
  match ToNumber W v with Some n => 0 <? n | None => false end.

(* ================================================================== *)
(** * Process state and the request monad *)
(* ================================================================== *)

(** [class MCPClientManager]: [client] is [null] or the SDK client. *)
Record MCPClientManager : Type := {
  client : option unit;
  isConnected : bool;
  tools : list ToolDescriptor
}.

(** The singleton [mcpClient] and the calls made so far. *)
Record St : Type := {
  mcpClient : MCPClientManager;
  trace : list Event
}.

(** [constructor()]. *)
Definition constructor : MCPClientManager :=
  {| client := None; isConnected := false; tools := [] |}.

Definition boot : St := {| mcpClient := constructor; trace := [] |}.

Definition M (A : Type) : Type := St -> Res A * St.

Definition ret {A} (a : A) : M A := fun st => (Ok a, st).

Definition bind {A B} (c : M A) (k : A -> M B) : M B :=
  fun st => match c st with
            | (Ok a, st') => k a st'
            | (Throw e, st') => (Throw e, st')
            end.

Definition throw {A} (e : Exn) : M A := fun st => (Throw e, st).

(** [try { c } catch (error) { h error }]: state changes made before the throw stay. *)
Definition try_catch {A} (c : M A) (h : Exn -> M A) : M A :=
  fun st => match c st with
            | (Ok a, st') => (Ok a, st')
            | (Throw e, st') => h e st'
            end.

Definition lift {A} (r : Res A) : M A := fun st => (r, st).

Definition get_mcp : M MCPClientManager := fun st => (Ok (mcpClient st), st).

Definition update_mcp (f : MCPClientManager -> MCPClientManager) : M unit :=
  fun st => (Ok tt, {| mcpClient := f (mcpClient st); trace := trace st |}).

(** An awaited call on a collaborator: it is recorded, and answered from the
    trace as it stood when the call was made. *)
Definition external {A} (ev : Event) (answer : list Event -> Res A) : M A :=
  fun st => (answer (trace st),
             {| mcpClient := mcpClient st; trace := (trace st ++ [ev])%list |}).

Declare Scope js_scope.
Delimit Scope js_scope with js.
Notation "x <- c ;; k" := (bind c (fun x => k))
  (at level 100, c at next level, right associativity) : js_scope.
Notation "c ;;; k" := (bind c (fun _ => k))
  (at level 100, right associativity) : js_scope.
Local Open Scope js_scope.

Ltac unfold_monad :=
  unfold bind, ret, throw, try_catch, lift, get_mcp, update_mcp, external in *.

(* ================================================================== *)
(** * mcpClient.js *)
(* ================================================================== *)

Section MCPClient.
Variable W : World.

(** [async initialize()].  Both generations have the same body; the later
    one reads the endpoint from the environment. *)
Definition initialize : M bool :=
  try_catch
    (update_mcp (fun m => {| client := Some tt;
                             isConnected := isConnected m;
                             tools := tools m |}) ;;;
     external EvConnect (client_connect W) ;;;
     update_mcp (fun m => {| client := client m;
                             isConnected := true;
                             tools := tools m |}) ;;;
     toolsList <- external EvListTools (client_listTools W) ;;
     update_mcp (fun m => {| client := client m;
                             isConnected := isConnected m;
                             tools := toolsList |}) ;;;
     ret true)
    (fun _ =>
       update_mcp (fun m => {| client := client m;
                               isConnected := false;
                               tools := tools m |}) ;;;
       ret false).

(** [async callTool(toolName, args)]. *)
Definition callTool (toolName args : JsVal) : M JsVal :=
  m <- get_mcp ;;
  if negb (isConnected m) then throw (Error "MCP client not connected")
  else
    try_catch
      (match client m with
       | None => throw (TypeError
                   "Cannot read properties of null (reading 'callTool')")
       | Some _ => external (EvCallTool toolName args)
                            (fun h => client_callTool W h toolName args)
       end)
      (fun error => throw error).

(** [getTools()]. *)
Definition getTools : M (list ToolDescriptor) :=
  m <- get_mcp ;; ret (tools m).

(** [isReady()]. *)
Definition isReady : M bool :=
  m <- get_mcp ;; ret (isConnected m).

End MCPClient.

(** ** [initialize()] between its awaits

    [initialize()] is an async function: a call runs to its first [await]
    and, each time the awaited call settles, runs on to the next [await] or
    to its [return].  Whatever else the process has to do runs in between:
    a request handler, or another call of [initialize()] (the later
    [server.js] calls it from its handlers, and without awaiting it when the
    module is loaded on Vercel).  No other code writes to the manager, so
    the states of the manager that any code of the process can observe are
    those that the steps below produce. *)

(** Where a call of [initialize()] stands: suspended at [await
    this.client.connect(transport)], suspended at [await
    this.client.listTools()], or back with its value. *)
Inductive Progress : Type :=
| AwaitingConnect
| AwaitingListTools
| Returned (connected : bool).

(** The assignments of [initialize()]: [this.client = new Client(...)],
    [this.isConnected = ...] and [this.tools = toolsList.tools]. *)
Definition create_client (m : MCPClientManager) : MCPClientManager :=
  {| client := Some tt; isConnected := isConnected m; tools := tools m |}.

Definition set_isConnected (b : bool) (m : MCPClientManager) : MCPClientManager :=
  {| client := client m; isConnected := b; tools := tools m |}.

Definition set_tools (toolsList : list ToolDescriptor) (m : MCPClientManager)
  : MCPClientManager :=
  {| client := client m; isConnected := isConnected m; tools := toolsList |}.

(** The singleton and the calls of [initialize()] made on it so far, in the
    order they were made. *)
Record Process : Type := {
  manager : MCPClientManager;
  calls : list Progress
}.

(** The process when the module has been loaded. *)
Definition loaded : Process := {| manager := constructor; calls := [] |}.

(** One uninterrupted piece of the process: a caller invokes
    [initialize()], which runs up to its first [await]; or the awaited call
    of the [call]-th invocation settles, with a value or with an error, and
    that invocation runs on.  (An invocation whose transport cannot even be
    constructed is one whose connect fails at once.) *)
Inductive Step : Type :=
| Invoke
| ConnectSettles (call : nat) (r : Res unit)
| ListToolsSettles (call : nat) (r : Res (list ToolDescriptor)).

Fixpoint set_progress (k : nat) (now : Progress) (l : list Progress)
  : list Progress :=
  match l, k with
  | [], _ => []
  | _ :: rest, O => now :: rest
  | x :: rest, S k' => x :: set_progress k' now rest
  end.

(** What a step does; [None] when the step cannot happen (the call is not
    suspended there). *)
Definition step (s : Step) (p : Process) : option Process :=
  match s with
  | Invoke =>
      Some {| manager := create_client (manager p);
              calls := (calls p ++ [AwaitingConnect])%list |}
  | ConnectSettles k r =>
      match nth_error (calls p) k with
      | Some AwaitingConnect =>
          match r with
          | Ok _ =>
              Some {| manager := set_isConnected true (manager p);
                      calls := set_progress k AwaitingListTools (calls p) |}
          | Throw _ =>
              Some {| manager := set_isConnected false (manager p);
                      calls := set_progress k (Returned false) (calls p) |}
          end
      | _ => None
      end
  | ListToolsSettles k r =>
      match nth_error (calls p) k with
      | Some AwaitingListTools =>
          match r with
          | Ok toolsList =>
              Some {| manager := set_tools toolsList (manager p);
                      calls := set_progress k (Returned true) (calls p) |}
          | Throw _ =>
              Some {| manager := set_isConnected false (manager p);
                      calls := set_progress k (Returned false) (calls p) |}
          end
      | _ => None
      end
  end.

(** A schedule: the steps of the process, in the order they happen. *)
Fixpoint exec (steps : list Step) (p : Process) : option Process :=
  match steps with
  | [] => Some p
  | s :: rest =>
      match step s p with
      | Some p1 => exec rest p1
      | None => None
      end
  end.

(* ================================================================== *)
(** * server.js: what both generations share *)
(* ================================================================== *)

(** What the handler hands to Express: [res.status(code).json(body)].  [json]
    is the object as passed; serialising it drops properties whose value is
    [undefined]. *)
Record Response : Type := {
  status : Z;
  json : JsVal
}.

Definition res_json (body : JsVal) : Response :=
  {| status := 200; json := body |}.

Definition res_status_json (code : Z) (body : JsVal) : Response :=
  {| status := code; json := body |}.

Definition error_body (msg : string) : JsVal := JObj [("error", JStr msg)].

(** The handler-wide [try { ... } catch (error) { res.status(500).json({ error:
    error.message }) }]. *)
Definition respond (handler : M Response) (st : St) : Response * St :=
  match handler st with
  | (Ok r, st') => (r, st')
  | (Throw error, st') => (res_status_json 500 (error_body (message error)), st')
  end.

(** [!messages || !Array.isArray(messages)]. *)
Definition messages_rejected (messages : JsVal) : bool :=
  negb (truthy messages) || negb (isArray messages).

(* ================================================================== *)
(** * src/server.js: the Anthropic generation *)
(* ================================================================== *)

Module Anthropic.
Section Server.
Variable W : World.

(** [mcpTools.map(tool => ({ name, description, input_schema }))]. *)
Definition claudeTools (mcpTools : list ToolDescriptor) : JsVal :=
  JArr (map (fun tool =>
               JObj [("name", name tool);
                     ("description", description tool);
                     ("input_schema", inputSchema tool)]) mcpTools).

(** [anthropic.messages.create({ model, max_tokens, messages, tools })]. *)
Definition messages_create (messages claude_tools : JsVal) : M JsVal :=
  let request := JObj [("model", JStr "claude-sonnet-4-5-20250929");
                       ("max_tokens", JNum 4096);
                       ("messages", messages);
                       ("tools", claude_tools)] in
  external (EvModel request) (fun h => model_create W h request).

(** One [tool_use] block: the inner [try]/[catch] of the loop. *)
Definition run_block (block : JsVal) : M JsVal :=
  try_catch
    (toolName <- lift (getProp block "name") ;;
     input <- lift (getProp block "input") ;;
     result <- callTool W toolName input ;;
     id <- lift (getProp block "id") ;;
     ret (JObj [("tool_use_id", id); ("name", toolName);
                ("input", input); ("result", result)]))
    (fun error =>
       id <- lift (getProp block "id") ;;
       toolName <- lift (getProp block "name") ;;
       input <- lift (getProp block "input") ;;
       ret (JObj [("tool_use_id", id); ("name", toolName);
                  ("input", input); ("error", JStr (message error))])).

(** [for (const block of response.content) { if (block.type === 'tool_use')
    { ... toolResults.push(...) } }]. *)
Fixpoint tool_loop (blocks toolResults : list JsVal) : M (list JsVal) :=
  match blocks with
  | [] => ret toolResults
  | block :: rest =>
      type <- lift (getProp block "type") ;;
      if strict_eq_str type "tool_use" then
        lift (getProp block "name") ;;;
        entry <- run_block block ;;
        tool_loop rest (toolResults ++ [entry])%list
      else tool_loop rest toolResults
  end.

(** [app.post('/api/chat', ...)]. *)
Definition chat (body : JsVal) : St -> Response * St :=
  respond
    (messages <- lift (getProp body "messages") ;;
     if messages_rejected messages then
       ret (res_status_json 400 (error_body "Messages array is required"))
     else
       ready <- isReady ;;
       if negb ready then
         ret (res_status_json 503 (error_body "MCP client not connected"))
       else
         cleanedMessages <- lift (array_map "messages" cleanMessage messages) ;;
         mcpTools <- getTools ;;
         response <- messages_create (JArr cleanedMessages)
                                     (claudeTools mcpTools) ;;
         stop_reason <- lift (getProp response "stop_reason") ;;
         if strict_eq_str stop_reason "tool_use" then
           content <- lift (getProp response "content") ;;
           blocks <- lift (iterate "response.content" content) ;;
           toolResults <- tool_loop blocks [] ;;
           ret (res_json (JObj [("response", response);
                                ("toolResults", JArr toolResults);
                                ("needsToolResponse", JBool true)]))
         else
           ret (res_json (JObj [("response", response);
                                ("needsToolResponse", JBool false)]))).

(** [tr => ({ type: 'tool_result', tool_use_id: tr.tool_use_id, content:
    tr.error ? `Error: ${tr.error}` : JSON.stringify(tr.result) })]. *)
Definition toolResultBlock (tr : JsVal) : Res JsVal :=
  res_bind (getProp tr "tool_use_id") (fun id =>
  res_bind (getProp tr "error") (fun error =>
  res_bind (getProp tr "result") (fun result =>
  Ok (JObj [("type", JStr "tool_result");
            ("tool_use_id", id);
            ("content", if truthy error
                        then JStr ("Error: " ++ ToString error)
                        else JSON_stringify W result)])))).

(** [app.post('/api/chat/continue', ...)]. *)
Definition chat_continue (body : JsVal) : St -> Response * St :=
  respond
    (messages <- lift (getProp body "messages") ;;
     toolResults <- lift (getProp body "toolResults") ;;
     assistantResponse <- lift (getProp body "assistantResponse") ;;
     cleanedMessages <- lift (array_map "messages" cleanMessage messages) ;;
     toolResultContent <- lift (array_map "toolResults" toolResultBlock toolResults) ;;
     assistantContent <- lift (getProp assistantResponse "content") ;;
     let updatedMessages :=
       (cleanedMessages
        ++ [JObj [("role", JStr "assistant"); ("content", assistantContent)];
            JObj [("role", JStr "user");
                  ("content", JArr toolResultContent)]])%list in
     mcpTools <- getTools ;;
     response <- messages_create (JArr updatedMessages)
                                 (claudeTools mcpTools) ;;
     stop_reason <- lift (getProp response "stop_reason") ;;
     ret (res_json (JObj [("response", response);
                          ("needsToolResponse",
                           JBool (strict_eq_str stop_reason "tool_use"))]))).

End Server.
End Anthropic.

(* ================================================================== *)
(** * server.js: the OpenAI generation *)
(* ================================================================== *)

Module OpenAI.
Section Server.
Variable W : World.

(** [mcpTools.map(tool => ({ type: 'function', function: { name,
    description, parameters } }))]. *)
Definition openaiTools (mcpTools : list ToolDescriptor) : JsVal :=
  JArr (map (fun tool =>
               JObj [("type", JStr "function");
                     ("function",
                      JObj [("name", name tool);
                            ("description", description tool);
                            ("parameters", inputSchema tool)])]) mcpTools).

(** [openai.chat.completions.create({ model, messages, tools, tool_choice })]. *)
Definition completions_create (messages openai_tools : JsVal) : M JsVal :=
  let request := JObj [("model", JStr "gpt-4-turbo-preview");
                       ("messages", messages);
                       ("tools", openai_tools);
                       ("tool_choice", JStr "auto")] in
  external (EvModel request) (fun h => model_create W h request).

(** [if (!mcpClient.isReady()) { const connected = await
    mcpClient.initialize(); if (!connected) return res.status(503)... }],
    followed by the rest of the handler. *)
Definition ensure_ready (rest : M Response) : M Response :=
  ready <- isReady ;;
  if negb ready then
    connected <- initialize W ;;
    if negb connected then
      ret (res_status_json 503 (error_body "MCP client failed to connect"))
    else rest
  else rest.

(** [JSON.parse(toolCall.function.arguments)]; the built-in converts its
    argument to a string first. *)
Definition parse_arguments (toolCall : JsVal) : M JsVal :=
  function <- lift (getProp toolCall "function") ;;
  arguments <- lift (getProp function "arguments") ;;
  lift (JSON_parse W (ToString arguments)).

Definition function_name (toolCall : JsVal) : M JsVal :=
  function <- lift (getProp toolCall "function") ;;
  lift (getProp function "name").

(** One tool call: the inner [try]/[catch] of the loop. *)
Definition run_call (toolCall : JsVal) : M JsVal :=
  try_catch
    (args <- parse_arguments toolCall ;;
     toolName <- function_name toolCall ;;
     result <- callTool W toolName args ;;
     id <- lift (getProp toolCall "id") ;;
     toolName' <- function_name toolCall ;;
     ret (JObj [("tool_call_id", id); ("name", toolName');
                ("arguments", args); ("result", result)]))
    (fun error =>
       id <- lift (getProp toolCall "id") ;;
       toolName <- function_name toolCall ;;
       args <- parse_arguments toolCall ;;
       ret (JObj [("tool_call_id", id); ("name", toolName);
                  ("arguments", args); ("error", JStr (message error))])).

(** [for (const toolCall of message.tool_calls) { ... toolResults.push(...) }]. *)
Fixpoint tool_loop (toolCalls toolResults : list JsVal) : M (list JsVal) :=
  match toolCalls with
  | [] => ret toolResults
  | toolCall :: rest =>
      function_name toolCall ;;;
      entry <- run_call toolCall ;;
      tool_loop rest (toolResults ++ [entry])%list
  end.

(** The value of [message.tool_calls && message.tool_calls.length > 0]. *)
Definition has_tool_calls (message : JsVal) : Res JsVal :=
  res_bind (getProp message "tool_calls") (fun tool_calls =>
  if truthy tool_calls then
    res_bind (getProp tool_calls "length") (fun len =>
    Ok (JBool (gt_zero W len)))
  else Ok tool_calls).

(** [response.choices[0].message]. *)
Definition first_message (response : JsVal) : Res JsVal :=
  res_bind (getProp response "choices") (fun choices =>
  res_bind (getFirst choices) (fun choice =>
  getProp choice "message")).

(** [app.post('/api/chat', ...)]. *)
Definition chat (body : JsVal) : St -> Response * St :=
  respond
    (messages <- lift (getProp body "messages") ;;
     if messages_rejected messages then
       ret (res_status_json 400 (error_body "Messages array is required"))
     else
       ensure_ready
         (cleanedMessages <- lift (array_map "messages" cleanMessage messages) ;;
          mcpTools <- getTools ;;
          response <- completions_create (JArr cleanedMessages)
                                         (openaiTools mcpTools) ;;
          message <- lift (first_message response) ;;
          lift (getProp message "tool_calls") ;;;
          wants <- lift (has_tool_calls message) ;;
          if truthy wants then
            tool_calls <- lift (getProp message "tool_calls") ;;
            toolCalls <- lift (iterate "message.tool_calls" tool_calls) ;;
            toolResults <- tool_loop toolCalls [] ;;
            ret (res_json (JObj [("response", message);
                                 ("toolResults", JArr toolResults);
                                 ("needsToolResponse", JBool true)]))
          else
            ret (res_json (JObj [("response", message);
                                 ("needsToolResponse", JBool false)])))).

(** [tr => ({ role: 'tool', tool_call_id: tr.tool_call_id, content:
    tr.error ? `Error: ${tr.error}` : JSON.stringify(tr.result) })]. *)
Definition toolResultMessage (tr : JsVal) : Res JsVal :=
  res_bind (getProp tr "tool_call_id") (fun id =>
  res_bind (getProp tr "error") (fun error =>
  res_bind (getProp tr "result") (fun result =>
  Ok (JObj [("role", JStr "tool");
            ("tool_call_id", id);
            ("content", if truthy error
                        then JStr ("Error: " ++ ToString error)
                        else JSON_stringify W result)])))).

(** [app.post('/api/chat/continue', ...)]. *)
Definition chat_continue (body : JsVal) : St -> Response * St :=
  respond
    (ensure_ready
       (messages <- lift (getProp body "messages") ;;
        toolResults <- lift (getProp body "toolResults") ;;
        assistantResponse <- lift (getProp body "assistantResponse") ;;
        cleanedMessages <- lift (array_map "messages" cleanMessage messages) ;;
        toolResultMessages <- lift (array_map "toolResults" toolResultMessage toolResults) ;;
        let updatedMessages :=
          (cleanedMessages ++ [assistantResponse] ++ toolResultMessages)%list in
        mcpTools <- getTools ;;
        response <- completions_create (JArr updatedMessages)
                                       (openaiTools mcpTools) ;;
        message <- lift (first_message response) ;;
        needs <- lift (has_tool_calls message) ;;
        ret (res_json (JObj [("response", message);
                             ("needsToolResponse", needs)])))).

End Server.
End OpenAI.

(* ================================================================== *)
(** * chatDatabase.js *)
(* ================================================================== *)

Module ChatDatabase.

(** A row of table [chats]. *)
Record ChatRow : Type := {
  chat_id : string;
  chat_user_id : string;
  chat_title : string;
  chat_created_at : string
}.

(** A row of table [messages]. *)
Record MessageRow : Type := {
  msg_chat_id : string;
  msg_role : string;
  msg_content : string;
  msg_created_at : string
}.

Record Tables : Type := {
  chats : list ChatRow;
  messages : list MessageRow
}.

(** What can go wrong with one query, whatever it asks: the service answers
    with [{ data: null, error }], or the call itself throws. *)
Inductive Fault : Type :=
| Healthy
| Rejected (msg : string)
| Crashed (msg : string).

(** Modelled from the spec: the external store behind the [supabase] client
    that [supabaseAuth.js] exports (that file is not among the sources).
    The spec only says that the store keeps chat and message records scoped
    by user identity and is reached through its documented request /
    response contract.  That contract is modelled as two tables and, for
    each query the client will send, whether the service is healthy when it
    arrives ([faults], first query first; past the end of the list every
    query is healthy).  A healthy query is evaluated on the tables by the
    filter semantics of the query builder; a faulty one is a query that the
    service did not carry out, and leaves them alone.  (A write that was
    carried out and whose reply was lost is not among the faults.) *)
Record Supabase : Type := {
  tables : Tables;
  faults : list Fault
}.

(** [{ data, error }] as the client resolves it. *)
Inductive Reply (A : Type) : Type :=
| Data (data : A)
| Err (msg : string).
Arguments Data {A} data.
Arguments Err {A} msg.

(** One awaited query. *)
Definition query {A} (run : Tables -> Reply A * Tables) (s : Supabase)
  : Res (Reply A) * Supabase :=
  let rest := tl (faults s) in
  match hd Healthy (faults s) with
  | Healthy =>
      let (reply, t) := run (tables s) in
      (Ok reply, {| tables := t; faults := rest |})
  | Rejected msg => (Ok (Err msg), {| tables := tables s; faults := rest |})
  | Crashed msg => (Throw (Error msg), {| tables := tables s; faults := rest |})
  end.

(** [.single()]: exactly one row, or an error. *)
Definition single {A} (rows : list A) : Reply A :=
  match rows with
  | [row] => Data row
  | _ => Err "JSON object requested, multiple (or no) rows returned"
  end.

Definition owned_by (chatId userId : string) (c : ChatRow) : bool :=
  String.eqb (chat_id c) chatId && String.eqb (chat_user_id c) userId.

(** [.from('chats').select(...).eq('id', chatId).eq('user_id', userId).single()]. *)
Definition select_chat (chatId userId : string) (t : Tables)
  : Reply ChatRow * Tables :=
  (single (filter (owned_by chatId userId) (chats t)), t).

Fixpoint insert_by_created_at (m : MessageRow) (l : list MessageRow)
  : list MessageRow :=
  match l with
  | [] => [m]
  | x :: rest =>
      if String.ltb (msg_created_at m) (msg_created_at x) then m :: l
      else x :: insert_by_created_at m rest
  end.

(** [.order('created_at', { ascending: true })]. *)
Definition order_by_created_at (l : list MessageRow) : list MessageRow :=
  fold_left (fun acc m => insert_by_created_at m acc) l [].

(** [.from('messages').select('*').eq('chat_id', chatId).order(...)]. *)
Definition select_messages (chatId : string) (t : Tables)
  : Reply (list MessageRow) * Tables :=
  (Data (order_by_created_at
           (filter (fun m => String.eqb (msg_chat_id m) chatId) (messages t))),
   t).

(** [.from('messages').insert([row]).select()]. *)
Definition insert_message (row : MessageRow) (t : Tables)
  : Reply (list MessageRow) * Tables :=
  (Data [row], {| chats := chats t; messages := (messages t ++ [row])%list |}).

Definition retitle (title : string) (c : ChatRow) : ChatRow :=
  {| chat_id := chat_id c; chat_user_id := chat_user_id c;
     chat_title := title; chat_created_at := chat_created_at c |}.

(** [.from('chats').update({ title }).eq('id', chatId).eq('user_id',
    userId).select()]. *)
Definition update_title (chatId userId title : string) (t : Tables)
  : Reply (list ChatRow) * Tables :=
  (Data (map (retitle title) (filter (owned_by chatId userId) (chats t))),
   {| chats := map (fun c => if owned_by chatId userId c
                             then retitle title c else c) (chats t);
      messages := messages t |}).

(** [.from('messages').delete().eq('chat_id', chatId)]. *)
Definition delete_messages (chatId : string) (t : Tables)
  : Reply unit * Tables :=
  (Data tt,
   {| chats := chats t;
      messages := filter (fun m => negb (String.eqb (msg_chat_id m) chatId))
                         (messages t) |}).

(** [.from('chats').delete().eq('id', chatId)]. *)
Definition delete_chat_row (chatId : string) (t : Tables)
  : Reply unit * Tables :=
  (Data tt,
   {| chats := filter (fun c => negb (String.eqb (chat_id c) chatId)) (chats t);
      messages := messages t |}).

(** The object a store function resolves to. *)
Inductive Result : Type :=
| Failed (error : string)
    (** [{ success: false, error }] *)
| ChatWithMessages (chat : ChatRow) (msgs : list MessageRow)
    (** [{ success: true, chat, messages }] *)
| MessageAdded (message : option MessageRow)
    (** [{ success: true, message: data[0] }]; [None] is [undefined] *)
| ChatUpdated (chat : option ChatRow)
    (** [{ success: true, chat: data[0] }]; [None] is [undefined] *)
| Deleted.
    (** [{ success: true }] *)

Definition success (r : Result) : bool :=
  match r with Failed _ => false | _ => true end.

(** The function-wide [catch (error) { return { success: false, error:
    error.message } }]. *)
Definition caught (error : Exn) (s : Supabase) : Result * Supabase :=
  (Failed (message error), s).

(** [getChatWithMessages(chatId, userId)]. *)
Definition getChatWithMessages (chatId userId : string) (s : Supabase)
  : Result * Supabase :=
  match query (select_chat chatId userId) s with
  | (Throw error, s1) => caught error s1
  | (Ok (Err _), s1) => (Failed "Chat not found", s1)
  | (Ok (Data chatData), s1) =>
      match query (select_messages chatId) s1 with
      | (Throw error, s2) => caught error s2
      | (Ok (Err messagesError), s2) => (Failed messagesError, s2)
      | (Ok (Data messagesData), s2) =>
          (ChatWithMessages chatData messagesData, s2)
      end
  end.

(** [addMessageToChat(chatId, role, content, userId)]; [now] is what
    [new Date().toISOString()] reads. *)
Definition addMessageToChat (now : string) (chatId role content userId : string)
           (s : Supabase) : Result * Supabase :=
  match query (select_chat chatId userId) s with
  | (Throw error, s1) => caught error s1
  | (Ok (Err _), s1) => (Failed "Chat not found", s1)
  | (Ok (Data _), s1) =>
      match query (insert_message {| msg_chat_id := chatId;
                                     msg_role := role;
                                     msg_content := content;
                                     msg_created_at := now |}) s1 with
      | (Throw error, s2) => caught error s2
      | (Ok (Err msg), s2) => (Failed msg, s2)
      | (Ok (Data data), s2) => (MessageAdded (hd_error data), s2)
      end
  end.

(** [updateChatTitle(chatId, title, userId)]. *)
Definition updateChatTitle (chatId title userId : string) (s : Supabase)
  : Result * Supabase :=
  match query (update_title chatId userId title) s with
  | (Throw error, s1) => caught error s1
  | (Ok (Err msg), s1) => (Failed msg, s1)
  | (Ok (Data data), s1) => (ChatUpdated (hd_error data), s1)
  end.

(** [deleteChat(chatId, userId)]. *)
Definition deleteChat (chatId userId : string) (s : Supabase)
  : Result * Supabase :=
  match query (select_chat chatId userId) s with
  | (Throw error, s1) => caught error s1
  | (Ok (Err _), s1) => (Failed "Chat not found", s1)
  | (Ok (Data _), s1) =>
      match query (delete_messages chatId) s1 with
      | (Throw error, s2) => caught error s2
      | (Ok (Err messagesError), s2) => (Failed messagesError, s2)
      | (Ok (Data _), s2) =>
          match query (delete_chat_row chatId) s2 with
          | (Throw error, s3) => caught error s3
          | (Ok (Err chatDeleteError), s3) => (Failed chatDeleteError, s3)
          | (Ok (Data _), s3) => (Deleted, s3)
          end
      end
  end.

(** The caller owns the chat: some row of [chats] has this id and this user. *)
Definition owns (t : Tables) (userId chatId : string) : bool :=
  existsb (owned_by chatId userId) (chats t).

(** [.from('chats').insert([row]).select()]. *)
Definition insert_chat (row : ChatRow) (t : Tables)
  : Reply (list ChatRow) * Tables :=
  (Data [row], {| chats := (chats t ++ [row])%list; messages := messages t |}).

Fixpoint insert_by_created_at_desc (c : ChatRow) (l : list ChatRow)
  : list ChatRow :=
  match l with
  | [] => [c]
  | x :: rest =>
      if String.ltb (chat_created_at x) (chat_created_at c) then c :: l
      else x :: insert_by_created_at_desc c rest
  end.

(** [.order('created_at', { ascending: false })]. *)
Definition order_by_created_at_desc (l : list ChatRow) : list ChatRow :=
  fold_left (fun acc c => insert_by_created_at_desc c acc) l [].

(** [.from('chats').select('*').eq('user_id', userId).order(...)]. *)
Definition select_user_chats (userId : string) (t : Tables)
  : Reply (list ChatRow) * Tables :=
  (Data (order_by_created_at_desc
           (filter (fun c => String.eqb (chat_user_id c) userId) (chats t))),
   t).

(** A further shape of result: [{ success: true, chats: data }]. *)
Inductive ListResult : Type :=
| ListFailed (error : string)
| ChatList (chats : list ChatRow).

(** [createChat(userId, title)]; [id] is the identifier the database gives
    the new row and [now] what [new Date().toISOString()] reads. *)
Definition createChat (id now : string) (userId title : string) (s : Supabase)
  : Result * Supabase :=
  match query (insert_chat {| chat_id := id;
                              chat_user_id := userId;
                              chat_title := title;
                              chat_created_at := now |}) s with
  | (Throw error, s1) => caught error s1
  | (Ok (Err msg), s1) => (Failed msg, s1)
  | (Ok (Data data), s1) => (ChatUpdated (hd_error data), s1)
  end.

(** [getUserChats(userId)]. *)
Definition getUserChats (userId : string) (s : Supabase)
  : ListResult * Supabase :=
  match query (select_user_chats userId) s with
  | (Throw error, s1) => (ListFailed (message error), s1)
  | (Ok (Err msg), s1) => (ListFailed msg, s1)
  | (Ok (Data data), s1) => (ChatList data, s1)
  end.

End ChatDatabase.

(* ================================================================== *)
(** * Vocabulary of the statements *)
(* ================================================================== *)

(** ** Uses of the tool endpoint client *)

(** A call on the singleton, as [server.js] makes them. *)
Inductive Call : Type :=
| CallInitialize
| CallCallTool (toolName args : JsVal)
| CallGetTools
| CallIsReady.

(** What the caller got back. *)
Inductive Outcome : Type :=
| ReturnedBool (b : bool)
| ReturnedValue (v : JsVal)
| ReturnedTools (l : list ToolDescriptor)
| Thrown (e : Exn).

Definition outcome {A} (wrap : A -> Outcome) (r : Res A * St) : Outcome * St :=
  match r with
  | (Ok a, st) => (wrap a, st)
  | (Throw e, st) => (Thrown e, st)
  end.

Definition perform (W : World) (c : Call) (st : St) : Outcome * St :=
  match c with
  | CallInitialize => outcome ReturnedBool (initialize W st)
  | CallCallTool toolName args => outcome ReturnedValue (callTool W toolName args st)
  | CallGetTools => outcome ReturnedTools (getTools st)
  | CallIsReady => outcome ReturnedBool (isReady st)
  end.

(** A history of the process: the calls made since the module was loaded,
    each with its outcome, and the state they leave. *)
Fixpoint run (W : World) (cs : list Call) (st : St)
  : list (Call * Outcome) * St :=
  match cs with
  | [] => ([], st)
  | c :: rest =>
      let (o, st1) := perform W c st in
      let (log, st2) := run W rest st1 in
      ((c, o) :: log, st2)
  end.

(** A successful connect: an [initialize()] that returned [true]. *)
Definition is_successful_connect (entry : Call * Outcome) : bool :=
  match entry with
  | (CallInitialize, ReturnedBool true) => true
  | _ => false
  end.

Definition connected_once (log : list (Call * Outcome)) : bool :=
  existsb is_successful_connect log.

(** ** Reading a schedule *)

Definition is_connect_success (s : Step) : bool :=
  match s with ConnectSettles _ (Ok _) => true | _ => false end.

(** Some connect of the schedule has succeeded. *)
Definition connect_succeeded (steps : list Step) : bool :=
  existsb is_connect_success steps.

Definition is_awaiting (c : Progress) : bool :=
  match c with Returned _ => false | _ => true end.

Definition is_awaiting_list (c : Progress) : bool :=
  match c with AwaitingListTools => true | _ => false end.

Definition has_returned_true (c : Progress) : bool :=
  match c with Returned true => true | _ => false end.

(** Some call of [initialize()] has not returned yet. *)
Definition in_flight (p : Process) : bool := existsb is_awaiting (calls p).

(** Some call of [initialize()] is between its connect and the answer to
    its [listTools()]. *)
Definition fetching (p : Process) : bool := existsb is_awaiting_list (calls p).

(** Some call of [initialize()] has fetched the tool list: these are the
    calls that returned [true]. *)
Definition fetched (p : Process) : bool := existsb has_returned_true (calls p).

(** "[isReady()] returns true only after a connect call that successfully
    fetched the tool list", at a state of the process. *)
Definition ready_only_once_fetched (p : Process) : Prop :=
  isConnected (manager p) = true -> fetched p = true.

(** What every schedule keeps; [ever] tells whether a connect has succeeded
    so far. *)
Definition interleaved_ok (ever : bool) (p : Process) : Prop :=
  (ever = false ->
   isConnected (manager p) = false /\ tools (manager p) = [])
  /\ (isConnected (manager p) = true -> fetching p = true \/ fetched p = true)
  /\ (fetched p = false -> tools (manager p) = [])
  /\ (fetching p = true \/ fetched p = true -> ever = true).

(** The schedule of a call of [initialize()] that nothing interrupts, made
    as the [k]-th call, in a world and after a trace. *)
Definition uninterrupted (W : World) (h : list Event) (k : nat) : list Step :=
  match client_connect W h with
  | Ok _ =>
      [Invoke; ConnectSettles k (Ok tt);
       ListToolsSettles k (client_listTools W (h ++ [EvConnect])%list)]
  | Throw e => [Invoke; ConnectSettles k (Throw e)]
  end.

(** ** Reading a trace *)

Definition is_connect (ev : Event) : bool :=
  match ev with EvConnect => true | _ => false end.

Definition is_model (ev : Event) : bool :=
  match ev with EvModel _ => true | _ => false end.

Definition is_tool (ev : Event) : bool :=
  match ev with EvCallTool _ _ => true | _ => false end.

(** The reconnect attempts, the provider requests and the tool executions recorded in a trace. *)
Definition connect_attempts (evs : list Event) : nat :=
  List.length (filter is_connect evs).

Definition model_requests (evs : list Event) : list Event := filter is_model evs.

Definition tool_executions (evs : list Event) : list Event := filter is_tool evs.

(** ** Well-formed requests *)

Definition nullish (v : JsVal) : bool :=
  match v with JUndefined | JNull => true | _ => false end.

(** [v.k] where [v] is known not to be [undefined] or [null]. *)
Definition field (v : JsVal) (k : string) : JsVal :=
  match getProp v k with Ok x => x | Throw _ => JUndefined end.

(** A message with its bookkeeping fields stripped. *)
Definition cleaned (msg : JsVal) : JsVal :=
  JObj [("role", field msg "role"); ("content", field msg "content")].

(** The state in which the OpenAI handlers go on after their readiness
    check, if they do: the state itself when the client is ready, the state
    after a successful [initialize()] when it is not. *)
Definition made_ready (W : World) (st : St) : option St :=
  if isConnected (mcpClient st) then Some st
  else match initialize W st with
       | (Ok true, st1) => Some st1
       | _ => None
       end.

(** What a history guarantees about the state it leaves; [ever] tells whether
    a connect had succeeded before the history began. *)
Definition lifecycle_ok (ever : bool) (st : St) : Prop :=
  (isConnected (mcpClient st) = true ->
   ever = true /\ client (mcpClient st) = Some tt)
  /\ (ever = false -> tools (mcpClient st) = []).

(** The connection flag is only ever set on a manager that holds a
    client: [initialize()] creates the client before it connects. *)
Definition coherent (st : St) : Prop :=
  isConnected (mcpClient st) = true -> client (mcpClient st) = Some tt.

(** ** Model turns that request tools *)

(** A tool call as the OpenAI provider emits it; [call_arguments] is the
    text the model produced for the arguments. *)
Record ToolCall : Type := {
  call_id : string;
  call_name : string;
  call_arguments : string
}.

Definition toolCall_js (c : ToolCall) : JsVal :=
  JObj [("id", JStr (call_id c));
        ("type", JStr "function");
        ("function", JObj [("name", JStr (call_name c));
                           ("arguments", JStr (call_arguments c))])].

(** The arguments of a call whose text parses. *)
Definition parsed (W : World) (c : ToolCall) : JsVal :=
  match JSON_parse W (call_arguments c) with
  | Ok args => args
  | Throw _ => JUndefined
  end.

Definition parses (W : World) (c : ToolCall) : bool :=
  match JSON_parse W (call_arguments c) with Ok _ => true | Throw _ => false end.

(** The execution of a call on the tool endpoint. *)
Definition execution (W : World) (c : ToolCall) : Event :=
  EvCallTool (JStr (call_name c)) (parsed W c).

(** The result list the relay owes for the calls of one turn, started on
    trace [h]: one entry per call, in order, tagged with the call's
    identifier, bearing [result] if the tool endpoint answered and [error]
    if it threw. *)
Fixpoint openai_entries (W : World) (h : list Event) (calls : list ToolCall)
  : list JsVal :=
  match calls with
  | [] => []
  | c :: rest =>
      JObj [("tool_call_id", JStr (call_id c));
            ("name", JStr (call_name c));
            ("arguments", parsed W c);
            match client_callTool W h (JStr (call_name c)) (parsed W c) with
            | Ok result => ("result", result)
            | Throw error => ("error", JStr (message error))
            end]
      :: openai_entries W (h ++ [execution W c])%list rest
  end.

(** A content block of an Anthropic message. *)
Inductive ContentBlock : Type :=
| TextBlock (text : string)
| ToolUseBlock (id toolName : string) (input : JsVal).

Definition block_js (b : ContentBlock) : JsVal :=
  match b with
  | TextBlock text => JObj [("type", JStr "text"); ("text", JStr text)]
  | ToolUseBlock id toolName input =>
      JObj [("type", JStr "tool_use"); ("id", JStr id);
            ("name", JStr toolName); ("input", input)]
  end.

(** The tool executions a list of blocks asks for, in order. *)
Fixpoint block_executions (blocks : list ContentBlock) : list Event :=
  match blocks with
  | [] => []
  | TextBlock _ :: rest => block_executions rest
  | ToolUseBlock _ toolName input :: rest =>
      EvCallTool (JStr toolName) input :: block_executions rest
  end.

(** The result list owed for them, as [openai_entries]. *)
Fixpoint anthropic_entries (W : World) (h : list Event)
         (blocks : list ContentBlock) : list JsVal :=
  match blocks with
  | [] => []
  | TextBlock _ :: rest => anthropic_entries W h rest
  | ToolUseBlock id toolName input :: rest =>
      JObj [("tool_use_id", JStr id);
            ("name", JStr toolName);
            ("input", input);
            match client_callTool W h (JStr toolName) input with
            | Ok result => ("result", result)
            | Throw error => ("error", JStr (message error))
            end]
      :: anthropic_entries W (h ++ [EvCallTool (JStr toolName) input])%list rest
  end.

(** The provider requests the two [/api/chat] handlers build from the
    request's messages and the cached tool list. *)
Definition openai_request (msgs : list JsVal) (mcpTools : list ToolDescriptor)
  : JsVal :=
  JObj [("model", JStr "gpt-4-turbo-preview");
        ("messages", JArr msgs);
        ("tools", OpenAI.openaiTools mcpTools);
        ("tool_choice", JStr "auto")].

Definition anthropic_request (msgs : list JsVal) (mcpTools : list ToolDescriptor)
  : JsVal :=
  JObj [("model", JStr "claude-sonnet-4-5-20250929");
        ("max_tokens", JNum 4096);
        ("messages", JArr msgs);
        ("tools", Anthropic.claudeTools mcpTools)].

Definition add_events (st : St) (evs : list Event) : St :=
  {| mcpClient := mcpClient st; trace := (trace st ++ evs)%list |}.

(** ** Final answers *)

(** An OpenAI message that asks for no tool: [tool_calls] is absent, [null]
    or an empty array. *)
Definition final_openai (message : JsVal) : bool :=
  match getProp message "tool_calls" with
  | Ok JUndefined | Ok JNull | Ok (JArr []) => true
  | _ => false
  end.

(** An Anthropic response that asks for no tool: it stopped for another
    reason than ['tool_use']. *)
Definition final_anthropic (response : JsVal) : bool :=
  match getProp response "stop_reason" with
  | Ok (JStr reason) => negb (String.eqb reason "tool_use")
  | Ok _ => true
  | Throw _ => false
  end.

(** ** What a piece of a handler may do *)

(** The computation leaves the manager alone and adds to the trace only
    events that satisfy [P]. *)
Definition adds_only {A} (P : Event -> bool) (c : M A) : Prop :=
  forall st, exists evs,
      snd (c st) = add_events st evs /\ forallb P evs = true.

(** If the computation returns a response, it is a 200. *)
Definition replies_200 (c : M Response) : Prop :=
  forall st, match fst (c st) with
             | Ok r => status r = 200
             | Throw _ => True
             end.

Definition not_connect (ev : Event) : bool := negb (is_connect ev).

(** ** The edge-case policy, as the specification words it *)

(** "Given [messages], the relay fails fast with [InvalidInput] and does not
    invoke the Model Gateway": every request whose [messages] is that value
    is answered 400 ['Messages array is required'], and the trace gains no
    provider request. *)
Definition fails_fast (chat : World -> JsVal -> St -> Response * St)
           (messages : JsVal) : Prop :=
  forall W body st,
    getProp body "messages" = Ok messages ->
    fst (chat W body st)
    = res_status_json 400 (error_body "Messages array is required")
    /\ model_requests (trace (snd (chat W body st)))
       = model_requests (trace st).

(** "If the Tool Endpoint Client is not ready, the relay attempts one lazy
    reconnect": every request that finds the client not ready adds exactly
    one connect attempt to the trace. *)
Definition reconnects_once (chat : World -> JsVal -> St -> Response * St)
  : Prop :=
  forall W body st,
    isConnected (mcpClient st) = false ->
    exists evs,
      trace (snd (chat W body st)) = (trace st ++ evs)%list
      /\ connect_attempts evs = 1%nat.

(** ** Test doubles *)

Definition search_tool : ToolDescriptor :=
  {| name := JStr "search";
     description := JStr "Search the documentation";
     inputSchema := JObj [("type", JStr "object")] |}.

(** A world for the examples.  The remote tool service accepts connections,
    lists one tool and answers every call with an empty array; the provider
    answers every request with [turn].  The built-ins are given on the few
    values the examples use, as JavaScript has them: [JSON.parse] reads the
    text [{}] as the empty object and rejects the text [{]; [JSON.stringify]
    gives [undefined] for [undefined] and the texts of the empty array and
    the empty object. *)
Definition double (turn : JsVal) : World :=
  {| JSON_parse := fun s =>
       if String.eqb s "{}" then Ok (JObj [])
       else Throw (SyntaxError "Unexpected end of JSON input");
     JSON_stringify := fun v =>
       match v with
       | JUndefined => JUndefined
       | JArr [] => JStr "[]"
       | _ => JStr "{}"
       end;
     StringToNumber := fun _ => None;
     client_connect := fun _ => Ok tt;
     client_listTools := fun _ => Ok [search_tool];
     client_callTool := fun _ _ _ => Ok (JArr []);
     model_create := fun _ _ => Ok turn |}.

(** The same, with a tool service that cannot be reached. *)
Definition double_offline (turn : JsVal) : World :=
  {| JSON_parse := JSON_parse (double turn);
     JSON_stringify := JSON_stringify (double turn);
     StringToNumber := StringToNumber (double turn);
     client_connect := fun _ => Throw (Error "fetch failed");
     client_listTools := client_listTools (double turn);
     client_callTool := client_callTool (double turn);
     model_create := model_create (double turn) |}.

(** The same as [double], with a tool service on which every call fails. *)
Definition double_failing_tool (turn : JsVal) : World :=
  {| JSON_parse := JSON_parse (double turn);
     JSON_stringify := JSON_stringify (double turn);
     StringToNumber := StringToNumber (double turn);
     client_connect := client_connect (double turn);
     client_listTools := client_listTools (double turn);
     client_callTool := fun _ _ _ => Throw (Error "tool failed");
     model_create := model_create (double turn) |}.

(** A final answer of each provider. *)
Definition openai_final_turn : JsVal :=
  JObj [("choices",
         JArr [JObj [("message",
                      JObj [("role", JStr "assistant");
                            ("content", JStr "Hello")])]])].

Definition anthropic_final_turn : JsVal :=
  JObj [("content", JArr [block_js (TextBlock "Hello")]);
        ("stop_reason", JStr "end_turn")].

(** An OpenAI turn that asks for the given calls. *)
Definition openai_tool_message (calls : list ToolCall) : JsVal :=
  JObj [("role", JStr "assistant");
        ("content", JNull);
        ("tool_calls", JArr (map toolCall_js calls))].

Definition openai_tool_turn_js (calls : list ToolCall) : JsVal :=
  JObj [("choices", JArr [JObj [("message", openai_tool_message calls)]])].

(** An Anthropic turn that stops for tool use. *)
Definition anthropic_tool_turn_js (blocks : list ContentBlock) : JsVal :=
  JObj [("content", JArr (map block_js blocks));
        ("stop_reason", JStr "tool_use")].

Definition hello : JsVal :=
  JObj [("role", JStr "user"); ("content", JStr "Hello");
        ("isToolCall", JBool false)].

(** The state a process is in once it has connected. *)
Definition connected (W : World) : St := snd (initialize W boot).

(** ** The continuation *)

Definition render_error (tr : JsVal) : JsVal :=
  JStr ("Error: " ++ ToString (field tr "error")).

Definition render_result (W : World) (tr : JsVal) : JsVal :=
  JSON_stringify W (field tr "result").

(** The content of a tool result as the specification words it: the error
    text when the result has an [error] field, the serialised [result]
    otherwise. *)
Definition rendered_as_stated (W : World) (tr : JsVal) : JsVal :=
  if has_field "error" tr then render_error tr else render_result W tr.

(** The same, decided on whether the [error] field holds a truthy value. *)
Definition rendered_if_truthy (W : World) (tr : JsVal) : JsVal :=
  if truthy (field tr "error") then render_error tr else render_result W tr.

(** [...original, assistant tool-request, tool result(s)] in the OpenAI
    shape: the assistant message as received, then one [tool] message per
    result. *)
Definition openai_conversation (render : JsVal -> JsVal)
           (msgs : list JsVal) (assistantResponse : JsVal) (trs : list JsVal)
  : list JsVal :=
  (map cleaned msgs
   ++ [assistantResponse]
   ++ map (fun tr => JObj [("role", JStr "tool");
                           ("tool_call_id", field tr "tool_call_id");
                           ("content", render tr)]) trs)%list.

(** The same in the Anthropic shape: an assistant message with the content
    of the response, then one [user] message holding a [tool_result] block
    per result. *)
Definition anthropic_conversation (render : JsVal -> JsVal)
           (msgs : list JsVal) (assistantResponse : JsVal) (trs : list JsVal)
  : list JsVal :=
  (map cleaned msgs
   ++ [JObj [("role", JStr "assistant");
             ("content", field assistantResponse "content")];
       JObj [("role", JStr "user");
             ("content",
              JArr (map (fun tr => JObj [("type", JStr "tool_result");
                                         ("tool_use_id", field tr "tool_use_id");
                                         ("content", render tr)]) trs))]])%list.

(** A continuation request: arrays of messages and of tool results, none of
    them [undefined] or [null], and an assistant response. *)
Definition continuation_body (body : JsVal) (msgs : list JsVal)
           (assistantResponse : JsVal) (trs : list JsVal) : Prop :=
  getProp body "messages" = Ok (JArr msgs)
  /\ getProp body "toolResults" = Ok (JArr trs)
  /\ getProp body "assistantResponse" = Ok assistantResponse
  /\ forallb (fun m => negb (nullish m)) msgs = true
  /\ forallb (fun tr => negb (nullish tr)) trs = true
  /\ nullish assistantResponse = false.

(** The continuation round trip, for a given rendering of tool results: on a
    continuation request, each generation submits to the provider exactly
    one request, and its conversation is the one above.  (The OpenAI
    generation first makes the client ready; the Anthropic one needs no
    client.) *)
Definition continuation_submits (render : World -> JsVal -> JsVal) : Prop :=
  forall W body msgs assistantResponse trs st,
    continuation_body body msgs assistantResponse trs ->
    (forall st1,
        made_ready W st = Some st1 ->
        snd (OpenAI.chat_continue W body st)
        = add_events st1
            [EvModel (openai_request
                        (openai_conversation (render W) msgs assistantResponse trs)
                        (tools (mcpClient st1)))])
    /\ snd (Anthropic.chat_continue W body st)
       = add_events st
           [EvModel (anthropic_request
                       (anthropic_conversation (render W) msgs assistantResponse trs)
                       (tools (mcpClient st)))].

(** Two tool calls and the entries the relay makes for them: the first
    succeeded, the second failed. *)
Definition call_1 : ToolCall :=
  {| call_id := "call_1"; call_name := "search"; call_arguments := "{}" |}.

Definition call_2 : ToolCall :=
  {| call_id := "call_2"; call_name := "search"; call_arguments := "{}" |}.

(** A call whose arguments text is cut short. *)
Definition call_cut : ToolCall :=
  {| call_id := "call_cut"; call_name := "search"; call_arguments := "{" |}.

Definition entry_ok : JsVal :=
  JObj [("tool_call_id", JStr "call_1"); ("name", JStr "search");
        ("arguments", JObj []); ("result", JArr [])].

Definition entry_failed : JsVal :=
  JObj [("tool_call_id", JStr "call_2"); ("name", JStr "search");
        ("arguments", JObj []); ("error", JStr "tool failed")].

(** The entry of a call that failed with an error whose message is empty. *)
Definition entry_failed_silently : JsVal :=
  JObj [("tool_call_id", JStr "call_2"); ("name", JStr "search");
        ("arguments", JObj []); ("error", JStr "")].

Definition continue_body (trs : list JsVal) : JsVal :=
  JObj [("messages", JArr [hello]);
        ("toolResults", JArr trs);
        ("assistantResponse", openai_tool_message [call_1; call_2])].

(** ** A store for the examples *)

(** One chat, Alice's, with one message. *)
Definition alices_store : ChatDatabase.Supabase :=
  {| ChatDatabase.tables :=
       {| ChatDatabase.chats :=
            [{| ChatDatabase.chat_id := "c1";
                ChatDatabase.chat_user_id := "alice";
                ChatDatabase.chat_title := "Gas fees";
                ChatDatabase.chat_created_at := "2025-01-01T00:00:00.000Z" |}];
          ChatDatabase.messages :=
            [{| ChatDatabase.msg_chat_id := "c1";
                ChatDatabase.msg_role := "user";
                ChatDatabase.msg_content := "Hello";
                ChatDatabase.msg_created_at := "2025-01-01T00:00:01.000Z" |}] |};
     ChatDatabase.faults := [] |}.

(** The scenario of the specification: one tool [search]; the model asks for
    [search({ q: 'x' })] under the identifier [c1]; the tool answers
    [{ hits: [] }]. *)
Definition scenario_turn : JsVal :=
  anthropic_tool_turn_js
    [ToolUseBlock "c1" "search" (JObj [("q", JStr "x")])].

Definition scenario_world : World :=
  {| JSON_parse := JSON_parse (double scenario_turn);
     JSON_stringify := JSON_stringify (double scenario_turn);
     StringToNumber := StringToNumber (double scenario_turn);
     client_connect := fun _ => Ok tt;
     client_listTools := fun _ => Ok [search_tool];
     client_callTool := fun _ _ _ => Ok (JObj [("hits", JArr [])]);
     model_create := fun _ _ => Ok scenario_turn |}.

(** ** Reading the store *)

(** The service is healthy from now on. *)
Definition healthy (s : ChatDatabase.Supabase) : Prop :=
  ChatDatabase.faults s = [].

(** The chat [chatId] exists, once, and is [userId]'s: the row the ownership
    check finds. *)
Definition owned_chat (s : ChatDatabase.Supabase) (chatId userId : string)
           (chat : ChatDatabase.ChatRow) : Prop :=
  filter (ChatDatabase.owned_by chatId userId)
         (ChatDatabase.chats (ChatDatabase.tables s)) = [chat].

(** Oldest first / newest first, by [created_at]. *)
Definition oldest_first (l : list ChatDatabase.MessageRow) : Prop :=
  Sorted (fun a b => String.ltb (ChatDatabase.msg_created_at b)
                                (ChatDatabase.msg_created_at a) = false) l.

Definition newest_first (l : list ChatDatabase.ChatRow) : Prop :=
  Sorted (fun a b => String.ltb (ChatDatabase.chat_created_at a)
                                (ChatDatabase.chat_created_at b) = false) l.

(** A second user and chats for the examples. *)
Definition bobs_chat : ChatDatabase.ChatRow :=
  {| ChatDatabase.chat_id := "c2";
     ChatDatabase.chat_user_id := "bob";
     ChatDatabase.chat_title := "Bridging";
     ChatDatabase.chat_created_at := "2025-01-03T00:00:00.000Z" |}.

Definition alices_chat : ChatDatabase.ChatRow :=
  {| ChatDatabase.chat_id := "c1";
     ChatDatabase.chat_user_id := "alice";
     ChatDatabase.chat_title := "Gas fees";
     ChatDatabase.chat_created_at := "2025-01-01T00:00:00.000Z" |}.

Definition alices_message : ChatDatabase.MessageRow :=
  {| ChatDatabase.msg_chat_id := "c1";
     ChatDatabase.msg_role := "user";
     ChatDatabase.msg_content := "Hello";
     ChatDatabase.msg_created_at := "2025-01-01T00:00:01.000Z" |}.

Definition bobs_message : ChatDatabase.MessageRow :=
  {| ChatDatabase.msg_chat_id := "c2";
     ChatDatabase.msg_role := "user";
     ChatDatabase.msg_content := "Hi";
     ChatDatabase.msg_created_at := "2025-01-03T00:00:01.000Z" |}.

(** Alice's and Bob's chats, one message each, on a service with the given
    faults ahead. *)
Definition shared_store (fs : list ChatDatabase.Fault) : ChatDatabase.Supabase :=
  {| ChatDatabase.tables :=
       {| ChatDatabase.chats := [alices_chat; bobs_chat];
          ChatDatabase.messages := [alices_message; bobs_message] |};
     ChatDatabase.faults := fs |}.

(** ** What reaches the provider *)

(** The computation adds to the trace only events that satisfy [P]; it may
    change the manager. *)
Definition trace_adds {A} (P : Event -> bool) (c : M A) : Prop :=
  forall st, exists evs,
      trace (snd (c st)) = (trace st ++ evs)%list /\ forallb P evs = true.

(** An object with the properties [role] and [content] and no other. *)
Definition only_role_and_content (v : JsVal) : bool :=
  match v with
  | JObj [(k1, _); (k2, _)] => String.eqb k1 "role" && String.eqb k2 "content"
  | _ => false
  end.

(** A provider request whose conversation holds such objects only; any other
    event passes. *)
Definition submits_clean_messages (ev : Event) : bool :=
  match ev with
  | EvModel request =>
      match field request "messages" with
      | JArr items => forallb only_role_and_content items
      | _ => false
      end
  | _ => true
  end.

(** The events of the relay proper: provider requests and tool executions. *)
Definition model_or_tool (ev : Event) : bool := is_model ev || is_tool ev.

(** Anything but a tool execution. *)
Definition not_tool (ev : Event) : bool := negb (is_tool ev).

(** The descriptor a provider declaration was made from. *)
Definition declared_by_openai (declaration : JsVal) : ToolDescriptor :=
  {| name := field (field declaration "function") "name";
     description := field (field declaration "function") "description";
     inputSchema := field (field declaration "function") "parameters" |}.

Definition declared_by_anthropic (declaration : JsVal) : ToolDescriptor :=
  {| name := field declaration "name";
     description := field declaration "description";
     inputSchema := field declaration "input_schema" |}.

Definition array_items (v : JsVal) : list JsVal :=
  match v with JArr items => items | _ => [] end.

(** [double], with a provider that rejects every request. *)
Definition double_provider_down : World :=
  {| JSON_parse := JSON_parse (double JNull);
     JSON_stringify := JSON_stringify (double JNull);
     StringToNumber := StringToNumber (double JNull);
     client_connect := client_connect (double JNull);
     client_listTools := client_listTools (double JNull);
     client_callTool := client_callTool (double JNull);
     model_create := fun _ _ => Throw (Error "429 Rate limit reached") |}.

(* ================================================================== *)
(** * server.js: the routes beside the relay *)
(* ================================================================== *)

(** A tool descriptor as [res.json({ tools })] sends it. *)
Definition tool_js (t : ToolDescriptor) : JsVal :=
  JObj [("name", name t);
        ("description", description t);
        ("inputSchema", inputSchema t)].

Definition tools_body (l : list ToolDescriptor) : JsVal :=
  JObj [("tools", JArr (map tool_js l))].

(** A request to the relay's routes. *)
Inductive RelayRequest : Type :=
| PostChat (body : JsVal)
| PostChatContinue (body : JsVal)
| GetTools
| GetHealth (now : string).

Module AnthropicRoutes.
Section Server.
Variable W : World.

(** [app.get('/api/health', ...)]; [now] is what [new Date().toISOString()]
    reads. *)
Definition health (now : string) (st : St) : Response * St :=
  (res_json (JObj [("status", JStr "ok");
                   ("mcpConnected", JBool (isConnected (mcpClient st)));
                   ("timestamp", JStr now)]),
   st).

(** [app.get('/api/tools', ...)]. *)
Definition tools_route : St -> Response * St :=
  respond (mcpTools <- getTools ;; ret (res_json (tools_body mcpTools))).

(** [startServer()]: connect, warn if that failed, listen in any case. *)
Definition startServer : M unit :=
  initialize W ;;; ret tt.

Definition serve (r : RelayRequest) : St -> Response * St :=
  match r with
  | PostChat body => Anthropic.chat W body
  | PostChatContinue body => Anthropic.chat_continue W body
  | GetTools => tools_route
  | GetHealth now => health now
  end.

(** The requests of a process, served one after the other. *)
Fixpoint serve_all (rs : list RelayRequest) (st : St)
  : list (RelayRequest * Response) * St :=
  match rs with
  | [] => ([], st)
  | r :: rest =>
      let (response, st1) := serve r st in
      let (log, st2) := serve_all rest st1 in
      ((r, response) :: log, st2)
  end.

End Server.
End AnthropicRoutes.

Module OpenAIRoutes.
Section Server.
Variable W : World.

(** [app.get('/api/health', ...)]. *)
Definition health (now : string) (st : St) : Response * St :=
  (res_json (JObj [("status", JStr "ok");
                   ("mcpConnected", JBool (isConnected (mcpClient st)));
                   ("timestamp", JStr now)]),
   st).

(** [app.get('/api/tools', ...)]: reconnects when the client is not ready,
    and lists the tools whether or not that worked. *)
Definition tools_route : St -> Response * St :=
  respond
    (ready <- isReady ;;
     (if negb ready then initialize W ;;; ret tt else ret tt) ;;;
     mcpTools <- getTools ;;
     ret (res_json (tools_body mcpTools))).

End Server.
End OpenAIRoutes.

Definition is_post_chat (r : RelayRequest) : bool :=
  match r with PostChat _ => true | _ => false end.

(* ================================================================== *)
(** * server.js: authentication and the chat routes *)
(* ================================================================== *)

Module Site.

(** What a function of [supabaseAuth.js] resolves to: [{ success, user,
    session, error }]. *)
Record AuthResult : Type := {
  success : bool;
  user : JsVal;
  session : JsVal;
  error : JsVal
}.

(** A call on [supabaseAuth.js]. *)
Inductive AuthCall : Type :=
| SignUpUser (email password : JsVal)
| SignInUser (email password : JsVal)
| SignOutUser
| GetUserSession (token : JsVal).

(** The two stores behind the routes: the chat store, and the calls made on
    the authentication service so far. *)
Record Backend : Type := {
  store : ChatDatabase.Supabase;
  auth_calls : list AuthCall
}.

(** A request as the chat routes read it: the [Authorization] header, the
    user [extractUser] has attached ([undefined] if none), the [:chatId] of
    the path and the parsed body. *)
Record Request : Type := {
  authorization : option string;
  req_user : JsVal;
  chatId : string;
  body : JsVal
}.

Section Routes.

(** [supabaseAuth.js] is not among the sources: its four functions are taken
    as they answer, given the calls made before. *)
Variable auth : list AuthCall -> AuthCall -> Res AuthResult.

(** The text the store keeps or compares for a value that is not a text
    (a text is taken as it is). *)
Variable cast : JsVal -> string.

Definition as_text (v : JsVal) : string :=
  match v with JStr s => s | _ => cast v end.

Definition call_auth (c : AuthCall) (b : Backend) : Res AuthResult * Backend :=
  (auth (auth_calls b) c,
   {| store := store b; auth_calls := (auth_calls b ++ [c])%list |}).

Definition with_store (b : Backend) (s : ChatDatabase.Supabase) : Backend :=
  {| store := s; auth_calls := auth_calls b |}.

Definition error_500 (e : Exn) : Response :=
  res_status_json 500 (error_body (message e)).

(** [extractUser]: the middleware in front of every route.  It gives the
    request on to the route ([next()]), with the user of the session when
    the header is [Bearer <token>] and the token is good. *)
Definition extractUser (req : Request) (b : Backend) : Res Request * Backend :=
  match authorization req with
  | Some authHeader =>
      if negb (String.eqb authHeader "") && String.prefix "Bearer " authHeader
      then
        let token :=
          String.substring 7 (String.length authHeader - 7) authHeader in
        match call_auth (GetUserSession (JStr token)) b with
        | (Ok result, b1) =>
            (Ok (if success result
                 then {| authorization := authorization req;
                         req_user := user result;
                         chatId := chatId req;
                         body := body req |}
                 else req),
             b1)
        | (Throw e, b1) => (Throw e, b1)
        end
      else (Ok req, b)
  | None => (Ok req, b)
  end.

(** [{ email, password } = req.body], checked and handed to [signUpUser] or
    [signInUser]. *)
Definition with_credentials (make : JsVal -> JsVal -> AuthCall)
           (req : Request) (b : Backend) : Response * Backend :=
  match getProp (body req) "email" with
  | Throw e => (error_500 e, b)
  | Ok email =>
      match getProp (body req) "password" with
      | Throw e => (error_500 e, b)
      | Ok password =>
          if negb (truthy email) || negb (truthy password) then
            (res_status_json 400 (error_body "Email and password are required"), b)
          else
            match call_auth (make email password) b with
            | (Throw e, b1) => (error_500 e, b1)
            | (Ok result, b1) =>
                if negb (success result) then
                  (res_status_json 400 (JObj [("error", error result)]), b1)
                else
                  (res_json (JObj [("success", JBool true);
                                   ("user", user result);
                                   ("session", session result)]), b1)
            end
      end
  end.

(** [app.post('/api/auth/signup', ...)]. *)
Definition signup : Request -> Backend -> Response * Backend :=
  with_credentials SignUpUser.

(** [app.post('/api/auth/signin', ...)]. *)
Definition signin : Request -> Backend -> Response * Backend :=
  with_credentials SignInUser.

(** [app.post('/api/auth/signout', ...)]. *)
Definition signout (req : Request) (b : Backend) : Response * Backend :=
  match call_auth SignOutUser b with
  | (Throw e, b1) => (error_500 e, b1)
  | (Ok result, b1) =>
      if negb (success result) then
        (res_status_json 400 (JObj [("error", error result)]), b1)
      else (res_json (JObj [("success", JBool true)]), b1)
  end.

(** [app.post('/api/auth/session', ...)]. *)
Definition session_route (req : Request) (b : Backend) : Response * Backend :=
  match getProp (body req) "token" with
  | Throw e => (error_500 e, b)
  | Ok token =>
      if negb (truthy token) then
        (res_status_json 400 (error_body "Token is required"), b)
      else
        match call_auth (GetUserSession token) b with
        | (Throw e, b1) => (error_500 e, b1)
        | (Ok result, b1) =>
            if negb (success result) then
              (res_status_json 401 (JObj [("error", error result)]), b1)
            else
              (res_json (JObj [("success", JBool true);
                               ("user", user result)]), b1)
        end
  end.

(** Rows and results as [res.json(result)] sends them. *)
Definition chat_js (c : ChatDatabase.ChatRow) : JsVal :=
  JObj [("id", JStr (ChatDatabase.chat_id c));
        ("user_id", JStr (ChatDatabase.chat_user_id c));
        ("title", JStr (ChatDatabase.chat_title c));
        ("created_at", JStr (ChatDatabase.chat_created_at c))].

Definition message_js (m : ChatDatabase.MessageRow) : JsVal :=
  JObj [("chat_id", JStr (ChatDatabase.msg_chat_id m));
        ("role", JStr (ChatDatabase.msg_role m));
        ("content", JStr (ChatDatabase.msg_content m));
        ("created_at", JStr (ChatDatabase.msg_created_at m))].

Definition optional {A} (f : A -> JsVal) (o : option A) : JsVal :=
  match o with Some a => f a | None => JUndefined end.

Definition result_js (r : ChatDatabase.Result) : JsVal :=
  match r with
  | ChatDatabase.Failed e =>
      JObj [("success", JBool false); ("error", JStr e)]
  | ChatDatabase.ChatWithMessages c ms =>
      JObj [("success", JBool true); ("chat", chat_js c);
            ("messages", JArr (map message_js ms))]
  | ChatDatabase.MessageAdded m =>
      JObj [("success", JBool true); ("message", optional message_js m)]
  | ChatDatabase.ChatUpdated c =>
      JObj [("success", JBool true); ("chat", optional chat_js c)]
  | ChatDatabase.Deleted => JObj [("success", JBool true)]
  end.

(** [if (!result.success) return res.status(400).json({ error: result.error });
    res.json(...)], [sent] being what a success sends. *)
Definition reply (sent : ChatDatabase.Result -> JsVal)
           (r : ChatDatabase.Result) : Response :=
  match r with
  | ChatDatabase.Failed e => res_status_json 400 (error_body e)
  | _ => res_json (sent r)
  end.

Definition unauthorized : Response :=
  res_status_json 401 (error_body "Unauthorized").

(** [app.post('/api/chats', ...)]; [id] and [now] as in [createChat]. *)
Definition post_chats (id now : string) (req : Request) (b : Backend)
  : Response * Backend :=
  if negb (truthy (req_user req)) then (unauthorized, b)
  else
    match getProp (body req) "title" with
    | Throw e => (error_500 e, b)
    | Ok title =>
        if negb (truthy title) then
          (res_status_json 400 (error_body "Title is required"), b)
        else
          match getProp (req_user req) "id" with
          | Throw e => (error_500 e, b)
          | Ok userId =>
              let (result, s1) :=
                ChatDatabase.createChat id now (as_text userId) (as_text title)
                                        (store b) in
              (reply result_js result, with_store b s1)
          end
    end.

(** [app.get('/api/chats', ...)]. *)
Definition get_chats (req : Request) (b : Backend) : Response * Backend :=
  if negb (truthy (req_user req)) then (unauthorized, b)
  else
    match getProp (req_user req) "id" with
    | Throw e => (error_500 e, b)
    | Ok userId =>
        let (result, s1) :=
          ChatDatabase.getUserChats (as_text userId) (store b) in
        (match result with
         | ChatDatabase.ListFailed e => res_status_json 400 (error_body e)
         | ChatDatabase.ChatList l =>
             res_json (JObj [("success", JBool true);
                             ("chats", JArr (map chat_js l))])
         end,
         with_store b s1)
    end.

(** [app.get('/api/chats/:chatId', ...)]. *)
Definition get_chat (req : Request) (b : Backend) : Response * Backend :=
  if negb (truthy (req_user req)) then (unauthorized, b)
  else
    match getProp (req_user req) "id" with
    | Throw e => (error_500 e, b)
    | Ok userId =>
        let (result, s1) :=
          ChatDatabase.getChatWithMessages (chatId req) (as_text userId)
                                           (store b) in
        (reply result_js result, with_store b s1)
    end.

(** [app.post('/api/chats/:chatId/messages', ...)]. *)
Definition post_message (now : string) (req : Request) (b : Backend)
  : Response * Backend :=
  if negb (truthy (req_user req)) then (unauthorized, b)
  else
    match getProp (body req) "role" with
    | Throw e => (error_500 e, b)
    | Ok role =>
        match getProp (body req) "content" with
        | Throw e => (error_500 e, b)
        | Ok content =>
            if negb (truthy role) || negb (truthy content) then
              (res_status_json 400 (error_body "Role and content are required"),
               b)
            else
              match getProp (req_user req) "id" with
              | Throw e => (error_500 e, b)
              | Ok userId =>
                  let (result, s1) :=
                    ChatDatabase.addMessageToChat now (chatId req)
                      (as_text role) (as_text content) (as_text userId)
                      (store b) in
                  (reply result_js result, with_store b s1)
              end
        end
    end.

(** [app.patch('/api/chats/:chatId', ...)]. *)
Definition patch_chat (req : Request) (b : Backend) : Response * Backend :=
  if negb (truthy (req_user req)) then (unauthorized, b)
  else
    match getProp (body req) "title" with
    | Throw e => (error_500 e, b)
    | Ok title =>
        if negb (truthy title) then
          (res_status_json 400 (error_body "Title is required"), b)
        else
          match getProp (req_user req) "id" with
          | Throw e => (error_500 e, b)
          | Ok userId =>
              let (result, s1) :=
                ChatDatabase.updateChatTitle (chatId req) (as_text title)
                                             (as_text userId) (store b) in
              (reply result_js result, with_store b s1)
          end
    end.

(** [app.delete('/api/chats/:chatId', ...)]. *)
Definition delete_chat (req : Request) (b : Backend) : Response * Backend :=
  if negb (truthy (req_user req)) then (unauthorized, b)
  else
    match getProp (req_user req) "id" with
    | Throw e => (error_500 e, b)
    | Ok userId =>
        let (result, s1) :=
          ChatDatabase.deleteChat (chatId req) (as_text userId) (store b) in
        (reply (fun _ => JObj [("success", JBool true)]) result,
         with_store b s1)
    end.

(** The six chat routes. *)
Inductive ChatRoute : Type :=
| PostChats (id now : string)
| GetChats
| GetChat
| PostMessage (now : string)
| PatchChat
| DeleteChat.

Definition chat_route (r : ChatRoute) : Request -> Backend -> Response * Backend :=
  match r with
  | PostChats id now => post_chats id now
  | GetChats => get_chats
  | GetChat => get_chat
  | PostMessage now => post_message now
  | PatchChat => patch_chat
  | DeleteChat => delete_chat
  end.

(** A request as Express handles it: through the middleware, then the
    route.  A throw of the middleware is not handled by any route. *)
Definition through_middleware (r : ChatRoute) (req : Request) (b : Backend)
  : Res Response * Backend :=
  match extractUser req b with
  | (Ok req1, b1) => let (response, b2) := chat_route r req1 b1 in
                     (Ok response, b2)
  | (Throw e, b1) => (Throw e, b1)
  end.

(** A route of the relay, which sits behind the same middleware
    ([app.use(extractUser)] comes before every route of the later
    [server.js]): [extractUser] first, then the handler on [req.body].  The
    handler works on the relay's state, the middleware on the backend's. *)
Definition relay_through_middleware (handler : JsVal -> St -> Response * St)
           (req : Request) (b : Backend) (st : St)
  : Res Response * Backend * St :=
  match extractUser req b with
  | (Ok req1, b1) => let (response, st1) := handler (body req1) st in
                     (Ok response, b1, st1)
  | (Throw e, b1) => (Throw e, b1, st)
  end.

End Routes.
End Site.

(** ** Test doubles for the routes *)

Definition alice_user : JsVal :=
  JObj [("id", JStr "alice"); ("email", JStr "alice@example.org")].

(** An authentication service that knows one token, Alice's. *)
Definition auth_double (calls : list Site.AuthCall) (c : Site.AuthCall)
  : Res Site.AuthResult :=
  match c with
  | Site.GetUserSession (JStr "alices-token") =>
      Ok {| Site.success := true; Site.user := alice_user;
            Site.session := JUndefined; Site.error := JUndefined |}
  | Site.SignOutUser =>
      Ok {| Site.success := true; Site.user := JUndefined;
            Site.session := JUndefined; Site.error := JUndefined |}
  | _ =>
      Ok {| Site.success := false; Site.user := JUndefined;
            Site.session := JUndefined;
            Site.error := JStr "Invalid credentials" |}
  end.

Definition fresh_backend : Site.Backend :=
  {| Site.store := shared_store []; Site.auth_calls := [] |}.

(** A request for chat [c2] (Bob's) with the given header and body. *)
Definition request_for_c2 (header : option string) (body : JsVal)
  : Site.Request :=
  {| Site.authorization := header; Site.req_user := JUndefined;
     Site.chatId := "c2"; Site.body := body |}.

Unset Implicit Arguments.
(* ================================================================== *)
(** * The tool endpoint client *)
(* ================================================================== *)

(** [initialize()] by cases on what the remote service answers: the connect
    fails; the connect succeeds and the tool list cannot be fetched; both
    succeed. *)
Lemma initialize_cases (W : World) (st : St) :
  initialize W st =
  let m := mcpClient st in
  match client_connect W (trace st) with
  | Throw _ =>
      (Ok false,
       {| mcpClient := {| client := Some tt; isConnected := false;
                          tools := tools m |};
          trace := (trace st ++ [EvConnect])%list |})
  | Ok _ =>
      match client_listTools W (trace st ++ [EvConnect])%list with
      | Throw _ =>
          (Ok false,
           {| mcpClient := {| client := Some tt; isConnected := false;
                              tools := tools m |};
              trace := ((trace st ++ [EvConnect]) ++ [EvListTools])%list |})
      | Ok toolsList =>
          (Ok true,
           {| mcpClient := {| client := Some tt; isConnected := true;
                              tools := toolsList |};
              trace := ((trace st ++ [EvConnect]) ++ [EvListTools])%list |})
      end
  end.
Proof.
  unfold initialize. unfold_monad. simpl.
  destruct (client_connect W (trace st)); simpl; [|reflexivity].
  destruct (client_listTools W (trace st ++ [EvConnect])%list); reflexivity.
Qed.

(** [initialize()] always returns, and returns the connection flag it leaves. *)
Lemma initialize_returns (W : World) (st : St) :
  exists b st', initialize W st = (Ok b, st')
                /\ isConnected (mcpClient st') = b
                /\ client (mcpClient st') = Some tt.
Proof.
  rewrite initialize_cases. cbv zeta.
  destruct (client_connect W (trace st)).
  - destruct (client_listTools W (trace st ++ [EvConnect])%list);
      eexists; eexists; repeat split; reflexivity.
  - eexists; eexists; repeat split; reflexivity.
Qed.

(** [callTool], [getTools] and [isReady] leave the manager as it is. *)
Lemma callTool_keeps_manager (W : World) (toolName args : JsVal) (st : St) :
  mcpClient (snd (callTool W toolName args st)) = mcpClient st.
Proof.
  unfold callTool. unfold_monad.
  destruct (isConnected (mcpClient st)); simpl; [|reflexivity].
  destruct (client (mcpClient st)); simpl; [|reflexivity].
  destruct (client_callTool W (trace st) toolName args); reflexivity.
Qed.

Lemma perform_lifecycle (W : World) (c : Call) (ever : bool) (st : St) :
  lifecycle_ok ever st ->
  lifecycle_ok (ever || is_successful_connect (c, fst (perform W c st)))
               (snd (perform W c st)).
Proof.
  intros [Hc Ht]. destruct c; simpl.
  - rewrite initialize_cases. cbv zeta.
    destruct (client_connect W (trace st)); simpl.
    + destruct (client_listTools W (trace st ++ [EvConnect])%list); simpl.
      * split; intros H; [split; [apply orb_true_r | reflexivity]|].
        rewrite orb_true_r in H. discriminate.
      * rewrite orb_false_r. split; [discriminate | exact Ht].
    + rewrite orb_false_r. split; [discriminate | exact Ht].
  - pose proof (callTool_keeps_manager W toolName args st) as Hk.
    destruct (callTool W toolName args st) as [[v|e] st']; simpl in *;
      rewrite orb_false_r; unfold lifecycle_ok; rewrite Hk; auto.
  - rewrite orb_false_r. split; assumption.
  - unfold isReady. unfold_monad. simpl.
    destruct (isConnected (mcpClient st)) eqn:E; simpl.
    + destruct (Hc eq_refl) as [-> Hcl]. simpl.
      split; [intros _; split; [reflexivity | exact Hcl] | discriminate].
    + rewrite orb_false_r. split; [rewrite E; discriminate | exact Ht].
Qed.

Lemma run_lifecycle (W : World) (cs : list Call) :
  forall ever st,
    lifecycle_ok ever st ->
    lifecycle_ok (ever || connected_once (fst (run W cs st)))
                 (snd (run W cs st)).
Proof.
  induction cs as [|c rest IH]; intros ever st H; simpl.
  - rewrite orb_false_r. exact H.
  - pose proof (perform_lifecycle W c ever st H) as H1.
    destruct (perform W c st) as [o st1]. simpl in H1.
    specialize (IH _ _ H1).
    destruct (run W rest st1) as [log st2]. simpl in *.
    rewrite orb_assoc. exact IH.
Qed.

Lemma boot_lifecycle : lifecycle_ok false boot.
Proof. split; [discriminate | reflexivity]. Qed.

(** Lifecycle of the tool endpoint client over calls that do not overlap, in
    every world.  (1) A call of
    [initialize()] never throws: it returns [true] exactly when the connect
    and the fetch of the tool list both succeeded, and then the client is
    ready and caches the fetched list; otherwise it returns [false], the
    client is not ready and the cached list is what it was.  (2) After any
    history of calls since the module was loaded, [isReady()] is [true] only
    if some [initialize()] of the history returned [true]; and while none
    has, [isReady()] is [false] and [getTools()] is the empty list. *)
Theorem mcp_client_lifecycle (W : World) :
  (forall st,
      exists connected st',
        initialize W st = (Ok connected, st')
        /\ fst (isReady st') = Ok connected
        /\ (connected = true <->
            exists toolsList,
              client_connect W (trace st) = Ok tt
              /\ client_listTools W (trace st ++ [EvConnect])%list = Ok toolsList
              /\ fst (getTools st') = Ok toolsList)
        /\ (connected = false -> fst (getTools st') = fst (getTools st)))
  /\ (forall cs,
         let (log, st) := run W cs boot in
         (fst (isReady st) = Ok true -> connected_once log = true)
         /\ (connected_once log = false ->
             fst (isReady st) = Ok false /\ fst (getTools st) = Ok [])).
Proof.
  split.
  - intros st. rewrite initialize_cases. cbv zeta.
    destruct (client_connect W (trace st)) as [[]|e] eqn:Ec.
    + destruct (client_listTools W (trace st ++ [EvConnect])%list)
        as [ts|e] eqn:El.
      * exists true. eexists. repeat split; try reflexivity.
        -- intros _. exists ts. repeat split; reflexivity.
        -- discriminate.
      * exists false. eexists. repeat split; try reflexivity.
        -- discriminate.
        -- intros [ts [_ [H _]]]. discriminate.
    + exists false. eexists. repeat split; try reflexivity.
      * discriminate.
      * intros [ts [H _]]. discriminate.
  - intros cs.
    pose proof (run_lifecycle W cs false boot boot_lifecycle) as [Hc Ht].
    destruct (run W cs boot) as [log st]. simpl in *.
    unfold isReady, getTools. unfold_monad. simpl.
    split.
    + intros H. injection H as H. apply Hc in H. apply H.
    + intros Hn. split.
      * destruct (isConnected (mcpClient st)); [|reflexivity].
        destruct (Hc eq_refl) as [H _]. congruence.
      * rewrite (Ht Hn). reflexivity.
Qed.

(** The two ends of the lifecycle, on test doubles: a process whose connect
    fails stays not ready with no tools; one whose connect succeeds is
    ready and lists the fetched tool. *)
Example lifecycle_offline :
  run (double_offline openai_final_turn)
      [CallInitialize; CallIsReady; CallGetTools;
       CallCallTool (JStr "search") (JObj [])] boot
  = ([(CallInitialize, ReturnedBool false);
      (CallIsReady, ReturnedBool false);
      (CallGetTools, ReturnedTools []);
      (CallCallTool (JStr "search") (JObj []),
       Thrown (Error "MCP client not connected"))],
     {| mcpClient := {| client := Some tt; isConnected := false; tools := [] |};
        trace := [EvConnect] |}).
Proof. reflexivity. Qed.

Example lifecycle_online :
  run (double openai_final_turn)
      [CallIsReady; CallInitialize; CallIsReady; CallGetTools;
       CallCallTool (JStr "search") (JObj [])] boot
  = ([(CallIsReady, ReturnedBool false);
      (CallInitialize, ReturnedBool true);
      (CallIsReady, ReturnedBool true);
      (CallGetTools, ReturnedTools [search_tool]);
      (CallCallTool (JStr "search") (JObj []), ReturnedValue (JArr []))],
     {| mcpClient := {| client := Some tt; isConnected := true;
                        tools := [search_tool] |};
        trace := [EvConnect; EvListTools;
                  EvCallTool (JStr "search") (JObj [])] |}).
Proof. reflexivity. Qed.

(** C8. [callTool] on a client that is not ready throws [Error('MCP client
    not connected')] and reaches nothing: the state and the trace are what
    they were.  On a client that a history of calls has left ready, it makes
    exactly one call on the remote service, with the name and the arguments
    it was given, and its outcome is the service's own: the result as
    returned, or the error as thrown. *)
Theorem callTool_contract (W : World) (toolName args : JsVal) :
  (forall st,
      fst (isReady st) = Ok false ->
      callTool W toolName args st
      = (Throw (Error "MCP client not connected"), st))
  /\ (forall cs,
         let st := snd (run W cs boot) in
         fst (isReady st) = Ok true ->
         callTool W toolName args st
         = (client_callTool W (trace st) toolName args,
            {| mcpClient := mcpClient st;
               trace := (trace st ++ [EvCallTool toolName args])%list |})).
Proof.
  split.
  - intros st. unfold isReady, callTool. unfold_monad. simpl.
    intros H. injection H as H. rewrite H. reflexivity.
  - intros cs.
    pose proof (run_lifecycle W cs false boot boot_lifecycle) as [Hc _].
    destruct (run W cs boot) as [log st]. simpl in *.
    unfold isReady, callTool. unfold_monad. simpl.
    intros H. injection H as H. rewrite H. simpl.
    destruct (Hc H) as [_ Hcl]. rewrite Hcl.
    destruct (client_callTool W (trace st) toolName args); reflexivity.
Qed.

(* ================================================================== *)
(** * [initialize()] between its awaits *)
(* ================================================================== *)

Lemma existsb_set_progress_new (f : Progress -> bool) (l : list Progress)
      (k : nat) (a y : Progress) :
  nth_error l k = Some a -> f y = true ->
  existsb f (set_progress k y l) = true.
Proof.
  revert k. induction l as [|x rest IH]; intros [|k] H Hy; simpl in *;
    try discriminate.
  - rewrite Hy. reflexivity.
  - rewrite (IH k H Hy). apply orb_true_r.
Qed.

Lemma existsb_set_progress_keep (f : Progress -> bool) (l : list Progress)
      (k : nat) (a y : Progress) :
  existsb f l = true -> nth_error l k = Some a -> f a = false ->
  existsb f (set_progress k y l) = true.
Proof.
  revert k. induction l as [|x rest IH]; intros [|k] He H Ha; simpl in *;
    try discriminate.
  - injection H as ->. rewrite Ha in He. simpl in He.
    rewrite He. apply orb_true_r.
  - destruct (f x); [reflexivity|]. simpl in *. apply (IH k He H Ha).
Qed.

Lemma existsb_set_progress_inv (f : Progress -> bool) (l : list Progress)
      (k : nat) (y : Progress) :
  existsb f (set_progress k y l) = true -> f y = true \/ existsb f l = true.
Proof.
  revert k. induction l as [|x rest IH]; intros [|k] H; simpl in *;
    try discriminate.
  - apply orb_true_iff in H. destruct H as [H|H]; [left; exact H|].
    right. rewrite H. apply orb_true_r.
  - apply orb_true_iff in H. destruct H as [H|H].
    + right. rewrite H. reflexivity.
    + destruct (IH k H) as [Hy|Hr]; [left; exact Hy|].
      right. rewrite Hr. apply orb_true_r.
Qed.

Lemma nth_error_existsb (f : Progress -> bool) (l : list Progress) (k : nat)
      (a : Progress) :
  nth_error l k = Some a -> f a = true -> existsb f l = true.
Proof.
  intros H Ha. apply existsb_exists. exists a.
  split; [exact (nth_error_In l k H) | exact Ha].
Qed.

Lemma existsb_false_true (f : Progress -> bool) (l : list Progress) :
  (existsb f l = false -> False) -> existsb f l = true.
Proof. destruct (existsb f l); [reflexivity | intros H; destruct H; reflexivity]. Qed.

(** One step keeps what every schedule keeps. *)
Lemma step_interleaved_ok (s : Step) (ever : bool) (p p' : Process) :
  interleaved_ok ever p ->
  step s p = Some p' ->
  interleaved_ok (ever || is_connect_success s) p'.
Proof.
  intros [H1 [H2 [H3 H4]]] Hs. unfold fetching, fetched in *.
  destruct s as [|k r|k r]; simpl in Hs.
  - (* a new call: the flag and the list stay *)
    injection Hs as <-. simpl. rewrite orb_false_r.
    unfold interleaved_ok, fetching, fetched. simpl.
    rewrite !existsb_app. simpl. rewrite !orb_false_r.
    repeat split; try assumption; apply H1; assumption.
  - destruct (nth_error (calls p) k) as [[| |b]|] eqn:Ek; try discriminate.
    destruct r as [u|e]; injection Hs as <-; simpl.
    + (* connected: the flag goes up, the call goes on to fetch *)
      rewrite orb_true_r.
      unfold interleaved_ok, fetching, fetched. simpl.
      split; [discriminate|]. split; [|split; [|reflexivity]].
      * intros _. left.
        apply (existsb_set_progress_new is_awaiting_list _ k _ _ Ek). reflexivity.
      * intros Hf. apply H3.
        destruct (existsb has_returned_true (calls p)) eqn:E; [|reflexivity].
        rewrite (existsb_set_progress_keep has_returned_true _ k _
                   AwaitingListTools E Ek eq_refl) in Hf.
        discriminate.
    + (* the connect failed: the flag goes down, the call returns false *)
      rewrite orb_false_r.
      unfold interleaved_ok, fetching, fetched. simpl.
      split; [|split; [discriminate|split]].
      * intros He. split; [reflexivity | apply H1, He].
      * intros Hf. apply H3.
        destruct (existsb has_returned_true (calls p)) eqn:E; [|reflexivity].
        rewrite (existsb_set_progress_keep has_returned_true _ k _
                   (Returned false) E Ek eq_refl) in Hf.
        discriminate.
      * intros [Hf|Hf]; apply existsb_set_progress_inv in Hf;
          destruct Hf as [Hf|Hf]; try discriminate; apply H4; auto.
  - destruct (nth_error (calls p) k) as [[| |b]|] eqn:Ek; try discriminate.
    assert (Hever : ever = true).
    { apply H4. left.
      apply (nth_error_existsb is_awaiting_list _ k _ Ek). reflexivity. }
    subst ever.
    destruct r as [toolsList|e]; injection Hs as <-; simpl.
    + (* fetched: the list is cached, the call returns true *)
      unfold interleaved_ok, fetching, fetched. simpl.
      assert (Hnew : existsb has_returned_true
                       (set_progress k (Returned true) (calls p)) = true).
      { apply (existsb_set_progress_new has_returned_true _ k _ _ Ek).
        reflexivity. }
      split; [discriminate|]. split; [right; exact Hnew|].
      split; [rewrite Hnew; discriminate | reflexivity].
    + (* the fetch failed: the flag goes down, the call returns false *)
      unfold interleaved_ok, fetching, fetched. simpl.
      split; [discriminate|]. split; [discriminate|].
      split; [|reflexivity].
      intros Hf. apply H3.
      destruct (existsb has_returned_true (calls p)) eqn:E; [|reflexivity].
      rewrite (existsb_set_progress_keep has_returned_true _ k _
                 (Returned false) E Ek eq_refl) in Hf.
      discriminate.
Qed.

Lemma exec_interleaved_ok (steps : list Step) :
  forall ever p p',
    interleaved_ok ever p ->
    exec steps p = Some p' ->
    interleaved_ok (ever || connect_succeeded steps) p'.
Proof.
  induction steps as [|s rest IH]; intros ever p p' H He; simpl in *.
  - injection He as <-. rewrite orb_false_r. exact H.
  - destruct (step s p) as [p1|] eqn:Es; [|discriminate].
    rewrite orb_assoc.
    apply (IH _ p1 p' (step_interleaved_ok s ever p p1 H Es) He).
Qed.

Lemma loaded_interleaved_ok : interleaved_ok false loaded.
Proof.
  unfold interleaved_ok, fetching, fetched. simpl.
  repeat split; try discriminate; intros [H|H]; discriminate.
Qed.

Lemma fetching_in_flight (p : Process) :
  fetching p = true -> in_flight p = true.
Proof.
  unfold fetching, in_flight. rewrite !existsb_exists.
  intros [c [Hin Hc]]. exists c. split; [exact Hin|].
  destruct c; try discriminate; reflexivity.
Qed.

(** X31. The lifecycle in every schedule.  Whatever calls of [initialize()]
    overlap and however their awaits settle: until a connect has succeeded,
    [isReady()] is [false] and [getTools()] is empty; [isReady()] is [true]
    only after a connect that succeeded, and then some call is waiting for
    its tool list or some call has fetched one; once no call is in flight,
    [isReady()] is [true] only if some call has fetched the tool list; and
    [getTools()] is empty until some call has. *)
Theorem lifecycle_in_every_schedule (steps : list Step) (p : Process) :
  exec steps loaded = Some p ->
  (connect_succeeded steps = false ->
   isConnected (manager p) = false /\ tools (manager p) = [])
  /\ (isConnected (manager p) = true ->
      connect_succeeded steps = true
      /\ (fetching p = true \/ fetched p = true))
  /\ (in_flight p = false -> ready_only_once_fetched p)
  /\ (fetched p = false -> tools (manager p) = []).
Proof.
  intros He.
  destruct (exec_interleaved_ok steps false loaded p loaded_interleaved_ok He)
    as [H1 [H2 [H3 H4]]].
  simpl in *.
  split; [exact H1|]. split; [|split; [|exact H3]].
  - intros Hr. split; [apply H4, H2, Hr | apply H2, Hr].
  - intros Hq Hr. destruct (H2 Hr) as [Hf|Hf]; [|exact Hf].
    rewrite (fetching_in_flight p Hf) in Hq. discriminate.
Qed.

Lemma lifecycle_in_every_schedule_witness :
  let steps := [Invoke; ConnectSettles 0 (Ok tt); Invoke;
                ListToolsSettles 0 (Ok [search_tool]);
                ConnectSettles 1 (Throw (Error "offline"))] in
  exists p,
    exec steps loaded = Some p
    /\ isConnected (manager p) = false
    /\ tools (manager p) = [search_tool]
    /\ calls p = [Returned true; Returned false]
    /\ (in_flight p = false -> ready_only_once_fetched p).
Proof.
  intros steps. eexists. split; [reflexivity|].
  split; [reflexivity|]. split; [reflexivity|]. split; [reflexivity|].
  apply (lifecycle_in_every_schedule steps). reflexivity.
Defined.

(** A call that fails returns [false] and leaves the flag down; it does not
    throw, whichever await failed and whatever else is in flight.  The
    cached list is not touched. *)
Lemma a_failed_call_returns_false (p : Process) (k : nat) (e : Exn) :
  (nth_error (calls p) k = Some AwaitingConnect ->
   exists p', step (ConnectSettles k (Throw e)) p = Some p'
              /\ nth_error (calls p') k = Some (Returned false)
              /\ isConnected (manager p') = false
              /\ tools (manager p') = tools (manager p))
  /\ (nth_error (calls p) k = Some AwaitingListTools ->
      exists p', step (ListToolsSettles k (Throw e)) p = Some p'
                 /\ nth_error (calls p') k = Some (Returned false)
                 /\ isConnected (manager p') = false
                 /\ tools (manager p') = tools (manager p)).
Proof.
  assert (Hset : forall l k a y,
             nth_error l k = Some a ->
             nth_error (set_progress k y l) k = Some y).
  { induction l as [|x rest IH]; intros [|n] a y H; simpl in *;
      try discriminate; [reflexivity | apply (IH n a y H)]. }
  split; intros H; simpl; rewrite H; eexists; split; try reflexivity;
    simpl; (split; [apply (Hset _ _ _ _ H) | split; reflexivity]).
Qed.

Lemma set_progress_last (l : list Progress) (x y : Progress) :
  set_progress (List.length l) y (l ++ [x])%list = (l ++ [y])%list.
Proof. induction l as [|a rest IH]; simpl; [reflexivity | rewrite IH; reflexivity]. Qed.

Lemma nth_error_last (l : list Progress) (x : Progress) :
  nth_error (l ++ [x])%list (List.length l) = Some x.
Proof. induction l as [|a rest IH]; simpl; [reflexivity | exact IH]. Qed.

(** A call that nothing interrupts is [initialize()] as one step: the
    manager it leaves and the value it returns are those of the monadic
    definition. *)
Lemma uninterrupted_is_initialize (W : World) (st : St) (p : Process) :
  manager p = mcpClient st ->
  exists connected,
    fst (initialize W st) = Ok connected
    /\ exec (uninterrupted W (trace st) (List.length (calls p))) p
       = Some {| manager := mcpClient (snd (initialize W st));
                 calls := (calls p ++ [Returned connected])%list |}.
Proof.
  intros Hm. rewrite initialize_cases. cbv zeta. unfold uninterrupted.
  destruct (client_connect W (trace st)) as [[]|e].
  - destruct (client_listTools W (trace st ++ [EvConnect])%list) as [ts|e];
      [exists true | exists false]; (split; [reflexivity|]);
      simpl; rewrite nth_error_last; simpl; rewrite set_progress_last;
      rewrite nth_error_last; simpl; rewrite set_progress_last, Hm;
      reflexivity.
  - exists false. split; [reflexivity|].
    simpl. rewrite nth_error_last. simpl.
    rewrite set_progress_last, Hm. reflexivity.
Qed.

(** C7. The flag is raised between the two awaits of [initialize()].  In the
    schedule where a call has connected and its [listTools()] has not been
    answered yet, [isReady()] is already [true] although no call has fetched
    a tool list: no call has returned and [getTools()] is empty.  A chat
    request of the later [server.js] that arrives there passes the
    readiness check, without a reconnect, and asks the provider with no tool
    declared.  When the fetch then fails, that same call of [initialize()]
    returns [false]. *)
Theorem ready_before_the_tools_are_fetched :
  exists window,
    exec [Invoke; ConnectSettles 0 (Ok tt)] loaded = Some window
    /\ isConnected (manager window) = true
    /\ tools (manager window) = []
    /\ calls window = [AwaitingListTools]
    /\ fetched window = false
    /\ ~ ready_only_once_fetched window
    /\ (let W := double openai_final_turn in
        let st := {| mcpClient := manager window;
                     trace := [EvConnect; EvListTools] |} in
        fst (isReady st) = Ok true
        /\ fst (getTools st) = Ok []
        /\ OpenAI.chat W (JObj [("messages", JArr [hello])]) st
           = (res_json (JObj [("response",
                               JObj [("role", JStr "assistant");
                                     ("content", JStr "Hello")]);
                              ("needsToolResponse", JBool false)]),
              add_events st
                [EvModel (openai_request
                            [JObj [("role", JStr "user");
                                   ("content", JStr "Hello")]]
                            [])]))
    /\ exists after,
        step (ListToolsSettles 0 (Throw (Error "tools/list failed"))) window
        = Some after
        /\ calls after = [Returned false]
        /\ isConnected (manager after) = false.
Proof.
  eexists. split; [reflexivity|]. simpl manager. simpl calls.
  repeat (split; [reflexivity|]).
  split.
  - intros H. specialize (H eq_refl). discriminate H.
  - split.
    + cbv zeta. repeat split; reflexivity.
    + eexists. split; [reflexivity|]. split; reflexivity.
Qed.

(** Two calls that overlap: the first has fetched the tool list and returns
    [true], yet the second, failing to connect in between, has lowered the
    flag. *)
Example overlapping_calls :
  exec [Invoke; ConnectSettles 0 (Ok tt); Invoke;
        ConnectSettles 1 (Throw (Error "offline"));
        ListToolsSettles 0 (Ok [search_tool])] loaded
  = Some {| manager := {| client := Some tt; isConnected := false;
                          tools := [search_tool] |};
            calls := [Returned true; Returned false] |}.
Proof. reflexivity. Qed.

(* ================================================================== *)
(** * The conversation relay: shared steps *)
(* ================================================================== *)

Lemma cleanMessage_ok (msg : JsVal) :
  nullish msg = false -> cleanMessage msg = Ok (cleaned msg).
Proof.
  destruct msg; simpl; intros H; try discriminate; reflexivity.
Qed.

Lemma map_res_ok {A B} (f : A -> Res B) (g : A -> B) (l : list A) :
  Forall (fun x => f x = Ok (g x)) l -> map_res f l = Ok (map g l).
Proof.
  induction 1 as [|x l Hx _ IH]; simpl; [reflexivity|].
  rewrite Hx. simpl. rewrite IH. reflexivity.
Qed.

(** Cleaning keeps the messages in order, each with its own [role] and [content]. *)
Lemma array_map_clean (msgs : list JsVal) :
  forallb (fun m => negb (nullish m)) msgs = true ->
  array_map "messages" cleanMessage (JArr msgs) = Ok (map cleaned msgs).
Proof.
  intros H. simpl. apply map_res_ok.
  rewrite forallb_forall in H. apply Forall_forall. intros m Hm.
  apply cleanMessage_ok. specialize (H m Hm).
  destruct (nullish m); [discriminate | reflexivity].
Qed.

(** An array passes the guard of [/api/chat], whatever it holds. *)
Lemma array_not_rejected (msgs : list JsVal) :
  messages_rejected (JArr msgs) = false.
Proof. reflexivity. Qed.

(** The guard rejects exactly what is not an array: an array is truthy. *)
Lemma messages_rejected_iff (messages : JsVal) :
  messages_rejected messages = negb (isArray messages).
Proof.
  unfold messages_rejected.
  destruct messages; simpl; rewrite ?orb_true_r; reflexivity.
Qed.

(** The readiness check of the OpenAI handlers. *)
Lemma ensure_ready_passes (W : World) (rest : M Response) (st st1 : St) :
  made_ready W st = Some st1 ->
  OpenAI.ensure_ready W rest st = rest st1.
Proof.
  unfold made_ready, OpenAI.ensure_ready, isReady. unfold_monad. simpl.
  destruct (isConnected (mcpClient st)); simpl.
  - intros H. injection H as <-. reflexivity.
  - destruct (initialize W st) as [[[|]|e] st']; simpl; try discriminate.
    intros H. injection H as <-. reflexivity.
Qed.

Lemma ensure_ready_fails (W : World) (rest : M Response) (st : St) :
  made_ready W st = None ->
  OpenAI.ensure_ready W rest st
  = (Ok (res_status_json 503 (error_body "MCP client failed to connect")),
     snd (initialize W st)).
Proof.
  unfold made_ready, OpenAI.ensure_ready, isReady. unfold_monad. simpl.
  destruct (isConnected (mcpClient st)); simpl; [discriminate|].
  destruct (initialize_returns W st) as [b [st' [E _]]]. rewrite E. simpl.
  destruct b; [discriminate | reflexivity].
Qed.

(** A state the readiness check lets through is ready and holds a client. *)
Lemma made_ready_ready (W : World) (st st1 : St) :
  coherent st -> made_ready W st = Some st1 ->
  isConnected (mcpClient st1) = true /\ client (mcpClient st1) = Some tt.
Proof.
  unfold made_ready, coherent. intros Hc.
  destruct (isConnected (mcpClient st)) eqn:E.
  - intros H. injection H as <-. auto.
  - destruct (initialize_returns W st) as [b [st' [Ei [Hb Hcl]]]].
    rewrite Ei. destruct b; [|discriminate].
    intros H. injection H as <-. auto.
Qed.

#[local] Arguments callTool : simpl never.

(** [callTool] on a ready client that holds its SDK client. *)
Lemma callTool_ready (W : World) (toolName args : JsVal) (st : St) :
  isConnected (mcpClient st) = true ->
  client (mcpClient st) = Some tt ->
  callTool W toolName args st
  = (client_callTool W (trace st) toolName args,
     add_events st [EvCallTool toolName args]).
Proof.
  intros Hr Hc. unfold callTool, add_events. unfold_monad. simpl.
  rewrite Hr, Hc. simpl.
  destruct (client_callTool W (trace st) toolName args); reflexivity.
Qed.

Lemma add_events_nil (st : St) : add_events st [] = st.
Proof. destruct st. unfold add_events. simpl. rewrite app_nil_r. reflexivity. Qed.

Lemma add_events_app (st : St) (l1 l2 : list Event) :
  add_events (add_events st l1) l2 = add_events st (l1 ++ l2).
Proof. unfold add_events. simpl. rewrite app_assoc. reflexivity. Qed.

(* ================================================================== *)
(** * The tool loop of the OpenAI generation *)
(* ================================================================== *)

(** A call whose arguments parse: it is executed once and its entry bears
    the result of the tool endpoint, or its error. *)
Lemma run_call_parsed (W : World) (c : ToolCall) (st : St) :
  isConnected (mcpClient st) = true ->
  client (mcpClient st) = Some tt ->
  parses W c = true ->
  OpenAI.run_call W (toolCall_js c) st
  = (Ok (hd JUndefined (openai_entries W (trace st) [c])),
     add_events st [execution W c]).
Proof.
  intros Hr Hc Hp. unfold parses in Hp.
  destruct (JSON_parse W (call_arguments c)) as [args|e] eqn:Ep;
    [|discriminate].
  unfold OpenAI.run_call, OpenAI.parse_arguments, OpenAI.function_name,
    execution, parsed.
  unfold_monad. simpl. rewrite Ep.
  rewrite (callTool_ready W (JStr (call_name c)) args st Hr Hc).
  destruct (client_callTool W (trace st) (JStr (call_name c)) args) eqn:E;
    simpl; unfold parsed; rewrite Ep, E; reflexivity.
Qed.

(** A call whose arguments do not parse: the [catch] block parses them again,
    and the error of that second parse leaves [run_call]; nothing was
    executed and no entry was made. *)
Lemma run_call_unparsed (W : World) (c : ToolCall) (e : Exn) (st : St) :
  JSON_parse W (call_arguments c) = Throw e ->
  OpenAI.run_call W (toolCall_js c) st = (Throw e, st).
Proof.
  intros Ep.
  unfold OpenAI.run_call, OpenAI.parse_arguments, OpenAI.function_name.
  unfold_monad. simpl. rewrite Ep. reflexivity.
Qed.


(** The loop up to the first call whose arguments do not parse: the calls
    before it are executed, in order; the loop ends there with the parse
    error; the call itself and the calls after it never reach the tool
    endpoint. *)
Lemma openai_tool_loop_unparsed (W : World) (before after : list ToolCall)
      (bad : ToolCall) (e : Exn) (toolResults : list JsVal) (st : St) :
  isConnected (mcpClient st) = true ->
  client (mcpClient st) = Some tt ->
  forallb (parses W) before = true ->
  JSON_parse W (call_arguments bad) = Throw e ->
  OpenAI.tool_loop W (map toolCall_js (before ++ bad :: after)) toolResults st
  = (Throw e, add_events st (map (execution W) before)).
Proof.
  revert toolResults st.
  induction before as [|c rest IH]; intros acc st Hr Hc Hp Hb.
  - cbn [app map OpenAI.tool_loop]. unfold bind at 1.
    replace (OpenAI.function_name (toolCall_js bad) st)
      with (Ok (JStr (call_name bad)), st) by reflexivity.
    cbv iota beta. unfold bind at 1.
    rewrite (run_call_unparsed W bad e st Hb).
    rewrite add_events_nil. reflexivity.
  - simpl in Hp. apply andb_prop in Hp as [Hp1 Hp2].
    cbn [app map OpenAI.tool_loop]. unfold bind at 1.
    replace (OpenAI.function_name (toolCall_js c) st)
      with (Ok (JStr (call_name c)), st) by reflexivity.
    cbv iota beta. unfold bind at 1.
    rewrite (run_call_parsed W c st Hr Hc Hp1). cbv iota beta.
    rewrite IH by (simpl; assumption).
    rewrite add_events_app. reflexivity.
Qed.

(** [/api/chat] of the OpenAI generation, from the request to the message of
    the model's reply, for whatever the handler does next ([k]). *)
Lemma openai_chat_head (W : World) (body : JsVal) (msgs : list JsVal)
      (st st1 : St) (response message : JsVal) (k : JsVal -> M Response) :
  getProp body "messages" = Ok (JArr msgs) ->
  forallb (fun m => negb (nullish m)) msgs = true ->
  made_ready W st = Some st1 ->
  model_create W (trace st1)
    (openai_request (map cleaned msgs) (tools (mcpClient st1))) = Ok response ->
  OpenAI.first_message response = Ok message ->
  respond
    (messages <- lift (getProp body "messages") ;;
     if messages_rejected messages then
       ret (res_status_json 400 (error_body "Messages array is required"))
     else
       OpenAI.ensure_ready W
         (cleanedMessages <- lift (array_map "messages" cleanMessage messages) ;;
          mcpTools <- getTools ;;
          response <- OpenAI.completions_create W (JArr cleanedMessages)
                                                (OpenAI.openaiTools mcpTools) ;;
          message <- lift (OpenAI.first_message response) ;;
          k message)) st
  = respond (k message)
            (add_events st1
               [EvModel (openai_request (map cleaned msgs)
                                        (tools (mcpClient st1)))]).
Proof.
  intros Hb Hn Hr Hm Hf.
  unfold respond. unfold bind at 1. unfold lift at 1. rewrite Hb.
  rewrite array_not_rejected.
  rewrite (ensure_ready_passes W _ st st1 Hr).
  unfold bind at 1. unfold lift at 1. rewrite (array_map_clean msgs Hn).
  unfold bind at 1. unfold getTools at 1. unfold bind at 1, get_mcp at 1, ret at 1.
  unfold bind at 1. unfold OpenAI.completions_create, external.
  fold (openai_request (map cleaned msgs) (tools (mcpClient st1))).
  rewrite Hm.
  unfold bind at 1. unfold lift at 1. rewrite Hf.
  reflexivity.
Qed.

Lemma has_tool_calls_array (W : World) (message : JsVal) (items : list JsVal) :
  getProp message "tool_calls" = Ok (JArr items) ->
  OpenAI.has_tool_calls W message
  = Ok (JBool (match items with [] => false | _ => true end)).
Proof.
  intros H. unfold OpenAI.has_tool_calls. rewrite H. simpl.
  unfold gt_zero. simpl. destruct items; reflexivity.
Qed.

Lemma has_tool_calls_final (W : World) (message : JsVal) :
  final_openai message = true ->
  exists wants, OpenAI.has_tool_calls W message = Ok wants
                /\ truthy wants = false
                /\ exists tc, getProp message "tool_calls" = Ok tc.
Proof.
  unfold final_openai, OpenAI.has_tool_calls.
  destruct (getProp message "tool_calls") as [tc|e]; [|discriminate].
  destruct tc as [| | | | |items|]; try discriminate; simpl.
  - intros _. exists JUndefined. eauto.
  - intros _. exists JNull. eauto.
  - destruct items; [|discriminate]. intros _.
    exists (JBool false). eauto.
Qed.

(** The first call of a turn whose arguments do not parse. *)
Lemma first_unparsable (W : World) (calls : list ToolCall) :
  forallb (parses W) calls = false ->
  exists before bad after e,
    calls = (before ++ bad :: after)%list
    /\ forallb (parses W) before = true
    /\ JSON_parse W (call_arguments bad) = Throw e.
Proof.
  induction calls as [|c rest IH]; simpl; [discriminate|].
  destruct (parses W c) eqn:Ec; simpl.
  - intros H. destruct (IH H) as [before [bad [after [e [-> [Hb He]]]]]].
    exists (c :: before), bad, after, e. simpl. rewrite Ec. auto.
  - intros _. unfold parses in Ec.
    destruct (JSON_parse W (call_arguments c)) as [a|e] eqn:Ep; [discriminate|].
    exists [], c, rest, e. auto.
Qed.

(** C9. In the [/api/chat] handler of the OpenAI generation, take a request
    that reaches the model, and a reply whose message asks for tool calls of
    which at least one has an arguments text that [JSON.parse] rejects.
    Let [bad] be the first such call.  Then the per-call handler does not
    contain the failure: its [catch] block parses the same text again, so
    [run_call] throws the parse error.  The request is answered 500 with
    that error's message and nothing else (no [toolResults], so no entry,
    error-bearing or not, for [bad]); and the tool endpoint has executed the
    calls before [bad], in order, and neither [bad] nor any call after it. *)
Theorem openai_unparsable_arguments_escape
        (W : World) (body : JsVal) (msgs : list JsVal) (st st1 : St)
        (response reply : JsVal) (calls : list ToolCall) :
  coherent st ->
  getProp body "messages" = Ok (JArr msgs) ->
  forallb (fun m => negb (nullish m)) msgs = true ->
  made_ready W st = Some st1 ->
  model_create W (trace st1)
    (openai_request (map cleaned msgs) (tools (mcpClient st1))) = Ok response ->
  OpenAI.first_message response = Ok reply ->
  getProp reply "tool_calls" = Ok (JArr (map toolCall_js calls)) ->
  forallb (parses W) calls = false ->
  exists before bad after e,
    calls = (before ++ bad :: after)%list
    /\ forallb (parses W) before = true
    /\ JSON_parse W (call_arguments bad) = Throw e
    /\ (forall s, OpenAI.run_call W (toolCall_js bad) s = (Throw e, s))
    /\ OpenAI.chat W body st
       = (res_status_json 500 (error_body (message e)),
          add_events st1
            (EvModel (openai_request (map cleaned msgs) (tools (mcpClient st1)))
             :: map (execution W) before)).
Proof.
  intros Hco Hb Hn Hr Hm Hf Ht Hbad.
  destruct (first_unparsable W calls Hbad)
    as [before [bad [after [e [Hcalls [Hbefore He]]]]]].
  exists before, bad, after, e.
  repeat split; try assumption.
  - intros s. apply run_call_unparsed. exact He.
  - destruct (made_ready_ready W st st1 Hco Hr) as [Hready Hclient].
    unfold OpenAI.chat.
    rewrite (openai_chat_head W body msgs st st1 response reply _ Hb Hn Hr Hm Hf).
    unfold respond.
    unfold bind at 1. unfold lift at 1. rewrite Ht.
    unfold bind at 1. unfold lift at 1.
    rewrite (has_tool_calls_array W reply _ Ht).
    assert (Hne : truthy (JBool match map toolCall_js calls with
                                | [] => false | _ :: _ => true end) = true).
    { rewrite Hcalls. destruct before; reflexivity. }
    rewrite Hne.
    unfold bind at 1. unfold lift at 1.
    unfold bind at 1. unfold lift at 1. simpl iterate. cbv iota beta.
    unfold bind at 1. rewrite Hcalls.
    rewrite (openai_tool_loop_unparsed W before after bad e []
               (add_events st1 [EvModel (openai_request (map cleaned msgs)
                                           (tools (mcpClient st1)))])
               Hready Hclient Hbefore He).
    rewrite add_events_app. reflexivity.
Qed.

Lemma openai_unparsable_arguments_escape_witness :
  let calls := [call_1; call_cut] in
  let W := double (openai_tool_turn_js calls) in
  exists before bad after e,
    calls = (before ++ bad :: after)%list
    /\ forallb (parses W) before = true
    /\ JSON_parse W (call_arguments bad) = Throw e
    /\ (forall s, OpenAI.run_call W (toolCall_js bad) s = (Throw e, s))
    /\ OpenAI.chat W (JObj [("messages", JArr [hello])]) boot
       = (res_status_json 500 (error_body (message e)),
          add_events (connected W)
            (EvModel (openai_request (map cleaned [hello])
                                     (tools (mcpClient (connected W))))
             :: map (execution W) before)).
Proof.
  intros calls W.
  apply (openai_unparsable_arguments_escape W
           (JObj [("messages", JArr [hello])]) [hello] boot (connected W)
           (openai_tool_turn_js calls) (openai_tool_message calls) calls);
    try reflexivity.
  intros H. discriminate H.
Defined.


Lemma openai_entries_length (W : World) (calls : list ToolCall) :
  forall h, List.length (openai_entries W h calls) = List.length calls.
Proof.
  induction calls as [|c rest IH]; intros h; simpl; [reflexivity|].
  rewrite IH. reflexivity.
Qed.

(** The i-th entry carries the identifier of the i-th call. *)
Lemma openai_entries_ids (W : World) (calls : list ToolCall) :
  forall h,
    map (fun entry => field entry "tool_call_id") (openai_entries W h calls)
    = map (fun c => JStr (call_id c)) calls.
Proof.
  induction calls as [|c rest IH]; intros h; simpl; [reflexivity|].
  rewrite IH. reflexivity.
Qed.

(* ================================================================== *)
(** * The tool loop of the Anthropic generation *)
(* ================================================================== *)

(** The loop over the content blocks of a response: each [tool_use] block is
    executed once, in order; a failed execution makes an entry that bears
    [error], and the loop goes on. *)
Lemma anthropic_tool_loop (W : World) (blocks : list ContentBlock) :
  forall (toolResults : list JsVal) (st : St),
    isConnected (mcpClient st) = true ->
    client (mcpClient st) = Some tt ->
    Anthropic.tool_loop W (map block_js blocks) toolResults st
    = (Ok (toolResults ++ anthropic_entries W (trace st) blocks)%list,
       add_events st (block_executions blocks)).
Proof.
  induction blocks as [|b rest IH]; intros acc st Hr Hc.
  - simpl. unfold ret. rewrite app_nil_r, add_events_nil. reflexivity.
  - destruct b as [text | id toolName input].
    + cbn [map Anthropic.tool_loop block_js anthropic_entries block_executions].
      unfold bind at 1. unfold lift at 1. simpl.
      apply IH; assumption.
    + assert (Hblock :
        Anthropic.run_block W (block_js (ToolUseBlock id toolName input)) st
        = (Ok (hd JUndefined
                  (anthropic_entries W (trace st) [ToolUseBlock id toolName input])),
           add_events st [EvCallTool (JStr toolName) input])).
      { unfold Anthropic.run_block. unfold_monad. simpl.
        rewrite (callTool_ready W (JStr toolName) input st Hr Hc).
        destruct (client_callTool W (trace st) (JStr toolName) input);
          reflexivity. }
      cbn [map Anthropic.tool_loop anthropic_entries block_executions].
      unfold bind at 1. unfold lift at 1.
      change (getProp (block_js (ToolUseBlock id toolName input)) "type")
        with (Ok (JStr "tool_use")).
      cbv iota beta.
      change (strict_eq_str (JStr "tool_use") "tool_use") with true.
      cbv iota.
      unfold bind at 1. unfold lift at 1.
      change (getProp (block_js (ToolUseBlock id toolName input)) "name")
        with (Ok (JStr toolName)).
      cbv iota beta.
      unfold bind at 1.
      rewrite Hblock. cbv iota beta.
      rewrite IH by (simpl; assumption).
      rewrite add_events_app. simpl.
      rewrite <- app_assoc. reflexivity.
Qed.

(** [/api/chat] of the Anthropic generation, from the request to the model's
    response, for whatever the handler does next ([k]). *)
Lemma anthropic_chat_head (W : World) (body : JsVal) (msgs : list JsVal)
      (st : St) (response : JsVal) (k : JsVal -> M Response) :
  getProp body "messages" = Ok (JArr msgs) ->
  forallb (fun m => negb (nullish m)) msgs = true ->
  isConnected (mcpClient st) = true ->
  model_create W (trace st)
    (anthropic_request (map cleaned msgs) (tools (mcpClient st))) = Ok response ->
  respond
    (messages <- lift (getProp body "messages") ;;
     if messages_rejected messages then
       ret (res_status_json 400 (error_body "Messages array is required"))
     else
       ready <- isReady ;;
       if negb ready then
         ret (res_status_json 503 (error_body "MCP client not connected"))
       else
         cleanedMessages <- lift (array_map "messages" cleanMessage messages) ;;
         mcpTools <- getTools ;;
         response <- Anthropic.messages_create W (JArr cleanedMessages)
                                               (Anthropic.claudeTools mcpTools) ;;
         k response) st
  = respond (k response)
            (add_events st
               [EvModel (anthropic_request (map cleaned msgs)
                                           (tools (mcpClient st)))]).
Proof.
  intros Hb Hn Hr Hm.
  unfold respond, isReady, getTools, Anthropic.messages_create.
  unfold_monad. rewrite Hb. rewrite array_not_rejected.
  rewrite Hr. change (negb true) with false. cbv iota beta.
  rewrite (array_map_clean msgs Hn). cbv iota beta.
  unfold anthropic_request in Hm. rewrite Hm. reflexivity.
Qed.

(** X13. A model turn of the Anthropic generation that stops for tool use: every
    [tool_use] block is executed, in the order emitted, whatever the outcome
    of the others, and the reply carries one entry per block. *)
Lemma anthropic_tool_turn
      (W : World) (body : JsVal) (msgs : list JsVal) (st : St)
      (response : JsVal) (blocks : list ContentBlock) :
  isConnected (mcpClient st) = true ->
  client (mcpClient st) = Some tt ->
  getProp body "messages" = Ok (JArr msgs) ->
  forallb (fun m => negb (nullish m)) msgs = true ->
  model_create W (trace st)
    (anthropic_request (map cleaned msgs) (tools (mcpClient st))) = Ok response ->
  getProp response "stop_reason" = Ok (JStr "tool_use") ->
  getProp response "content" = Ok (JArr (map block_js blocks)) ->
  let request := anthropic_request (map cleaned msgs) (tools (mcpClient st)) in
  Anthropic.chat W body st
  = (res_json
       (JObj [("response", response);
              ("toolResults",
               JArr (anthropic_entries W (trace st ++ [EvModel request]) blocks));
              ("needsToolResponse", JBool true)]),
     add_events st (EvModel request :: block_executions blocks)).
Proof.
  intros Hr Hc Hb Hn Hm Hs Hcont request.
  unfold Anthropic.chat.
  rewrite (anthropic_chat_head W body msgs st response _ Hb Hn Hr Hm).
  fold request. unfold respond.
  unfold bind at 1. unfold lift at 1. rewrite Hs.
  change (strict_eq_str (JStr "tool_use") "tool_use") with true. cbv iota.
  unfold bind at 1. unfold lift at 1. rewrite Hcont.
  unfold bind at 1. unfold lift at 1. simpl iterate. cbv iota beta.
  unfold bind at 1.
  rewrite (anthropic_tool_loop W blocks [] (add_events st [EvModel request])
             Hr Hc).
  rewrite add_events_app. reflexivity.
Qed.

(* ================================================================== *)
(** * Final answers *)
(* ================================================================== *)

(** Final answers of [/api/chat].  Whenever [/api/chat] reaches the model and
    the model's turn is a final answer, the handler replies 200 with exactly
    [{ response,
    needsToolResponse: false }]: [needsToolResponse] is [false] and there is
    no [toolResults] property.  First conjunct: the OpenAI generation, where
    a final answer is a message whose [tool_calls] is absent, [null] or
    empty.  Second conjunct: the Anthropic generation, where it is a response
    whose [stop_reason] is not ['tool_use']. *)
Theorem final_answer_output (W : World) :
  (forall body msgs st st1 response reply,
      getProp body "messages" = Ok (JArr msgs) ->
      forallb (fun m => negb (nullish m)) msgs = true ->
      made_ready W st = Some st1 ->
      model_create W (trace st1)
        (openai_request (map cleaned msgs) (tools (mcpClient st1)))
      = Ok response ->
      OpenAI.first_message response = Ok reply ->
      final_openai reply = true ->
      let r := fst (OpenAI.chat W body st) in
      r = res_json (JObj [("response", reply);
                          ("needsToolResponse", JBool false)])
      /\ field (json r) "needsToolResponse" = JBool false
      /\ has_field "toolResults" (json r) = false)
  /\ (forall body msgs st response,
         getProp body "messages" = Ok (JArr msgs) ->
         forallb (fun m => negb (nullish m)) msgs = true ->
         isConnected (mcpClient st) = true ->
         model_create W (trace st)
           (anthropic_request (map cleaned msgs) (tools (mcpClient st)))
         = Ok response ->
         final_anthropic response = true ->
         let r := fst (Anthropic.chat W body st) in
         r = res_json (JObj [("response", response);
                             ("needsToolResponse", JBool false)])
         /\ field (json r) "needsToolResponse" = JBool false
         /\ has_field "toolResults" (json r) = false).
Proof.
  split.
  - intros body msgs st st1 response reply Hb Hn Hr Hm Hf Hfinal r.
    assert (E : r = res_json (JObj [("response", reply);
                                    ("needsToolResponse", JBool false)])).
    { subst r. unfold OpenAI.chat.
      rewrite (openai_chat_head W body msgs st st1 response reply _
                 Hb Hn Hr Hm Hf).
      destruct (has_tool_calls_final W reply Hfinal)
        as [wants [Hw [Hfalse [tc Htc]]]].
      unfold respond.
      unfold bind at 1. unfold lift at 1. rewrite Htc.
      unfold bind at 1. unfold lift at 1. rewrite Hw.
      rewrite Hfalse. reflexivity. }
    rewrite E. repeat split; reflexivity.
  - intros body msgs st response Hb Hn Hr Hm Hfinal r.
    assert (E : r = res_json (JObj [("response", response);
                                    ("needsToolResponse", JBool false)])).
    { subst r. unfold Anthropic.chat.
      rewrite (anthropic_chat_head W body msgs st response _ Hb Hn Hr Hm).
      unfold final_anthropic in Hfinal.
      unfold respond.
      unfold bind at 1. unfold lift at 1.
      destruct (getProp response "stop_reason") as [reason|e]; [|discriminate].
      assert (Hs : strict_eq_str reason "tool_use" = false).
      { destruct reason; try reflexivity. simpl.
        destruct (String.eqb s "tool_use"); [discriminate | reflexivity]. }
      rewrite Hs. reflexivity. }
    rewrite E. repeat split; reflexivity.
Qed.

Lemma final_answer_output_witness :
  let body := JObj [("messages", JArr [hello])] in
  fst (OpenAI.chat (double openai_final_turn) body boot)
  = res_json (JObj [("response",
                     JObj [("role", JStr "assistant");
                           ("content", JStr "Hello")]);
                    ("needsToolResponse", JBool false)])
  /\ fst (Anthropic.chat (double anthropic_final_turn) body
                         (connected (double anthropic_final_turn)))
     = res_json (JObj [("response", anthropic_final_turn);
                       ("needsToolResponse", JBool false)]).
Proof.
  intros body. split.
  - destruct (final_answer_output (double openai_final_turn)) as [Ho _].
    apply (Ho body [hello] boot (connected (double openai_final_turn))
              openai_final_turn
              (JObj [("role", JStr "assistant"); ("content", JStr "Hello")]));
      reflexivity.
  - destruct (final_answer_output (double anthropic_final_turn)) as [_ Ha].
    apply (Ha body [hello] (connected (double anthropic_final_turn))
              anthropic_final_turn); reflexivity.
Defined.

(** The continuation entry points, on a final answer: the Anthropic one
    also replies [needsToolResponse: false]; the OpenAI one replies the
    value of [message.tool_calls && message.tool_calls.length > 0], which is
    [undefined] for a message without [tool_calls]. *)
Example continuation_final_answer :
  fst (Anthropic.chat_continue (double anthropic_final_turn)
         (continue_body [entry_ok]) boot)
  = res_json (JObj [("response", anthropic_final_turn);
                    ("needsToolResponse", JBool false)])
  /\ fst (OpenAI.chat_continue (double openai_final_turn)
            (continue_body [entry_ok]) boot)
     = res_json (JObj [("response",
                        JObj [("role", JStr "assistant");
                              ("content", JStr "Hello")]);
                       ("needsToolResponse", JUndefined)]).
Proof. split; reflexivity. Qed.

(* ================================================================== *)
(** * What the pieces of a handler may do *)
(* ================================================================== *)

Section AddsOnly.
Variable P : Event -> bool.

Lemma adds_only_ret {A} (a : A) : adds_only P (ret a).
Proof. intros st. exists []. rewrite add_events_nil. auto. Qed.

Lemma adds_only_lift {A} (r : Res A) : adds_only P (lift r).
Proof. intros st. exists []. rewrite add_events_nil. auto. Qed.

Lemma adds_only_throw {A} (e : Exn) : adds_only P (@throw A e).
Proof. intros st. exists []. rewrite add_events_nil. auto. Qed.

Lemma adds_only_bind {A B} (c : M A) (k : A -> M B) :
  adds_only P c -> (forall a, adds_only P (k a)) -> adds_only P (bind c k).
Proof.
  intros Hc Hk st. unfold bind.
  destruct (Hc st) as [evs [E HP]].
  destruct (c st) as [[a|e] st1]; simpl in E; subst st1.
  - destruct (Hk a (add_events st evs)) as [evs' [E' HP']].
    exists (evs ++ evs')%list. rewrite E', add_events_app.
    rewrite forallb_app, HP, HP'. auto.
  - exists evs. auto.
Qed.

Lemma adds_only_try_catch {A} (c : M A) (h : Exn -> M A) :
  adds_only P c -> (forall e, adds_only P (h e)) -> adds_only P (try_catch c h).
Proof.
  intros Hc Hh st. unfold try_catch.
  destruct (Hc st) as [evs [E HP]].
  destruct (c st) as [[a|e] st1]; simpl in E; subst st1.
  - exists evs. auto.
  - destruct (Hh e (add_events st evs)) as [evs' [E' HP']].
    exists (evs ++ evs')%list. rewrite E', add_events_app.
    rewrite forallb_app, HP, HP'. auto.
Qed.

Lemma adds_only_external {A} (ev : Event) (answer : list Event -> Res A) :
  P ev = true -> adds_only P (external ev answer).
Proof.
  intros H st. exists [ev]. simpl. rewrite H. auto.
Qed.

Lemma adds_only_getTools : adds_only P getTools.
Proof. intros st. exists []. rewrite add_events_nil. auto. Qed.

Lemma adds_only_if {A} (b : bool) (c1 c2 : M A) :
  adds_only P c1 -> adds_only P c2 -> adds_only P (if b then c1 else c2).
Proof. destruct b; auto. Qed.

End AddsOnly.

Lemma adds_only_callTool (W : World) (P : Event -> bool) (toolName args : JsVal) :
  P (EvCallTool toolName args) = true ->
  adds_only P (callTool W toolName args).
Proof.
  intros H. unfold callTool.
  apply adds_only_bind; [intros st; exists []; rewrite add_events_nil; auto|].
  intros m. apply adds_only_if; [apply adds_only_throw|].
  apply adds_only_try_catch; [|intros e; apply adds_only_throw].
  destruct (client m); [|apply adds_only_throw].
  apply adds_only_external. exact H.
Qed.

Lemma replies_200_bind {A} (c : M A) (k : A -> M Response) :
  (forall a, replies_200 (k a)) -> replies_200 (bind c k).
Proof.
  intros Hk st. unfold bind.
  destruct (c st) as [[a|e] st1]; simpl; [apply Hk | exact I].
Qed.

Lemma replies_200_json (body : JsVal) : replies_200 (ret (res_json body)).
Proof. intros st. reflexivity. Qed.

Lemma replies_200_if (b : bool) (c1 c2 : M Response) :
  replies_200 c1 -> replies_200 c2 -> replies_200 (if b then c1 else c2).
Proof. destruct b; auto. Qed.

(** The tool loop of the OpenAI generation, on any list of values: it only
    ever executes tools. *)
Lemma openai_tool_loop_adds_only (W : World) (P : Event -> bool) :
  (forall toolName args, P (EvCallTool toolName args) = true) ->
  forall toolCalls toolResults,
    adds_only P (OpenAI.tool_loop W toolCalls toolResults).
Proof.
  intros HP toolCalls.
  assert (Hname : forall v, adds_only P (OpenAI.function_name v)).
  { intros v. unfold OpenAI.function_name.
    apply adds_only_bind; [apply adds_only_lift|].
    intros f. apply adds_only_lift. }
  assert (Hparse : forall v, adds_only P (OpenAI.parse_arguments W v)).
  { intros v. unfold OpenAI.parse_arguments.
    apply adds_only_bind; [apply adds_only_lift|]. intros f.
    apply adds_only_bind; [apply adds_only_lift|]. intros a.
    apply adds_only_lift. }
  induction toolCalls as [|toolCall rest IH]; intros acc; simpl.
  - apply adds_only_ret.
  - apply adds_only_bind; [apply Hname|]. intros _.
    apply adds_only_bind; [|intros entry; apply IH].
    unfold OpenAI.run_call. apply adds_only_try_catch.
    + apply adds_only_bind; [apply Hparse|]. intros args.
      apply adds_only_bind; [apply Hname|]. intros toolName.
      apply adds_only_bind; [apply adds_only_callTool, HP|]. intros result.
      apply adds_only_bind; [apply adds_only_lift|]. intros id.
      apply adds_only_bind; [apply Hname|]. intros toolName'.
      apply adds_only_ret.
    + intros error.
      apply adds_only_bind; [apply adds_only_lift|]. intros id.
      apply adds_only_bind; [apply Hname|]. intros toolName.
      apply adds_only_bind; [apply Hparse|]. intros args.
      apply adds_only_ret.
Qed.

(* ================================================================== *)
(** * Input validation *)
(* ================================================================== *)

Lemma substring_all (s : string) : String.substring 0 (String.length s) s = s.
Proof.
  induction s as [|c s IH]; simpl; [reflexivity|]. rewrite IH. reflexivity.
Qed.

Lemma prefix_split (p s : string) :
  String.prefix p s = true ->
  s = (p ++ String.substring (String.length p)
                             (String.length s - String.length p) s)%string.
Proof.
  revert s. induction p as [|c p IH]; intros s H.
  - simpl. rewrite Nat.sub_0_r, substring_all. reflexivity.
  - destruct s as [|c' s]; simpl in H; [discriminate|].
    destruct (Ascii.ascii_dec c c') as [<-|]; [|discriminate].
    simpl. rewrite <- (IH s H). reflexivity.
Qed.

(** What the middleware does to a request and to the backend: the body goes
    on as it came, the chat store is not touched, and the authentication
    service is asked at most once, about the token of a [Bearer] header. *)
Lemma extractUser_effects
      (auth : list Site.AuthCall -> Site.AuthCall -> Res Site.AuthResult)
      (req : Site.Request) (b : Site.Backend) :
  Site.store (snd (Site.extractUser auth req b)) = Site.store b
  /\ (forall req1, fst (Site.extractUser auth req b) = Ok req1 ->
                   Site.body req1 = Site.body req)
  /\ (Site.auth_calls (snd (Site.extractUser auth req b)) = Site.auth_calls b
      \/ exists token,
          Site.authorization req = Some ("Bearer " ++ token)%string
          /\ Site.auth_calls (snd (Site.extractUser auth req b))
             = (Site.auth_calls b ++ [Site.GetUserSession (JStr token)])%list)
  /\ (Site.authorization req = None ->
      Site.extractUser auth req b = (Ok req, b)).
Proof.
  unfold Site.extractUser, Site.call_auth.
  destruct (Site.authorization req) as [authHeader|] eqn:Eh.
  - destruct (negb (authHeader =? "")%string
              && String.prefix "Bearer " authHeader) eqn:Ep.
    + apply andb_true_iff in Ep. destruct Ep as [_ Ep].
      apply prefix_split in Ep.
      set (token := String.substring 7 (String.length authHeader - 7)
                                     authHeader) in *.
      cbv zeta.
      destruct (auth (Site.auth_calls b) (Site.GetUserSession (JStr token)))
        as [result|e]; simpl.
      * split; [reflexivity|]. split.
        { intros req1 H. injection H as <-.
          destruct (Site.success result); reflexivity. }
        split; [|discriminate].
        right. exists token. split; [rewrite Ep at 1; reflexivity|reflexivity].
      * split; [reflexivity|]. split; [discriminate|].
        split; [|discriminate].
        right. exists token. split; [rewrite Ep at 1; reflexivity|reflexivity].
    + simpl. split; [reflexivity|]. split; [intros req1 H; injection H as <-; reflexivity|].
      split; [left; reflexivity | discriminate].
  - simpl. split; [reflexivity|]. split; [intros req1 H; injection H as <-; reflexivity|].
    split; [left; reflexivity | reflexivity].
Qed.

(** C1 (amended). A request to [/api/chat] whose [messages] is not an array
    (it is missing, [null], or any other non-array value) is answered 400
    ['Messages array is required'] by both generations, before the readiness
    check and before the tool endpoint or the provider is contacted: the
    relay's state and its trace are what they were.  In the later
    [server.js] the request has first passed the middleware, which has asked
    the authentication service at most once, about the token of a [Bearer]
    header (and not at all without a header); when that call throws the
    handler is not reached.  The chat store is not touched. *)
Theorem non_array_messages_rejected (messages : JsVal) :
  isArray messages = false ->
  forall W body st,
    getProp body "messages" = Ok messages ->
    let refusal :=
      res_status_json 400 (error_body "Messages array is required") in
    OpenAI.chat W body st = (refusal, st)
    /\ Anthropic.chat W body st = (refusal, st)
    /\ forall auth req b,
        Site.body req = body ->
        let out := Site.relay_through_middleware auth (OpenAI.chat W) req b st in
        snd out = st
        /\ Site.store (snd (fst out)) = Site.store b
        /\ (fst (fst out) = Ok refusal
            \/ exists e, fst (Site.extractUser auth req b) = Throw e
                         /\ fst (fst out) = Throw e)
        /\ (Site.auth_calls (snd (fst out)) = Site.auth_calls b
            \/ exists token,
                Site.authorization req = Some ("Bearer " ++ token)%string
                /\ Site.auth_calls (snd (fst out))
                   = (Site.auth_calls b
                      ++ [Site.GetUserSession (JStr token)])%list)
        /\ (Site.authorization req = None ->
            out = (Ok refusal, b, st)).
Proof.
  intros Ha W body st Hb refusal.
  assert (Hrej : messages_rejected messages = true).
  { rewrite messages_rejected_iff, Ha. reflexivity. }
  assert (Ho : OpenAI.chat W body st = (refusal, st)).
  { unfold OpenAI.chat, respond. unfold bind at 1. unfold lift at 1.
    rewrite Hb, Hrej. reflexivity. }
  split; [exact Ho|]. split.
  { unfold Anthropic.chat, respond. unfold bind at 1. unfold lift at 1.
    rewrite Hb, Hrej. reflexivity. }
  intros auth req b Hbody out.
  destruct (extractUser_effects auth req b) as [Hs [Hreq [Hcalls Hnone]]].
  unfold out, Site.relay_through_middleware.
  destruct (Site.extractUser auth req b) as [[req1|e] b1] eqn:Ee;
    simpl in Hs, Hreq, Hcalls.
  - rewrite (Hreq req1 eq_refl), Hbody, Ho. simpl.
    split; [reflexivity|]. split; [exact Hs|].
    split; [left; reflexivity|]. split; [exact Hcalls|].
    intros Hn. specialize (Hnone Hn). injection Hnone as _ ->. reflexivity.
  - simpl. split; [reflexivity|]. split; [exact Hs|].
    split; [right; exists e; split; reflexivity|]. split; [exact Hcalls|].
    intros Hn. specialize (Hnone Hn). discriminate Hnone.
Qed.

Lemma non_array_messages_rejected_witness :
  let refusal :=
    res_status_json 400 (error_body "Messages array is required") in
  OpenAI.chat (double openai_final_turn) (JObj []) boot = (refusal, boot)
  /\ Anthropic.chat (double openai_final_turn) (JObj []) boot = (refusal, boot)
  /\ Site.relay_through_middleware auth_double
       (OpenAI.chat (double openai_final_turn))
       (request_for_c2 None (JObj [])) fresh_backend boot
     = (Ok refusal, fresh_backend, boot).
Proof.
  intros refusal.
  destruct (non_array_messages_rejected JUndefined eq_refl
              (double openai_final_turn) (JObj []) boot eq_refl)
    as [Ho [Han Hm]].
  split; [exact Ho|]. split; [exact Han|].
  destruct (Hm auth_double (request_for_c2 None (JObj [])) fresh_backend
               eq_refl) as [_ [_ [_ [_ Hnone]]]].
  exact (Hnone eq_refl).
Defined.

(** With a [Bearer] header the middleware asks the authentication service
    about the token before the handler refuses the request. *)
Example non_array_messages_with_a_token :
  Site.relay_through_middleware auth_double
    (OpenAI.chat (double openai_final_turn))
    (request_for_c2 (Some "Bearer alices-token") (JObj [])) fresh_backend boot
  = (Ok (res_status_json 400 (error_body "Messages array is required")),
     {| Site.store := Site.store fresh_backend;
        Site.auth_calls := [Site.GetUserSession (JStr "alices-token")] |},
     boot).
Proof. reflexivity. Qed.

(** C1 as stated fails: an empty list is an array, the guard lets it through,
    and on a ready client both generations submit the empty conversation to
    the provider and answer 200. *)
Lemma empty_messages_reach_the_model :
  ~ fails_fast OpenAI.chat (JArr [])
  /\ ~ fails_fast Anthropic.chat (JArr []).
Proof.
  split; intros H.
  - destruct (H (double openai_final_turn)
                (JObj [("messages", JArr [])])
                (connected (double openai_final_turn)) eq_refl) as [H1 _].
    vm_compute in H1. discriminate H1.
  - destruct (H (double anthropic_final_turn)
                (JObj [("messages", JArr [])])
                (connected (double anthropic_final_turn)) eq_refl) as [H1 _].
    vm_compute in H1. discriminate H1.
Qed.

(** What the two handlers do with the empty list, in full. *)
Example empty_messages_openai :
  let W := double openai_final_turn in
  OpenAI.chat W (JObj [("messages", JArr [])]) (connected W)
  = (res_json (JObj [("response",
                      JObj [("role", JStr "assistant");
                            ("content", JStr "Hello")]);
                     ("needsToolResponse", JBool false)]),
     add_events (connected W) [EvModel (openai_request [] [search_tool])]).
Proof. reflexivity. Qed.

Example empty_messages_anthropic :
  let W := double anthropic_final_turn in
  Anthropic.chat W (JObj [("messages", JArr [])]) (connected W)
  = (res_json (JObj [("response", anthropic_final_turn);
                     ("needsToolResponse", JBool false)]),
     add_events (connected W) [EvModel (anthropic_request [] [search_tool])]).
Proof. reflexivity. Qed.

(* ================================================================== *)
(** * The readiness check *)
(* ================================================================== *)

Lemma connect_attempts_app (l1 l2 : list Event) :
  connect_attempts (l1 ++ l2) = (connect_attempts l1 + connect_attempts l2)%nat.
Proof.
  unfold connect_attempts. rewrite filter_app, length_app. reflexivity.
Qed.

Lemma no_connect_attempts (evs : list Event) :
  forallb not_connect evs = true -> connect_attempts evs = 0%nat.
Proof.
  unfold connect_attempts, not_connect.
  induction evs as [|ev rest IH]; simpl; [reflexivity|].
  destruct (is_connect ev); simpl; [discriminate | exact IH].
Qed.

(** What [/api/chat] of the OpenAI generation does once the client is ready:
    it contacts the provider and the tools, never the connection; and what
    it returns is a 200. *)
Lemma openai_chat_rest (W : World) (messages : JsVal) :
  let rest :=
    (cleanedMessages <- lift (array_map "messages" cleanMessage messages) ;;
     mcpTools <- getTools ;;
     response <- OpenAI.completions_create W (JArr cleanedMessages)
                                           (OpenAI.openaiTools mcpTools) ;;
     message <- lift (OpenAI.first_message response) ;;
     lift (getProp message "tool_calls") ;;;
     wants <- lift (OpenAI.has_tool_calls W message) ;;
     if truthy wants then
       tool_calls <- lift (getProp message "tool_calls") ;;
       toolCalls <- lift (iterate "message.tool_calls" tool_calls) ;;
       toolResults <- OpenAI.tool_loop W toolCalls [] ;;
       ret (res_json (JObj [("response", message);
                            ("toolResults", JArr toolResults);
                            ("needsToolResponse", JBool true)]))
     else
       ret (res_json (JObj [("response", message);
                            ("needsToolResponse", JBool false)])))%js in
  adds_only not_connect rest /\ replies_200 rest.
Proof.
  intros rest. subst rest. split.
  - apply adds_only_bind; [apply adds_only_lift|]. intros cleanedMessages.
    apply adds_only_bind; [apply adds_only_getTools|]. intros mcpTools.
    apply adds_only_bind; [apply adds_only_external; reflexivity|].
    intros response.
    apply adds_only_bind; [apply adds_only_lift|]. intros reply.
    apply adds_only_bind; [apply adds_only_lift|]. intros _.
    apply adds_only_bind; [apply adds_only_lift|]. intros wants.
    apply adds_only_if; [|apply adds_only_ret].
    apply adds_only_bind; [apply adds_only_lift|]. intros tool_calls.
    apply adds_only_bind; [apply adds_only_lift|]. intros toolCalls.
    apply adds_only_bind; [|intros; apply adds_only_ret].
    apply openai_tool_loop_adds_only. reflexivity.
  - repeat (apply replies_200_bind; intros).
    apply replies_200_if; [|apply replies_200_json].
    repeat (apply replies_200_bind; intros).
    apply replies_200_json.
Qed.

(** C4 (amended). Take a request to [/api/chat] whose [messages] is an array
    and which finds the client not ready.  The OpenAI generation makes
    exactly one reconnect attempt.  If [initialize()] returns [false] the
    reply is 503 ['MCP client failed to connect'] and neither the provider
    nor a tool has been contacted; if it returns [true] the request goes on
    and its reply is not a 503.  The Anthropic generation makes no
    attempt: it replies 503 ['MCP client not connected'] at once and
    leaves the state and the trace as they were. *)
Theorem lazy_reconnect_when_not_ready
        (W : World) (body : JsVal) (msgs : list JsVal) (st : St) :
  getProp body "messages" = Ok (JArr msgs) ->
  isConnected (mcpClient st) = false ->
  (exists evs,
      trace (snd (OpenAI.chat W body st)) = (trace st ++ evs)%list
      /\ connect_attempts evs = 1%nat)
  /\ (fst (initialize W st) = Ok false ->
      OpenAI.chat W body st
      = (res_status_json 503 (error_body "MCP client failed to connect"),
         snd (initialize W st))
      /\ model_requests (trace (snd (initialize W st)))
         = model_requests (trace st)
      /\ tool_executions (trace (snd (initialize W st)))
         = tool_executions (trace st))
  /\ (fst (initialize W st) = Ok true ->
      status (fst (OpenAI.chat W body st)) <> 503)
  /\ Anthropic.chat W body st
     = (res_status_json 503 (error_body "MCP client not connected"), st).
Proof.
  intros Hb Hn.
  assert (Hchat : forall rest,
             respond
               (messages <- lift (getProp body "messages") ;;
                if messages_rejected messages then
                  ret (res_status_json 400
                         (error_body "Messages array is required"))
                else OpenAI.ensure_ready W (rest messages)) st
             = respond (OpenAI.ensure_ready W (rest (JArr msgs))) st).
  { intros rest. unfold respond. unfold bind at 1. unfold lift at 1.
    rewrite Hb. rewrite array_not_rejected. reflexivity. }
  destruct (openai_chat_rest W (JArr msgs)) as [Hadds H200].
  cbv zeta in Hadds, H200.
  unfold OpenAI.chat.
  rewrite (Hchat (fun messages =>
    (cleanedMessages <- lift (array_map "messages" cleanMessage messages) ;;
     mcpTools <- getTools ;;
     response <- OpenAI.completions_create W (JArr cleanedMessages)
                                           (OpenAI.openaiTools mcpTools) ;;
     message <- lift (OpenAI.first_message response) ;;
     lift (getProp message "tool_calls") ;;;
     wants <- lift (OpenAI.has_tool_calls W message) ;;
     if truthy wants then
       tool_calls <- lift (getProp message "tool_calls") ;;
       toolCalls <- lift (iterate "message.tool_calls" tool_calls) ;;
       toolResults <- OpenAI.tool_loop W toolCalls [] ;;
       ret (res_json (JObj [("response", message);
                            ("toolResults", JArr toolResults);
                            ("needsToolResponse", JBool true)]))
     else
       ret (res_json (JObj [("response", message);
                            ("needsToolResponse", JBool false)])))%js)).
  cbv beta.
  match goal with
  | |- context [OpenAI.ensure_ready W ?r] => set (rest := r) in *
  end.
  pose proof (initialize_cases W st) as Hi. cbv zeta in Hi.
  unfold respond.
  repeat split.
  - (* exactly one attempt *)
    destruct (client_connect W (trace st)) as [[]|e1].
    + destruct (client_listTools W (trace st ++ [EvConnect])%list) as [ts|e2].
      * assert (Hr : made_ready W st = Some (snd (initialize W st))).
        { unfold made_ready. rewrite Hn, Hi. reflexivity. }
        rewrite (ensure_ready_passes W rest st _ Hr).
        destruct (Hadds (snd (initialize W st))) as [evs [E HP]].
        exists ([EvConnect; EvListTools] ++ evs)%list. split.
        -- destruct (rest (snd (initialize W st))) as [[r|e] st'];
             simpl in E |- *; subst st'; rewrite Hi; simpl;
             rewrite <- !app_assoc; reflexivity.
        -- rewrite connect_attempts_app, (no_connect_attempts evs HP).
           reflexivity.
      * assert (Hr : made_ready W st = None).
        { unfold made_ready. rewrite Hn, Hi. reflexivity. }
        rewrite (ensure_ready_fails W rest st Hr).
        rewrite Hi. simpl. exists [EvConnect; EvListTools].
        rewrite <- app_assoc. split; reflexivity.
    + assert (Hr : made_ready W st = None).
      { unfold made_ready. rewrite Hn, Hi. reflexivity. }
      rewrite (ensure_ready_fails W rest st Hr).
      rewrite Hi. simpl. exists [EvConnect]. split; reflexivity.
  - (* the attempt fails: 503 *)
    assert (Hr : made_ready W st = None).
    { unfold made_ready. rewrite Hn.
      destruct (initialize W st) as [[[|]|e] st']; simpl in *;
        try reflexivity; discriminate. }
    rewrite (ensure_ready_fails W rest st Hr). reflexivity.
  - rewrite Hi.
    destruct (client_connect W (trace st)) as [[]|e1];
      [destruct (client_listTools W (trace st ++ [EvConnect])%list)|];
      simpl; unfold model_requests; rewrite !filter_app; simpl;
      rewrite ?app_nil_r; reflexivity.
  - rewrite Hi.
    destruct (client_connect W (trace st)) as [[]|e1];
      [destruct (client_listTools W (trace st ++ [EvConnect])%list)|];
      simpl; unfold tool_executions; rewrite !filter_app; simpl;
      rewrite ?app_nil_r; reflexivity.
  - (* the attempt succeeds: not a 503 *)
    intros Hok.
    assert (Hr : made_ready W st = Some (snd (initialize W st))).
    { unfold made_ready. rewrite Hn.
      destruct (initialize W st) as [[[|]|e] st']; simpl in *;
        try reflexivity; discriminate. }
    rewrite (ensure_ready_passes W rest st _ Hr).
    specialize (H200 (snd (initialize W st))).
    destruct (rest (snd (initialize W st))) as [[r|e] st']; simpl in *.
    + rewrite H200. discriminate.
    + discriminate.
  - (* Anthropic *)
    unfold Anthropic.chat, respond, isReady. unfold_monad.
    rewrite Hb, array_not_rejected, Hn. reflexivity.
Qed.

Lemma lazy_reconnect_when_not_ready_witness :
  let W := double_offline openai_final_turn in
  let body := JObj [("messages", JArr [hello])] in
  OpenAI.chat W body boot
  = (res_status_json 503 (error_body "MCP client failed to connect"),
     snd (initialize W boot))
  /\ Anthropic.chat W body boot
     = (res_status_json 503 (error_body "MCP client not connected"), boot).
Proof.
  intros W body.
  destruct (lazy_reconnect_when_not_ready W body [hello] boot eq_refl eq_refl)
    as [_ [Hfail [_ Hanthropic]]].
  split; [apply Hfail; reflexivity | exact Hanthropic].
Defined.

(** C4 as stated fails in both generations.  In the OpenAI generation a
    request without [messages] that finds the client not ready is answered
    400 before the readiness check, with no reconnect attempt.  In the
    Anthropic generation no request ever reconnects: a well-formed one that
    finds the client not ready is answered 503 with no attempt. *)
Lemma not_every_request_reconnects :
  ~ reconnects_once OpenAI.chat /\ ~ reconnects_once Anthropic.chat.
Proof.
  split; intros H.
  - destruct (H (double openai_final_turn) (JObj []) boot eq_refl)
      as [evs [Ht Hc]].
    simpl in Ht. subst evs. discriminate Hc.
  - destruct (H (double anthropic_final_turn)
                (JObj [("messages", JArr [hello])]) boot eq_refl)
      as [evs [Ht Hc]].
    simpl in Ht. subst evs. discriminate Hc.
Qed.

Example no_reconnect_on_bad_request :
  OpenAI.chat (double openai_final_turn) (JObj []) boot
  = (res_status_json 400 (error_body "Messages array is required"), boot).
Proof. reflexivity. Qed.

Example no_reconnect_in_anthropic :
  Anthropic.chat (double anthropic_final_turn)
                 (JObj [("messages", JArr [hello])]) boot
  = (res_status_json 503 (error_body "MCP client not connected"), boot).
Proof. reflexivity. Qed.

(** A lazy reconnect that succeeds: the request is served. *)
Example reconnect_then_answer :
  let W := double openai_final_turn in
  OpenAI.chat W (JObj [("messages", JArr [hello])]) boot
  = (res_json (JObj [("response",
                      JObj [("role", JStr "assistant");
                            ("content", JStr "Hello")]);
                     ("needsToolResponse", JBool false)]),
     {| mcpClient := {| client := Some tt; isConnected := true;
                        tools := [search_tool] |};
        trace := [EvConnect; EvListTools;
                  EvModel (openai_request
                             [JObj [("role", JStr "user");
                                    ("content", JStr "Hello")]]
                             [search_tool])] |}).
Proof. reflexivity. Qed.

(* ================================================================== *)
(** * The continuation *)
(* ================================================================== *)

Lemma toolResultMessage_ok (W : World) (tr : JsVal) :
  nullish tr = false ->
  OpenAI.toolResultMessage W tr
  = Ok (JObj [("role", JStr "tool");
              ("tool_call_id", field tr "tool_call_id");
              ("content", rendered_if_truthy W tr)]).
Proof.
  destruct tr; simpl; intros H; try discriminate; reflexivity.
Qed.

Lemma toolResultBlock_ok (W : World) (tr : JsVal) :
  nullish tr = false ->
  Anthropic.toolResultBlock W tr
  = Ok (JObj [("type", JStr "tool_result");
              ("tool_use_id", field tr "tool_use_id");
              ("content", rendered_if_truthy W tr)]).
Proof.
  destruct tr; simpl; intros H; try discriminate; reflexivity.
Qed.

Lemma array_map_ok (f : JsVal -> Res JsVal) (g : JsVal -> JsVal)
      (items : list JsVal) :
  (forall v, nullish v = false -> f v = Ok (g v)) ->
  forallb (fun v => negb (nullish v)) items = true ->
  array_map "toolResults" f (JArr items) = Ok (map g items).
Proof.
  intros Hf H. simpl. apply map_res_ok.
  rewrite forallb_forall in H. apply Forall_forall. intros v Hv.
  apply Hf. specialize (H v Hv). destruct (nullish v); [discriminate|reflexivity].
Qed.

(** C5 (amended). On a continuation request, each generation submits to the
    provider exactly one request, whose conversation is: the prior messages
    in their order, each reduced to its own [role] and [content]; then the
    assistant's tool-request message; then the tool results, each carrying
    its call identifier and rendered as ['Error: ' + error] when its [error]
    field is truthy and as [JSON.stringify(result)] otherwise. *)
Theorem continuation_round_trip : continuation_submits rendered_if_truthy.
Proof.
  intros W body msgs assistantResponse trs st
         [Hm [Ht [Ha [Hnm [Hnt Hna]]]]].
  split.
  - intros st1 Hr.
    unfold OpenAI.chat_continue, respond.
    rewrite (ensure_ready_passes W _ st st1 Hr).
    unfold bind at 1. unfold lift at 1. rewrite Hm.
    unfold bind at 1. unfold lift at 1. rewrite Ht.
    unfold bind at 1. unfold lift at 1. rewrite Ha.
    unfold bind at 1. unfold lift at 1. rewrite (array_map_clean msgs Hnm).
    unfold bind at 1. unfold lift at 1.
    rewrite (array_map_ok (OpenAI.toolResultMessage W) _ trs
               (toolResultMessage_ok W) Hnt).
    unfold bind at 1. unfold getTools at 1.
    unfold bind at 1, get_mcp at 1, ret at 1.
    unfold bind at 1. unfold OpenAI.completions_create, external.
    cbv zeta. cbv beta. cbv iota. cbv beta.
    fold (openai_conversation (rendered_if_truthy W) msgs assistantResponse trs).
    fold (openai_request
            (openai_conversation (rendered_if_truthy W) msgs assistantResponse trs)
            (tools (mcpClient st1))).
    set (request := openai_request _ _).
    destruct (model_create W (trace st1) request) as [response|e];
      [|reflexivity].
    unfold bind at 1. unfold lift at 1.
    destruct (OpenAI.first_message response) as [reply|e]; [|reflexivity].
    unfold bind at 1. unfold lift at 1.
    destruct (OpenAI.has_tool_calls W reply) as [needs|e]; reflexivity.
  - unfold Anthropic.chat_continue, respond.
    unfold bind at 1. unfold lift at 1. rewrite Hm.
    unfold bind at 1. unfold lift at 1. rewrite Ht.
    unfold bind at 1. unfold lift at 1. rewrite Ha.
    unfold bind at 1. unfold lift at 1. rewrite (array_map_clean msgs Hnm).
    unfold bind at 1. unfold lift at 1.
    rewrite (array_map_ok (Anthropic.toolResultBlock W) _ trs
               (toolResultBlock_ok W) Hnt).
    assert (Hc : getProp assistantResponse "content"
                 = Ok (field assistantResponse "content")).
    { destruct assistantResponse; try discriminate; reflexivity. }
    unfold bind at 1. unfold lift at 1. rewrite Hc.
    cbv zeta. cbv beta. cbv iota. cbv beta.
    unfold bind at 1. unfold getTools at 1.
    unfold bind at 1, get_mcp at 1, ret at 1.
    unfold bind at 1. unfold Anthropic.messages_create, external.
    cbv zeta. cbv beta. cbv iota. cbv beta.
    fold (anthropic_conversation (rendered_if_truthy W) msgs
            assistantResponse trs).
    fold (anthropic_request
            (anthropic_conversation (rendered_if_truthy W) msgs
               assistantResponse trs)
            (tools (mcpClient st))).
    set (request := anthropic_request _ _).
    destruct (model_create W (trace st) request) as [response|e];
      [|reflexivity].
    unfold bind at 1. unfold lift at 1.
    destruct (getProp response "stop_reason"); reflexivity.
Qed.

Lemma continuation_round_trip_witness :
  let W := double openai_final_turn in
  snd (OpenAI.chat_continue W (continue_body [entry_ok; entry_failed]) boot)
  = add_events (connected W)
      [EvModel
         (openai_request
            [JObj [("role", JStr "user"); ("content", JStr "Hello")];
             openai_tool_message [call_1; call_2];
             JObj [("role", JStr "tool"); ("tool_call_id", JStr "call_1");
                   ("content", JStr "[]")];
             JObj [("role", JStr "tool"); ("tool_call_id", JStr "call_2");
                   ("content", JStr "Error: tool failed")]]
            [search_tool])].
Proof.
  intros W.
  exact (proj1 (continuation_round_trip W
                  (continue_body [entry_ok; entry_failed])
                  [hello] (openai_tool_message [call_1; call_2])
                  [entry_ok; entry_failed] boot
                  (conj eq_refl (conj eq_refl (conj eq_refl
                     (conj eq_refl (conj eq_refl eq_refl))))))
               (connected W) eq_refl).
Defined.

(** C5 as stated fails on the rendering: a result whose [error] field is
    present but falsy (here the empty text, the message of an error thrown
    without one) is not rendered as ['Error: ']; the handlers serialise its
    absent [result] instead. *)
Lemma falsy_error_not_rendered_as_error :
  ~ continuation_submits rendered_as_stated.
Proof.
  intros H.
  destruct (H (double openai_final_turn)
              (continue_body [entry_failed_silently])
              [hello] (openai_tool_message [call_1; call_2])
              [entry_failed_silently] boot
              (conj eq_refl (conj eq_refl (conj eq_refl
                 (conj eq_refl (conj eq_refl eq_refl)))))) as [Ho _].
  specialize (Ho (connected (double openai_final_turn)) eq_refl).
  vm_compute in Ho. discriminate Ho.
Qed.

Example falsy_error_rendering :
  rendered_if_truthy (double openai_final_turn) entry_failed_silently = JUndefined
  /\ rendered_as_stated (double openai_final_turn) entry_failed_silently
     = JStr "Error: ".
Proof. split; reflexivity. Qed.

(** ** Final answers of the continuation *)

(** The continuation of the Anthropic generation always answers with a
    boolean flag, [response.stop_reason === 'tool_use']: [false] on a final
    answer. *)
Lemma anthropic_continuation_flag (W : World) (body : JsVal)
      (msgs : list JsVal) (assistantResponse : JsVal) (trs : list JsVal)
      (st : St) (response stop_reason : JsVal) :
  continuation_body body msgs assistantResponse trs ->
  model_create W (trace st)
    (anthropic_request
       (anthropic_conversation (rendered_if_truthy W) msgs assistantResponse trs)
       (tools (mcpClient st))) = Ok response ->
  getProp response "stop_reason" = Ok stop_reason ->
  fst (Anthropic.chat_continue W body st)
  = res_json (JObj [("response", response);
                    ("needsToolResponse",
                     JBool (strict_eq_str stop_reason "tool_use"))]).
Proof.
  intros [Hm [Ht [Ha [Hnm [Hnt Hna]]]]] Hmodel Hstop.
  unfold Anthropic.chat_continue, respond.
  unfold bind at 1. unfold lift at 1. rewrite Hm.
  unfold bind at 1. unfold lift at 1. rewrite Ht.
  unfold bind at 1. unfold lift at 1. rewrite Ha.
  unfold bind at 1. unfold lift at 1. rewrite (array_map_clean msgs Hnm).
  unfold bind at 1. unfold lift at 1.
  rewrite (array_map_ok (Anthropic.toolResultBlock W) _ trs
             (toolResultBlock_ok W) Hnt).
  assert (Hc : getProp assistantResponse "content"
               = Ok (field assistantResponse "content")).
  { destruct assistantResponse; try discriminate; reflexivity. }
  unfold bind at 1. unfold lift at 1. rewrite Hc.
  cbv zeta. cbv beta. cbv iota. cbv beta.
  unfold bind at 1. unfold getTools at 1.
  unfold bind at 1, get_mcp at 1, ret at 1.
  unfold bind at 1. unfold Anthropic.messages_create, external.
  cbv zeta. cbv beta. cbv iota. cbv beta.
  fold (anthropic_conversation (rendered_if_truthy W) msgs
          assistantResponse trs).
  fold (anthropic_request
          (anthropic_conversation (rendered_if_truthy W) msgs
             assistantResponse trs)
          (tools (mcpClient st))).
  rewrite Hmodel.
  unfold bind at 1. unfold lift at 1. rewrite Hstop. reflexivity.
Qed.

(** C6. The continuation of the OpenAI generation on a final answer.  The
    request carries the conversation, the assistant's tool-request message
    and one tool result; the provider answers with a message that has no
    [tool_calls].  [/api/chat/continue] replies 200 with [{ response,
    needsToolResponse: message.tool_calls && ... }], where the flag is
    [undefined], not [false].  There is no [toolResults]. *)
Theorem continuation_final_answer_has_no_flag :
  let W := double openai_final_turn in
  let r := fst (OpenAI.chat_continue W (continue_body [entry_ok])
                                     (connected W)) in
  r = res_json (JObj [("response",
                       JObj [("role", JStr "assistant");
                             ("content", JStr "Hello")]);
                      ("needsToolResponse", JUndefined)])
  /\ status r = 200
  /\ field (json r) "needsToolResponse" = JUndefined
  /\ field (json r) "needsToolResponse" <> JBool false
  /\ has_field "toolResults" (json r) = false.
Proof.
  cbv zeta.
  split; [reflexivity|]. split; [reflexivity|]. split; [reflexivity|].
  split; [|reflexivity].
  intros H. vm_compute in H. discriminate H.
Qed.

(* ================================================================== *)
(** * Partial failure in a tool turn *)
(* ================================================================== *)

Lemma anthropic_entries_count (W : World) (blocks : list ContentBlock) :
  forall h,
    List.length (anthropic_entries W h blocks)
    = List.length (block_executions blocks).
Proof.
  induction blocks as [|[text|id toolName input] rest IH]; intros h; simpl;
    [reflexivity | apply IH | rewrite IH; reflexivity].
Qed.

(** Every entry bears [result] or [error], never both. *)
Lemma anthropic_entries_shape (W : World) (blocks : list ContentBlock) :
  forall h,
    forallb (fun entry => xorb (has_field "result" entry)
                               (has_field "error" entry))
            (anthropic_entries W h blocks) = true.
Proof.
  induction blocks as [|[text|id toolName input] rest IH]; intros h; simpl;
    [reflexivity | apply IH |].
  rewrite IH.
  destruct (client_callTool W h (JStr toolName) input); reflexivity.
Qed.

Lemma openai_entries_shape (W : World) (calls : list ToolCall) :
  forall h,
    forallb (fun entry => xorb (has_field "result" entry)
                               (has_field "error" entry))
            (openai_entries W h calls) = true.
Proof.
  induction calls as [|c rest IH]; intros h; simpl; [reflexivity|].
  rewrite IH.
  destruct (client_callTool W h (JStr (call_name c)) (parsed W c)); reflexivity.
Qed.

(** A failure of the tool endpoint is contained, in both generations: with a
    tool service on which every call fails, both calls of the turn are
    executed, both entries bear the error, and the request succeeds. *)
Example tool_failures_are_contained_openai :
  let W := double_failing_tool (openai_tool_turn_js [call_1; call_2]) in
  OpenAI.chat W (JObj [("messages", JArr [hello])]) (connected W)
  = (res_json
       (JObj [("response", openai_tool_message [call_1; call_2]);
              ("toolResults",
               JArr [JObj [("tool_call_id", JStr "call_1");
                           ("name", JStr "search"); ("arguments", JObj []);
                           ("error", JStr "tool failed")];
                     entry_failed]);
              ("needsToolResponse", JBool true)]),
     add_events (connected W)
       [EvModel (openai_request [cleaned hello] [search_tool]);
        EvCallTool (JStr "search") (JObj []);
        EvCallTool (JStr "search") (JObj [])]).
Proof. reflexivity. Qed.

Example tool_failures_are_contained_anthropic :
  let blocks := [TextBlock "Let me look."; ToolUseBlock "toolu_1" "search" (JObj []);
                 ToolUseBlock "toolu_2" "search" (JObj [])] in
  let W := double_failing_tool (anthropic_tool_turn_js blocks) in
  Anthropic.chat W (JObj [("messages", JArr [hello])]) (connected W)
  = (res_json
       (JObj [("response", anthropic_tool_turn_js blocks);
              ("toolResults",
               JArr [JObj [("tool_use_id", JStr "toolu_1");
                           ("name", JStr "search"); ("input", JObj []);
                           ("error", JStr "tool failed")];
                     JObj [("tool_use_id", JStr "toolu_2");
                           ("name", JStr "search"); ("input", JObj []);
                           ("error", JStr "tool failed")]]);
              ("needsToolResponse", JBool true)]),
     add_events (connected W)
       [EvModel (anthropic_request [cleaned hello] [search_tool]);
        EvCallTool (JStr "search") (JObj []);
        EvCallTool (JStr "search") (JObj [])]).
Proof. reflexivity. Qed.

(** The scenario of the specification, on the Anthropic generation. *)
Example scenario_search :
  fst (Anthropic.chat scenario_world (JObj [("messages", JArr [hello])])
                      (connected scenario_world))
  = res_json
      (JObj [("response", scenario_turn);
             ("toolResults",
              JArr [JObj [("tool_use_id", JStr "c1");
                          ("name", JStr "search");
                          ("input", JObj [("q", JStr "x")]);
                          ("result", JObj [("hits", JArr [])])]]);
             ("needsToolResponse", JBool true)]).
Proof. reflexivity. Qed.

(** C2. The claim fails in the OpenAI generation when the failure of a call
    is that its arguments text does not parse.  The model asks for two
    calls, the first with the arguments text [{]: the request is answered
    500, no entry is recorded for the failing call, and the second call
    never reaches the tool endpoint (the trace holds the provider request
    and nothing after it). *)
Theorem unparsable_call_is_not_contained :
  let W := double (openai_tool_turn_js [call_cut; call_2]) in
  OpenAI.chat W (JObj [("messages", JArr [hello])]) (connected W)
  = (res_status_json 500 (error_body "Unexpected end of JSON input"),
     add_events (connected W)
       [EvModel (openai_request [cleaned hello] [search_tool])]).
Proof. reflexivity. Qed.

(** C3. The claim fails in the OpenAI generation on a turn of three calls
    whose second has the arguments text [{]: one tool execution is
    performed, not three, and the reply is a 500 without a [toolResults]
    list. *)
Theorem unparsable_call_cuts_the_turn_short :
  let W := double (openai_tool_turn_js [call_1; call_cut; call_2]) in
  let (r, st) :=
    OpenAI.chat W (JObj [("messages", JArr [hello])]) (connected W) in
  r = res_status_json 500 (error_body "Unexpected end of JSON input")
  /\ has_field "toolResults" (json r) = false
  /\ tool_executions (trace st) = [EvCallTool (JStr "search") (JObj [])].
Proof. repeat split; reflexivity. Qed.

(* ================================================================== *)
(** * The chat store *)
(* ================================================================== *)

Module ChatDatabaseFacts.
Import ChatDatabase.

Lemma filter_none {A} (f : A -> bool) (l : list A) :
  existsb f l = false -> filter f l = [].
Proof.
  induction l as [|x rest IH]; simpl; [reflexivity|].
  destruct (f x); simpl; [discriminate | exact IH].
Qed.

Lemma map_untouched {A} (f : A -> bool) (g : A -> A) (l : list A) :
  existsb f l = false -> map (fun x => if f x then g x else x) l = l.
Proof.
  induction l as [|x rest IH]; simpl; [reflexivity|].
  destruct (f x); simpl; [discriminate|].
  intros H. rewrite (IH H). reflexivity.
Qed.

(** The ownership check of the guarded functions, on a chat the caller does
    not own: it leaves the tables alone and does not find the chat. *)
Lemma select_chat_not_owned (chatId userId : string) (s : Supabase) :
  owns (tables s) userId chatId = false ->
  tables (snd (query (select_chat chatId userId) s)) = tables s
  /\ match fst (query (select_chat chatId userId) s) with
     | Ok (Data _) => False
     | Ok (Err _) => hd Healthy (faults s) = Healthy
                     \/ exists msg, hd Healthy (faults s) = Rejected msg
     | Throw e => hd Healthy (faults s) = Crashed (message e)
     end.
Proof.
  intros H. unfold owns in H. unfold query, select_chat.
  rewrite (filter_none _ _ H).
  destruct (hd Healthy (faults s)) as [|msg|msg]; simpl; eauto.
Qed.

(** The three guarded functions, on a chat the caller does not own, whatever
    the health of the service: they fail, with ['Chat not found'] unless the
    ownership query itself threw, and no row is modified. *)
Lemma guarded_functions_refuse (now chatId role content userId : string)
      (s : Supabase) :
  owns (tables s) userId chatId = false ->
  let refused (r : Result * Supabase) :=
    tables (snd r) = tables s
    /\ success (fst r) = false
    /\ (fst r = Failed "Chat not found"
        \/ exists msg, hd Healthy (faults s) = Crashed msg
                       /\ fst r = Failed msg) in
  refused (getChatWithMessages chatId userId s)
  /\ refused (addMessageToChat now chatId role content userId s)
  /\ refused (deleteChat chatId userId s).
Proof.
  intros H refused. subst refused. cbv beta.
  destruct (select_chat_not_owned chatId userId s H) as [Ht Hr].
  unfold getChatWithMessages, addMessageToChat, deleteChat, caught.
  destruct (query (select_chat chatId userId) s) as [[[row|msg]|e] s1];
    simpl in *; try contradiction;
    repeat split; auto; right; exists (message e); auto.
Qed.

(** [updateChatTitle] on a chat the caller does not own modifies no row
    either; but when the service is healthy it reports success, with no
    chat. *)
Lemma updateChatTitle_not_owned (chatId title userId : string) (s : Supabase) :
  owns (tables s) userId chatId = false ->
  tables (snd (updateChatTitle chatId title userId s)) = tables s
  /\ (hd Healthy (faults s) = Healthy ->
      fst (updateChatTitle chatId title userId s) = ChatUpdated None).
Proof.
  intros H. unfold owns in H.
  unfold updateChatTitle, query, update_title, caught.
  rewrite (filter_none _ _ H), (map_untouched _ _ _ H).
  destruct (hd Healthy (faults s)) as [|msg|msg]; simpl;
    (split; [destruct s as [[c m] f]; reflexivity | try discriminate; auto]).
Qed.

End ChatDatabaseFacts.

(** C10. The claim fails for [updateChatTitle].  Mallory renames chat [c1],
    which is Alice's: no row is modified, but the function resolves to
    [{ success: true, chat: undefined }], not to [{ success: false }].  (The
    three guarded functions do refuse: [guarded_functions_refuse].) *)
Theorem updateChatTitle_reports_success_on_foreign_chat :
  ChatDatabase.owns (ChatDatabase.tables alices_store) "mallory" "c1" = false
  /\ ChatDatabase.updateChatTitle "c1" "Renamed" "mallory" alices_store
     = (ChatDatabase.ChatUpdated None, alices_store)
  /\ ChatDatabase.success
       (fst (ChatDatabase.updateChatTitle "c1" "Renamed" "mallory" alices_store))
     = true.
Proof. repeat split; reflexivity. Qed.

Example guarded_functions_refuse_mallory :
  ChatDatabase.getChatWithMessages "c1" "mallory" alices_store
  = (ChatDatabase.Failed "Chat not found", alices_store)
  /\ ChatDatabase.addMessageToChat "2025-01-02T00:00:00.000Z"
       "c1" "user" "Hi" "mallory" alices_store
     = (ChatDatabase.Failed "Chat not found", alices_store)
  /\ ChatDatabase.deleteChat "c1" "mallory" alices_store
     = (ChatDatabase.Failed "Chat not found", alices_store).
Proof. repeat split; reflexivity. Qed.

Example owner_can_rename :
  fst (ChatDatabase.updateChatTitle "c1" "Renamed" "alice" alices_store)
  = ChatDatabase.ChatUpdated
      (Some {| ChatDatabase.chat_id := "c1";
               ChatDatabase.chat_user_id := "alice";
               ChatDatabase.chat_title := "Renamed";
               ChatDatabase.chat_created_at := "2025-01-01T00:00:00.000Z" |}).
Proof. reflexivity. Qed.

(* ================================================================== *)
(** * The chat store: ordering of the listings *)
(* ================================================================== *)

Local Open Scope list_scope.

Module ListingFacts.
Import ChatDatabase.

Lemma ltb_asym (a b : string) : String.ltb a b = true -> String.ltb b a = false.
Proof.
  unfold String.ltb. rewrite (String.compare_antisym a b).
  destruct (String.compare b a); simpl; intros H; try discriminate; reflexivity.
Qed.

Lemma insert_message_perm (m : MessageRow) (l : list MessageRow) :
  Permutation (insert_by_created_at m l) (m :: l).
Proof.
  induction l as [|x rest IH]; simpl; [apply Permutation_refl|].
  destruct (String.ltb (msg_created_at m) (msg_created_at x)).
  - apply Permutation_refl.
  - apply Permutation_trans with (x :: m :: rest).
    + apply perm_skip. exact IH.
    + apply perm_swap.
Qed.

Lemma insert_message_sorted (m : MessageRow) (l : list MessageRow) :
  oldest_first l -> oldest_first (insert_by_created_at m l).
Proof.
  unfold oldest_first.
  induction l as [|x rest IH]; simpl; intros H.
  - constructor; constructor.
  - destruct (String.ltb (msg_created_at m) (msg_created_at x)) eqn:E.
    + constructor; [exact H|]. constructor. apply ltb_asym. exact E.
    + apply Sorted_inv in H as [Hs Hh].
      constructor; [apply IH; exact Hs|].
      destruct rest as [|y rest']; simpl.
      * constructor. exact E.
      * destruct (String.ltb (msg_created_at m) (msg_created_at y));
          constructor; [exact E|].
        apply HdRel_inv in Hh. exact Hh.
Qed.

Lemma order_messages_acc (l : list MessageRow) :
  forall acc,
    oldest_first acc ->
    oldest_first (fold_left (fun acc m => insert_by_created_at m acc) l acc)
    /\ Permutation (fold_left (fun acc m => insert_by_created_at m acc) l acc)
                   (acc ++ l).
Proof.
  induction l as [|m rest IH]; intros acc Hacc; simpl.
  - rewrite app_nil_r. split; [exact Hacc | apply Permutation_refl].
  - destruct (IH _ (insert_message_sorted m acc Hacc)) as [Hs Hp].
    split; [exact Hs|].
    apply Permutation_trans with (insert_by_created_at m acc ++ rest);
      [exact Hp|].
    apply Permutation_trans with ((m :: acc) ++ rest).
    + apply Permutation_app_tail. apply insert_message_perm.
    + simpl. apply Permutation_middle.
Qed.

(** [.order('created_at', { ascending: true })] keeps the rows and puts them
    oldest first. *)
Lemma order_messages (l : list MessageRow) :
  oldest_first (order_by_created_at l)
  /\ Permutation (order_by_created_at l) l.
Proof.
  unfold order_by_created_at.
  apply (order_messages_acc l []). constructor.
Qed.

Lemma insert_chat_perm (c : ChatRow) (l : list ChatRow) :
  Permutation (insert_by_created_at_desc c l) (c :: l).
Proof.
  induction l as [|x rest IH]; simpl; [apply Permutation_refl|].
  destruct (String.ltb (chat_created_at x) (chat_created_at c)).
  - apply Permutation_refl.
  - apply Permutation_trans with (x :: c :: rest).
    + apply perm_skip. exact IH.
    + apply perm_swap.
Qed.

Lemma insert_chat_sorted (c : ChatRow) (l : list ChatRow) :
  newest_first l -> newest_first (insert_by_created_at_desc c l).
Proof.
  unfold newest_first.
  induction l as [|x rest IH]; simpl; intros H.
  - constructor; constructor.
  - destruct (String.ltb (chat_created_at x) (chat_created_at c)) eqn:E.
    + constructor; [exact H|]. constructor. apply ltb_asym. exact E.
    + apply Sorted_inv in H as [Hs Hh].
      constructor; [apply IH; exact Hs|].
      destruct rest as [|y rest']; simpl.
      * constructor. exact E.
      * destruct (String.ltb (chat_created_at y) (chat_created_at c));
          constructor; [exact E|].
        apply HdRel_inv in Hh. exact Hh.
Qed.

Lemma order_chats_acc (l : list ChatRow) :
  forall acc,
    newest_first acc ->
    newest_first
      (fold_left (fun acc c => insert_by_created_at_desc c acc) l acc)
    /\ Permutation
         (fold_left (fun acc c => insert_by_created_at_desc c acc) l acc)
         (acc ++ l).
Proof.
  induction l as [|c rest IH]; intros acc Hacc; simpl.
  - rewrite app_nil_r. split; [exact Hacc | apply Permutation_refl].
  - destruct (IH _ (insert_chat_sorted c acc Hacc)) as [Hs Hp].
    split; [exact Hs|].
    apply Permutation_trans with (insert_by_created_at_desc c acc ++ rest);
      [exact Hp|].
    apply Permutation_trans with ((c :: acc) ++ rest).
    + apply Permutation_app_tail. apply insert_chat_perm.
    + simpl. apply Permutation_middle.
Qed.

(** [.order('created_at', { ascending: false })] keeps the rows and puts
    them newest first. *)
Lemma order_chats (l : list ChatRow) :
  newest_first (order_by_created_at_desc l)
  /\ Permutation (order_by_created_at_desc l) l.
Proof.
  unfold order_by_created_at_desc.
  apply (order_chats_acc l []). constructor.
Qed.

End ListingFacts.

(* ================================================================== *)
(** * The chat store: what its functions do to the tables *)
(* ================================================================== *)

Module ChatStoreProperties.
Import ChatDatabase.

(** X1. The two reads never write, whatever the service answers. *)
Theorem reads_never_write (chatId userId : string) (s : Supabase) :
  tables (snd (getChatWithMessages chatId userId s)) = tables s
  /\ tables (snd (getUserChats userId s)) = tables s.
Proof.
  unfold getChatWithMessages, getUserChats, query, select_chat,
    select_messages, select_user_chats, caught.
  split.
  - destruct (hd Healthy (faults s)); simpl; try reflexivity.
    destruct (single (filter (owned_by chatId userId) (chats (tables s))));
      simpl; try reflexivity.
    destruct (hd Healthy (tl (faults s))); reflexivity.
  - destruct (hd Healthy (faults s)); reflexivity.
Qed.

Lemma single_inv {A} (rows : list A) (row : A) :
  single rows = Data row -> rows = [row].
Proof.
  destruct rows as [|x [|y rest]]; simpl; intros H; try discriminate.
  injection H as ->. reflexivity.
Qed.

(** X3. What [getChatWithMessages] hands out is in scope: the chat is a row of
    the store with the id asked for and the caller as its user, and the
    messages are rows of the store, all of that chat, oldest first. *)
Theorem read_stays_in_scope (chatId userId : string) (s : Supabase)
        (chat : ChatRow) (msgs : list MessageRow) :
  fst (getChatWithMessages chatId userId s) = ChatWithMessages chat msgs ->
  In chat (chats (tables s))
  /\ chat_id chat = chatId
  /\ chat_user_id chat = userId
  /\ Forall (fun m => msg_chat_id m = chatId /\ In m (messages (tables s))) msgs
  /\ oldest_first msgs.
Proof.
  unfold getChatWithMessages, query, select_chat, select_messages, caught.
  destruct (hd Healthy (faults s)); simpl; try discriminate.
  destruct (single (filter (owned_by chatId userId) (chats (tables s))))
    as [row|msg] eqn:Es; simpl; try discriminate.
  destruct (hd Healthy (tl (faults s))); simpl; try discriminate.
  intros H. injection H as -> <-.
  apply single_inv in Es.
  assert (Hin : In chat (filter (owned_by chatId userId) (chats (tables s)))).
  { rewrite Es. left. reflexivity. }
  apply filter_In in Hin as [Hin Ho]. unfold owned_by in Ho.
  apply andb_prop in Ho as [Hid Hu].
  apply String.eqb_eq in Hid. apply String.eqb_eq in Hu.
  destruct (ListingFacts.order_messages
              (filter (fun m => String.eqb (msg_chat_id m) chatId)
                      (messages (tables s)))) as [Hsorted Hperm].
  repeat split; try assumption.
  apply Forall_forall. intros m Hm.
  apply (Permutation_in _ Hperm) in Hm.
  apply filter_In in Hm as [Hm Hc]. apply String.eqb_eq in Hc. auto.
Qed.

Lemma read_stays_in_scope_witness :
  In alices_chat (chats (tables (shared_store [])))
  /\ chat_id alices_chat = "c1"
  /\ chat_user_id alices_chat = "alice"
  /\ Forall (fun m => msg_chat_id m = "c1"
                      /\ In m (messages (tables (shared_store []))))
            [alices_message]
  /\ oldest_first [alices_message].
Proof.
  apply (read_stays_in_scope "c1" "alice" (shared_store [])
           alices_chat [alices_message]).
  reflexivity.
Defined.

(** X4. [getUserChats] lists the caller's chats, all of them and no one else's,
    newest first. *)
Theorem listing_is_the_users_chats (userId : string) (s : Supabase)
        (l : list ChatRow) :
  fst (getUserChats userId s) = ChatList l ->
  Permutation l (filter (fun c => String.eqb (chat_user_id c) userId)
                        (chats (tables s)))
  /\ Forall (fun c => chat_user_id c = userId) l
  /\ newest_first l.
Proof.
  unfold getUserChats, query, select_user_chats.
  destruct (hd Healthy (faults s)); simpl; try discriminate.
  intros H. injection H as <-.
  destruct (ListingFacts.order_chats
              (filter (fun c => String.eqb (chat_user_id c) userId)
                      (chats (tables s)))) as [Hsorted Hperm].
  repeat split; try assumption.
  apply Forall_forall. intros c Hc.
  apply (Permutation_in _ Hperm) in Hc.
  apply filter_In in Hc as [_ Hu]. apply String.eqb_eq in Hu. exact Hu.
Qed.

Lemma listing_is_the_users_chats_witness :
  Permutation [bobs_chat]
    (filter (fun c => String.eqb (chat_user_id c) "bob")
            (chats (tables (shared_store []))))
  /\ Forall (fun c => chat_user_id c = "bob") [bobs_chat]
  /\ newest_first [bobs_chat].
Proof.
  apply (listing_is_the_users_chats "bob" (shared_store []) [bobs_chat]).
  reflexivity.
Defined.

(** X5. Create, then list: on a healthy service the new chat is returned, it is
    in the creator's listing afterwards, nobody else's listing changes, and
    no message is touched. *)
Theorem create_then_list (id now userId title : string) (s : Supabase) :
  healthy s ->
  let row := {| chat_id := id; chat_user_id := userId;
                chat_title := title; chat_created_at := now |} in
  let s1 := snd (createChat id now userId title s) in
  fst (createChat id now userId title s) = ChatUpdated (Some row)
  /\ (exists l, fst (getUserChats userId s1) = ChatList l /\ In row l)
  /\ (forall other, other <> userId ->
        fst (getUserChats other s1) = fst (getUserChats other s))
  /\ messages (tables s1) = messages (tables s).
Proof.
  intros Hh row s1. unfold healthy in Hh. subst s1.
  unfold createChat, getUserChats, query, insert_chat, select_user_chats.
  rewrite Hh. simpl. fold row.
  repeat split.
  - eexists. split; [reflexivity|].
    destruct (ListingFacts.order_chats
                (filter (fun c => String.eqb (chat_user_id c) userId)
                        (chats (tables s) ++ [row]))) as [_ Hperm].
    apply (Permutation_in _ (Permutation_sym Hperm)).
    apply filter_In. split.
    + apply in_or_app. right. left. reflexivity.
    + simpl. apply String.eqb_refl.
  - intros other Hne.
    rewrite filter_app. simpl.
    assert (E : String.eqb userId other = false).
    { apply String.eqb_neq. congruence. }
    rewrite E, app_nil_r. reflexivity.
Qed.

Lemma create_then_list_witness :
  let row := {| chat_id := "c3"; chat_user_id := "bob";
                chat_title := "Staking";
                chat_created_at := "2025-01-04T00:00:00.000Z" |} in
  let s1 := snd (createChat "c3" "2025-01-04T00:00:00.000Z" "bob" "Staking"
                            (shared_store [])) in
  fst (createChat "c3" "2025-01-04T00:00:00.000Z" "bob" "Staking"
                  (shared_store [])) = ChatUpdated (Some row)
  /\ (exists l, fst (getUserChats "bob" s1) = ChatList l /\ In row l)
  /\ (forall other, other <> "bob" ->
        fst (getUserChats other s1)
        = fst (getUserChats other (shared_store [])))
  /\ messages (tables s1) = messages (tables (shared_store [])).
Proof.
  exact (create_then_list "c3" "2025-01-04T00:00:00.000Z" "bob" "Staking"
           (shared_store []) eq_refl).
Defined.

(** X6. Add, then read: on a healthy service the owner's new message is
    returned, the chat read afterwards holds it together with every message
    the chat had, and no chat row is touched. *)
Theorem add_then_read (now chatId role content userId : string)
        (s : Supabase) (chat : ChatRow) :
  healthy s ->
  owned_chat s chatId userId chat ->
  let m := {| msg_chat_id := chatId; msg_role := role;
              msg_content := content; msg_created_at := now |} in
  let s1 := snd (addMessageToChat now chatId role content userId s) in
  fst (addMessageToChat now chatId role content userId s)
  = MessageAdded (Some m)
  /\ chats (tables s1) = chats (tables s)
  /\ exists msgs,
      fst (getChatWithMessages chatId userId s1) = ChatWithMessages chat msgs
      /\ In m msgs
      /\ (forall m', In m' (messages (tables s)) ->
                     msg_chat_id m' = chatId -> In m' msgs).
Proof.
  intros Hh Ho m s1. unfold healthy in Hh. unfold owned_chat in Ho.
  subst s1.
  unfold addMessageToChat, getChatWithMessages, query, select_chat,
    insert_message, select_messages.
  rewrite Hh. simpl. rewrite Ho. simpl. rewrite Ho. simpl. fold m.
  repeat split.
  eexists. split; [reflexivity|].
  destruct (ListingFacts.order_messages
              (filter (fun x => String.eqb (msg_chat_id x) chatId)
                      (messages (tables s) ++ [m]))) as [_ Hperm].
  split.
  - apply (Permutation_in _ (Permutation_sym Hperm)).
    apply filter_In. split.
    + apply in_or_app. right. left. reflexivity.
    + simpl. apply String.eqb_refl.
  - intros m' Hin Hc.
    apply (Permutation_in _ (Permutation_sym Hperm)).
    apply filter_In. split.
    + apply in_or_app. left. exact Hin.
    + apply String.eqb_eq. exact Hc.
Qed.

Lemma add_then_read_witness :
  let m := {| msg_chat_id := "c1"; msg_role := "assistant";
              msg_content := "Hi Alice";
              msg_created_at := "2025-01-05T00:00:00.000Z" |} in
  let s1 := snd (addMessageToChat "2025-01-05T00:00:00.000Z" "c1" "assistant"
                                  "Hi Alice" "alice" (shared_store [])) in
  fst (addMessageToChat "2025-01-05T00:00:00.000Z" "c1" "assistant"
                        "Hi Alice" "alice" (shared_store []))
  = MessageAdded (Some m)
  /\ chats (tables s1) = chats (tables (shared_store []))
  /\ exists msgs,
      fst (getChatWithMessages "c1" "alice" s1)
      = ChatWithMessages alices_chat msgs
      /\ In m msgs
      /\ (forall m', In m' (messages (tables (shared_store []))) ->
                     msg_chat_id m' = "c1" -> In m' msgs).
Proof.
  exact (add_then_read "2025-01-05T00:00:00.000Z" "c1" "assistant" "Hi Alice"
           "alice" (shared_store []) alices_chat eq_refl eq_refl).
Defined.

(** X7. Delete by the owner, on a healthy service: the chat and its messages are
    gone, every other chat and message is still there, and the chat can no
    longer be read. *)
Theorem delete_by_owner (chatId userId : string) (s : Supabase)
        (chat : ChatRow) :
  healthy s ->
  owned_chat s chatId userId chat ->
  let s1 := snd (deleteChat chatId userId s) in
  fst (deleteChat chatId userId s) = Deleted
  /\ (forall c, In c (chats (tables s1))
                <-> In c (chats (tables s)) /\ chat_id c <> chatId)
  /\ (forall m, In m (messages (tables s1))
                <-> In m (messages (tables s)) /\ msg_chat_id m <> chatId)
  /\ fst (getChatWithMessages chatId userId s1) = Failed "Chat not found".
Proof.
  intros Hh Ho s1. unfold healthy in Hh. unfold owned_chat in Ho. subst s1.
  unfold deleteChat, getChatWithMessages, query, select_chat,
    delete_messages, delete_chat_row.
  rewrite Hh. simpl. rewrite Ho. simpl.
  assert (Hneq : forall a b, negb (String.eqb a b) = true <-> a <> b).
  { intros a b. rewrite negb_true_iff. apply String.eqb_neq. }
  split; [reflexivity|].
  split; [|split].
  - intros c. rewrite filter_In, Hneq. reflexivity.
  - intros m. rewrite filter_In, Hneq. reflexivity.
  - assert (E : filter (owned_by chatId userId)
                  (filter (fun c => negb (String.eqb (chat_id c) chatId))
                          (chats (tables s))) = []).
    { apply ChatDatabaseFacts.filter_none.
      apply not_true_is_false. intros Hex.
      apply existsb_exists in Hex as [c [Hin Hc]].
      apply filter_In in Hin as [_ Hn]. unfold owned_by in Hc.
      apply andb_prop in Hc as [Hc _]. rewrite Hc in Hn. discriminate. }
    rewrite E. reflexivity.
Qed.

Lemma delete_by_owner_witness :
  let s1 := snd (deleteChat "c1" "alice" (shared_store [])) in
  fst (deleteChat "c1" "alice" (shared_store [])) = Deleted
  /\ (forall c, In c (chats (tables s1))
                <-> In c (chats (tables (shared_store []))) /\ chat_id c <> "c1")
  /\ (forall m, In m (messages (tables s1))
                <-> In m (messages (tables (shared_store [])))
                    /\ msg_chat_id m <> "c1")
  /\ fst (getChatWithMessages "c1" "alice" s1) = Failed "Chat not found".
Proof.
  exact (delete_by_owner "c1" "alice" (shared_store []) alices_chat
           eq_refl eq_refl).
Defined.

(** X8. Delete is not atomic: when the service fails on the third query, after
    the ownership check and the deletion of the messages, the function
    reports the failure, the chat row is still there and its messages are
    gone. *)
Theorem delete_interrupted (chatId userId msg : string) (s : Supabase)
        (chat : ChatRow) (third : Fault) (later : list Fault) :
  faults s = Healthy :: Healthy :: third :: later ->
  third = Rejected msg \/ third = Crashed msg ->
  owned_chat s chatId userId chat ->
  let s1 := snd (deleteChat chatId userId s) in
  fst (deleteChat chatId userId s) = Failed msg
  /\ chats (tables s1) = chats (tables s)
  /\ In chat (chats (tables s1))
  /\ messages (tables s1)
     = filter (fun m => negb (String.eqb (msg_chat_id m) chatId))
              (messages (tables s)).
Proof.
  intros Hf Hthird Ho s1. unfold owned_chat in Ho. subst s1.
  assert (Hin : In chat (chats (tables s))).
  { assert (H : In chat (filter (owned_by chatId userId) (chats (tables s)))).
    { rewrite Ho. left. reflexivity. }
    apply filter_In in H. apply H. }
  unfold deleteChat, query, select_chat, delete_messages, delete_chat_row,
    caught.
  rewrite Hf. simpl. rewrite Ho. simpl.
  destruct Hthird as [-> | ->]; simpl; repeat split; assumption.
Qed.

Lemma delete_interrupted_witness :
  let s := shared_store [Healthy; Healthy; Rejected "timeout"] in
  let s1 := snd (deleteChat "c1" "alice" s) in
  fst (deleteChat "c1" "alice" s) = Failed "timeout"
  /\ chats (tables s1) = chats (tables s)
  /\ In alices_chat (chats (tables s1))
  /\ messages (tables s1)
     = filter (fun m => negb (String.eqb (msg_chat_id m) "c1"))
              (messages (tables s)).
Proof.
  exact (delete_interrupted "c1" "alice" "timeout"
           (shared_store [Healthy; Healthy; Rejected "timeout"])
           alices_chat (Rejected "timeout") [] eq_refl (or_introl eq_refl)
           eq_refl).
Defined.

Lemma filter_retitled (chatId userId title : string) (l : list ChatRow) :
  filter (owned_by chatId userId)
         (map (fun c => if owned_by chatId userId c then retitle title c else c) l)
  = map (retitle title) (filter (owned_by chatId userId) l).
Proof.
  induction l as [|c rest IH]; simpl; [reflexivity|].
  destruct (owned_by chatId userId c) eqn:E; simpl.
  - change (owned_by chatId userId (retitle title c))
      with (owned_by chatId userId c).
    rewrite E. simpl. rewrite IH. reflexivity.
  - rewrite E. exact IH.
Qed.

(** X9. Rename by the owner, then read: on a healthy service the renamed row is
    returned and is what a read of the chat shows afterwards; every chat
    that is not the renamed one is still there as it was, and no message is
    touched. *)
Theorem rename_then_read (chatId title userId : string) (s : Supabase)
        (chat : ChatRow) :
  healthy s ->
  owned_chat s chatId userId chat ->
  let s1 := snd (updateChatTitle chatId title userId s) in
  fst (updateChatTitle chatId title userId s)
  = ChatUpdated (Some (retitle title chat))
  /\ messages (tables s1) = messages (tables s)
  /\ List.length (chats (tables s1)) = List.length (chats (tables s))
  /\ (forall c, In c (chats (tables s)) ->
                owned_by chatId userId c = false -> In c (chats (tables s1)))
  /\ exists msgs,
      fst (getChatWithMessages chatId userId s1)
      = ChatWithMessages (retitle title chat) msgs.
Proof.
  intros Hh Ho s1. unfold healthy in Hh. unfold owned_chat in Ho. subst s1.
  unfold updateChatTitle, getChatWithMessages, query, update_title,
    select_chat, select_messages.
  rewrite Hh. simpl. rewrite Ho. simpl.
  rewrite filter_retitled, Ho. simpl.
  repeat split.
  - apply length_map.
  - intros c Hin Hn. apply in_map_iff. exists c. rewrite Hn. auto.
  - eexists. reflexivity.
Qed.

Lemma rename_then_read_witness :
  let s1 := snd (updateChatTitle "c1" "Fees" "alice" (shared_store [])) in
  fst (updateChatTitle "c1" "Fees" "alice" (shared_store []))
  = ChatUpdated (Some (retitle "Fees" alices_chat))
  /\ messages (tables s1) = messages (tables (shared_store []))
  /\ List.length (chats (tables s1))
     = List.length (chats (tables (shared_store [])))
  /\ (forall c, In c (chats (tables (shared_store []))) ->
                owned_by "c1" "alice" c = false -> In c (chats (tables s1)))
  /\ exists msgs,
      fst (getChatWithMessages "c1" "alice" s1)
      = ChatWithMessages (retitle "Fees" alices_chat) msgs.
Proof.
  exact (rename_then_read "c1" "Fees" "alice" (shared_store []) alices_chat
           eq_refl eq_refl).
Defined.

(** X10. On a chat the caller does not own, the three functions that check
    ownership fail and write nothing, whatever the health of the service:
    they answer ['Chat not found'], or the message of the error when the
    ownership query itself threw. *)
Theorem foreign_chat_is_refused (now chatId role content userId : string)
        (s : Supabase) :
  owns (tables s) userId chatId = false ->
  let refused (r : Result * Supabase) :=
    tables (snd r) = tables s
    /\ success (fst r) = false
    /\ (fst r = Failed "Chat not found"
        \/ exists msg, hd Healthy (faults s) = Crashed msg
                       /\ fst r = Failed msg) in
  refused (getChatWithMessages chatId userId s)
  /\ refused (addMessageToChat now chatId role content userId s)
  /\ refused (deleteChat chatId userId s).
Proof.
  exact (ChatDatabaseFacts.guarded_functions_refuse now chatId role content
           userId s).
Qed.

Lemma foreign_chat_is_refused_witness :
  let s := shared_store [] in
  let refused (r : Result * Supabase) :=
    tables (snd r) = tables s
    /\ success (fst r) = false
    /\ (fst r = Failed "Chat not found"
        \/ exists msg, hd Healthy (faults s) = Crashed msg
                       /\ fst r = Failed msg) in
  refused (getChatWithMessages "c2" "alice" s)
  /\ refused (addMessageToChat "2025-01-05T00:00:00.000Z" "c2" "user" "Hi"
                               "alice" s)
  /\ refused (deleteChat "c2" "alice" s).
Proof.
  exact (foreign_chat_is_refused
           "2025-01-05T00:00:00.000Z" "c2" "user" "Hi" "alice"
           (shared_store []) eq_refl).
Defined.

(** X11. A rename of a chat the caller does not own writes nothing, in every
    state of the service. *)
Theorem foreign_rename_writes_nothing (chatId title userId : string)
        (s : Supabase) :
  owns (tables s) userId chatId = false ->
  tables (snd (updateChatTitle chatId title userId s)) = tables s.
Proof.
  intros H.
  apply (ChatDatabaseFacts.updateChatTitle_not_owned chatId title userId s H).
Qed.

Lemma foreign_rename_writes_nothing_witness :
  tables (snd (updateChatTitle "c2" "Mine now" "alice" (shared_store [])))
  = tables (shared_store []).
Proof.
  exact (foreign_rename_writes_nothing "c2" "Mine now" "alice"
           (shared_store []) eq_refl).
Defined.

End ChatStoreProperties.

(* ================================================================== *)
(** * The relay: what is sent, and what is never done *)
(* ================================================================== *)

Section TraceAdds.
Variable P : Event -> bool.

Lemma adds_only_trace_adds {A} (c : M A) : adds_only P c -> trace_adds P c.
Proof.
  intros H st. destruct (H st) as [evs [E HP]].
  exists evs. rewrite E. auto.
Qed.

Lemma trace_adds_bind {A B} (c : M A) (k : A -> M B) :
  trace_adds P c -> (forall a, trace_adds P (k a)) -> trace_adds P (bind c k).
Proof.
  intros Hc Hk st. unfold bind.
  destruct (Hc st) as [evs [E HP]].
  destruct (c st) as [[a|e] st1]; simpl in E.
  - destruct (Hk a st1) as [evs' [E' HP']].
    exists (evs ++ evs'). rewrite E', E, app_assoc.
    rewrite forallb_app, HP, HP'. auto.
  - exists evs. auto.
Qed.

(** After a pure step, only its value matters. *)
Lemma trace_adds_bind_lift {A B} (r : Res A) (k : A -> M B) :
  (forall a, r = Ok a -> trace_adds P (k a)) -> trace_adds P (bind (lift r) k).
Proof.
  intros Hk st. unfold bind, lift.
  destruct r as [a|e]; [apply (Hk a eq_refl)|].
  exists []. rewrite app_nil_r. auto.
Qed.

Lemma trace_adds_ret {A} (a : A) : trace_adds P (ret a).
Proof. apply adds_only_trace_adds, adds_only_ret. Qed.

Lemma trace_adds_lift {A} (r : Res A) : trace_adds P (lift r).
Proof. apply adds_only_trace_adds, adds_only_lift. Qed.

Lemma trace_adds_if {A} (b : bool) (c1 c2 : M A) :
  trace_adds P c1 -> trace_adds P c2 -> trace_adds P (if b then c1 else c2).
Proof. destruct b; auto. Qed.

Lemma trace_adds_respond (handler : M Response) :
  trace_adds P handler ->
  forall st, exists evs,
      trace (snd (respond handler st)) = trace st ++ evs
      /\ forallb P evs = true.
Proof.
  intros H st. unfold respond. destruct (H st) as [evs [E HP]].
  exists evs. destruct (handler st) as [[r|e] st']; auto.
Qed.

Lemma trace_adds_initialize (W : World) :
  P EvConnect = true -> P EvListTools = true -> trace_adds P (initialize W).
Proof.
  intros Hc Hl st. rewrite initialize_cases. cbv zeta.
  destruct (client_connect W (trace st)) as [[]|e].
  - exists [EvConnect; EvListTools].
    destruct (client_listTools W (trace st ++ [EvConnect])); simpl;
      rewrite <- app_assoc, Hc, Hl; auto.
  - exists [EvConnect]. simpl. rewrite Hc. auto.
Qed.

Lemma trace_adds_ensure_ready (W : World) (rest : M Response) :
  P EvConnect = true -> P EvListTools = true ->
  trace_adds P rest -> trace_adds P (OpenAI.ensure_ready W rest).
Proof.
  intros Hc Hl Hrest. unfold OpenAI.ensure_ready.
  apply trace_adds_bind.
  - intros st. exists []. rewrite app_nil_r. auto.
  - intros ready. apply trace_adds_if; [|exact Hrest].
    apply trace_adds_bind; [apply trace_adds_initialize; assumption|].
    intros connected. apply trace_adds_if; [apply trace_adds_ret | exact Hrest].
Qed.

End TraceAdds.

(** The tool loop of the Anthropic generation, on any list of values: it
    only ever executes tools. *)
Lemma anthropic_tool_loop_adds_only (W : World) (P : Event -> bool) :
  (forall toolName args, P (EvCallTool toolName args) = true) ->
  forall blocks toolResults,
    adds_only P (Anthropic.tool_loop W blocks toolResults).
Proof.
  intros HP blocks.
  induction blocks as [|block rest IH]; intros acc; simpl.
  - apply adds_only_ret.
  - apply adds_only_bind; [apply adds_only_lift|]. intros type.
    apply adds_only_if; [|apply IH].
    apply adds_only_bind; [apply adds_only_lift|]. intros _.
    apply adds_only_bind; [|intros entry; apply IH].
    unfold Anthropic.run_block. apply adds_only_try_catch.
    + apply adds_only_bind; [apply adds_only_lift|]. intros toolName.
      apply adds_only_bind; [apply adds_only_lift|]. intros input.
      apply adds_only_bind; [apply adds_only_callTool, HP|].
      intros result.
      apply adds_only_bind; [apply adds_only_lift|]. intros id.
      apply adds_only_ret.
    + intros error.
      apply adds_only_bind; [apply adds_only_lift|]. intros id.
      apply adds_only_bind; [apply adds_only_lift|]. intros toolName.
      apply adds_only_bind; [apply adds_only_lift|]. intros input.
      apply adds_only_ret.
Qed.

Lemma map_res_clean (msgs cleaned_msgs : list JsVal) :
  map_res cleanMessage msgs = Ok cleaned_msgs ->
  forallb only_role_and_content cleaned_msgs = true.
Proof.
  revert cleaned_msgs.
  induction msgs as [|m rest IH]; simpl; intros l H.
  - injection H as <-. reflexivity.
  - unfold cleanMessage in H at 1.
    destruct (getProp m "role") as [role|e]; simpl in H; [|discriminate].
    destruct (getProp m "content") as [content|e]; simpl in H; [|discriminate].
    destruct (map_res cleanMessage rest) as [l'|e]; simpl in H; [|discriminate].
    injection H as <-. simpl. apply IH. reflexivity.
Qed.

Lemma array_map_clean_shape (messages : JsVal) (cleaned_msgs : list JsVal) :
  array_map "messages" cleanMessage messages = Ok cleaned_msgs ->
  forallb only_role_and_content cleaned_msgs = true.
Proof.
  destruct messages; simpl; try discriminate.
  apply map_res_clean.
Qed.

(** X14. Whatever the request and whatever the collaborators answer, [/api/chat]
    never submits a message with a bookkeeping field: in every provider
    request it makes, each message has the properties [role] and [content]
    and no other.  Both generations. *)
Theorem chat_submits_clean_messages (W : World) (body : JsVal) (st : St) :
  (exists evs,
      trace (snd (OpenAI.chat W body st)) = trace st ++ evs
      /\ forallb submits_clean_messages evs = true)
  /\ (exists evs,
         trace (snd (Anthropic.chat W body st)) = trace st ++ evs
         /\ forallb submits_clean_messages evs = true).
Proof.
  split.
  - unfold OpenAI.chat. apply trace_adds_respond.
    apply trace_adds_bind; [apply trace_adds_lift|]. intros messages.
    apply trace_adds_if; [apply trace_adds_ret|].
    apply trace_adds_ensure_ready; try reflexivity.
    apply trace_adds_bind_lift. intros cleanedMessages Hclean.
    apply array_map_clean_shape in Hclean.
    apply trace_adds_bind;
      [apply adds_only_trace_adds, adds_only_getTools|]. intros mcpTools.
    apply trace_adds_bind.
    { apply adds_only_trace_adds, adds_only_external. simpl. exact Hclean. }
    intros response.
    apply trace_adds_bind; [apply trace_adds_lift|]. intros reply.
    apply trace_adds_bind; [apply trace_adds_lift|]. intros _.
    apply trace_adds_bind; [apply trace_adds_lift|]. intros wants.
    apply trace_adds_if; [|apply trace_adds_ret].
    apply trace_adds_bind; [apply trace_adds_lift|]. intros tool_calls.
    apply trace_adds_bind; [apply trace_adds_lift|]. intros toolCalls.
    apply trace_adds_bind; [|intros; apply trace_adds_ret].
    apply adds_only_trace_adds, openai_tool_loop_adds_only. reflexivity.
  - unfold Anthropic.chat. apply trace_adds_respond.
    apply trace_adds_bind; [apply trace_adds_lift|]. intros messages.
    apply trace_adds_if; [apply trace_adds_ret|].
    apply trace_adds_bind.
    { intros s. exists []. rewrite app_nil_r. auto. }
    intros ready. apply trace_adds_if; [apply trace_adds_ret|].
    apply trace_adds_bind_lift. intros cleanedMessages Hclean.
    apply array_map_clean_shape in Hclean.
    apply trace_adds_bind;
      [apply adds_only_trace_adds, adds_only_getTools|]. intros mcpTools.
    apply trace_adds_bind.
    { apply adds_only_trace_adds, adds_only_external. simpl. exact Hclean. }
    intros response.
    apply trace_adds_bind; [apply trace_adds_lift|]. intros stop_reason.
    apply trace_adds_if; [|apply trace_adds_ret].
    apply trace_adds_bind; [apply trace_adds_lift|]. intros content.
    apply trace_adds_bind; [apply trace_adds_lift|]. intros blocks.
    apply trace_adds_bind; [|intros; apply trace_adds_ret].
    apply adds_only_trace_adds, anthropic_tool_loop_adds_only. reflexivity.
Qed.

Lemma adds_only_respond (P : Event -> bool) (handler : M Response) :
  adds_only P handler ->
  forall st, exists evs,
      snd (respond handler st) = add_events st evs /\ forallb P evs = true.
Proof.
  intros H st. unfold respond. destruct (H st) as [evs [E HP]].
  exists evs. destruct (handler st) as [[r|e] st']; auto.
Qed.

Lemma adds_only_isReady (P : Event -> bool) : adds_only P isReady.
Proof. intros st. exists []. rewrite add_events_nil. auto. Qed.

Lemma anthropic_handlers_add_only (W : World) (body : JsVal) (st : St) :
  (exists evs,
      snd (Anthropic.chat W body st) = add_events st evs
      /\ forallb model_or_tool evs = true)
  /\ (exists evs,
         snd (Anthropic.chat_continue W body st) = add_events st evs
         /\ forallb model_or_tool evs = true).
Proof.
  split.
  - unfold Anthropic.chat. apply adds_only_respond.
    apply adds_only_bind; [apply adds_only_lift|]. intros messages.
    apply adds_only_if; [apply adds_only_ret|].
    apply adds_only_bind; [apply adds_only_isReady|]. intros ready.
    apply adds_only_if; [apply adds_only_ret|].
    apply adds_only_bind; [apply adds_only_lift|]. intros cleanedMessages.
    apply adds_only_bind; [apply adds_only_getTools|]. intros mcpTools.
    apply adds_only_bind; [apply adds_only_external; reflexivity|].
    intros response.
    apply adds_only_bind; [apply adds_only_lift|]. intros stop_reason.
    apply adds_only_if; [|apply adds_only_ret].
    apply adds_only_bind; [apply adds_only_lift|]. intros content.
    apply adds_only_bind; [apply adds_only_lift|]. intros blocks.
    apply adds_only_bind; [|intros; apply adds_only_ret].
    apply anthropic_tool_loop_adds_only. reflexivity.
  - unfold Anthropic.chat_continue. apply adds_only_respond.
    apply adds_only_bind; [apply adds_only_lift|]. intros messages.
    apply adds_only_bind; [apply adds_only_lift|]. intros toolResults.
    apply adds_only_bind; [apply adds_only_lift|]. intros assistantResponse.
    apply adds_only_bind; [apply adds_only_lift|]. intros cleanedMessages.
    apply adds_only_bind; [apply adds_only_lift|]. intros toolResultContent.
    apply adds_only_bind; [apply adds_only_lift|]. intros assistantContent.
    cbv zeta.
    apply adds_only_bind; [apply adds_only_getTools|]. intros mcpTools.
    apply adds_only_bind; [apply adds_only_external; reflexivity|].
    intros response.
    apply adds_only_bind; [apply adds_only_lift|]. intros stop_reason.
    apply adds_only_ret.
Qed.

(** X15. The Anthropic generation never reconnects and never touches the
    manager: whatever the request, [/api/chat] and [/api/chat/continue]
    leave the singleton as it was and add to the trace nothing but provider
    requests and tool executions.  A client that is down stays down. *)
Theorem anthropic_never_reconnects (W : World) (body : JsVal) (st : St) :
  (exists evs,
      snd (Anthropic.chat W body st) = add_events st evs
      /\ forallb model_or_tool evs = true)
  /\ (exists evs,
         snd (Anthropic.chat_continue W body st) = add_events st evs
         /\ forallb model_or_tool evs = true).
Proof.
  exact (anthropic_handlers_add_only W body st).
Qed.

(** X16. A provider failure surfaces unmodified and the handler does not try
    again: when the SDK's [create()] throws, [/api/chat] answers 500 with
    the message of that error, having called [create()] once and executed
    no tool.  (What the SDK does inside that one call, its own attempts
    included, is the provider's side of the call.)  First conjunct the
    OpenAI generation, second the Anthropic one. *)
Theorem provider_errors_surface (W : World) :
  (forall body msgs st st1 e,
      getProp body "messages" = Ok (JArr msgs) ->
      forallb (fun m => negb (nullish m)) msgs = true ->
      made_ready W st = Some st1 ->
      model_create W (trace st1)
        (openai_request (map cleaned msgs) (tools (mcpClient st1))) = Throw e ->
      OpenAI.chat W body st
      = (res_status_json 500 (error_body (message e)),
         add_events st1
           [EvModel (openai_request (map cleaned msgs)
                                    (tools (mcpClient st1)))]))
  /\ (forall body msgs st e,
         getProp body "messages" = Ok (JArr msgs) ->
         forallb (fun m => negb (nullish m)) msgs = true ->
         isConnected (mcpClient st) = true ->
         model_create W (trace st)
           (anthropic_request (map cleaned msgs) (tools (mcpClient st)))
         = Throw e ->
         Anthropic.chat W body st
         = (res_status_json 500 (error_body (message e)),
            add_events st
              [EvModel (anthropic_request (map cleaned msgs)
                                          (tools (mcpClient st)))])).
Proof.
  split.
  - intros body msgs st st1 e Hb Hn Hr Hm.
    unfold OpenAI.chat, respond.
    unfold bind at 1. unfold lift at 1. rewrite Hb.
    rewrite array_not_rejected.
    rewrite (ensure_ready_passes W _ st st1 Hr).
    unfold bind at 1. unfold lift at 1. rewrite (array_map_clean msgs Hn).
    unfold bind at 1. unfold getTools at 1.
    unfold bind at 1, get_mcp at 1, ret at 1.
    unfold bind at 1. unfold OpenAI.completions_create, external.
    unfold openai_request in Hm. rewrite Hm. reflexivity.
  - intros body msgs st e Hb Hn Hr Hm.
    unfold Anthropic.chat, respond, isReady, getTools,
      Anthropic.messages_create.
    unfold_monad. rewrite Hb. rewrite array_not_rejected.
    rewrite Hr. change (negb true) with false. cbv iota beta.
    rewrite (array_map_clean msgs Hn). cbv iota beta.
    unfold anthropic_request in Hm. rewrite Hm. reflexivity.
Qed.

Lemma provider_errors_surface_witness :
  let body := JObj [("messages", JArr [hello])] in
  OpenAI.chat double_provider_down body boot
  = (res_status_json 500 (error_body "429 Rate limit reached"),
     add_events (connected double_provider_down)
       [EvModel (openai_request [cleaned hello] [search_tool])])
  /\ Anthropic.chat double_provider_down body (connected double_provider_down)
     = (res_status_json 500 (error_body "429 Rate limit reached"),
        add_events (connected double_provider_down)
          [EvModel (anthropic_request [cleaned hello] [search_tool])]).
Proof.
  intros body.
  destruct (provider_errors_surface double_provider_down) as [Ho Ha].
  split.
  - apply (Ho body [hello] boot (connected double_provider_down)
              (Error "429 Rate limit reached")); reflexivity.
  - apply (Ha body [hello] (connected double_provider_down)
              (Error "429 Rate limit reached")); reflexivity.
Defined.

Lemma map_res_nullish (msgs : list JsVal) :
  existsb nullish msgs = true ->
  exists e, map_res cleanMessage msgs = Throw e.
Proof.
  induction msgs as [|m rest IH]; simpl; [discriminate|].
  destruct (nullish m) eqn:En; simpl.
  - intros _. destruct m; try discriminate; eexists; reflexivity.
  - intros H. destruct (IH H) as [e He].
    rewrite (cleanMessage_ok m En). simpl. rewrite He. simpl.
    exists e. reflexivity.
Qed.

(** X17. A conversation with a hole: when some element of [messages] is [null],
    [/api/chat] answers 500 (the error of reading a property of [null]) and
    the provider is not contacted.  In the OpenAI generation this comes
    after the readiness check, so a reconnect may have been made. *)
Theorem null_message_is_a_500 (W : World) (body : JsVal) (msgs : list JsVal)
        (st : St) :
  getProp body "messages" = Ok (JArr msgs) ->
  existsb nullish msgs = true ->
  (forall st1,
      made_ready W st = Some st1 ->
      exists msg,
        OpenAI.chat W body st = (res_status_json 500 (error_body msg), st1))
  /\ (isConnected (mcpClient st) = true ->
      exists msg,
        Anthropic.chat W body st = (res_status_json 500 (error_body msg), st)).
Proof.
  intros Hb Hnull. destruct (map_res_nullish msgs Hnull) as [e He].
  split.
  - intros st1 Hr. exists (message e).
    unfold OpenAI.chat, respond.
    unfold bind at 1. unfold lift at 1. rewrite Hb.
    rewrite array_not_rejected.
    rewrite (ensure_ready_passes W _ st st1 Hr).
    unfold bind at 1. unfold lift at 1. simpl array_map. rewrite He.
    reflexivity.
  - intros Hr. exists (message e).
    unfold Anthropic.chat, respond, isReady. unfold_monad.
    rewrite Hb. rewrite array_not_rejected.
    rewrite Hr. change (negb true) with false. cbv iota beta.
    simpl array_map. rewrite He. reflexivity.
Qed.

Lemma null_message_is_a_500_witness :
  let W := double openai_final_turn in
  let body := JObj [("messages", JArr [hello; JNull])] in
  (forall st1,
      made_ready W boot = Some st1 ->
      exists msg,
        OpenAI.chat W body boot = (res_status_json 500 (error_body msg), st1))
  /\ (isConnected (mcpClient (connected W)) = true ->
      exists msg,
        Anthropic.chat W body (connected W)
        = (res_status_json 500 (error_body msg), connected W)).
Proof.
  intros W body. split.
  - apply (null_message_is_a_500 W body [hello; JNull] boot); reflexivity.
  - apply (null_message_is_a_500 W body [hello; JNull] (connected W));
      reflexivity.
Defined.

Example null_message_text :
  fst (Anthropic.chat (double anthropic_final_turn)
         (JObj [("messages", JArr [hello; JNull])])
         (connected (double anthropic_final_turn)))
  = res_status_json 500
      (error_body "Cannot read properties of null (reading 'role')").
Proof. reflexivity. Qed.

(** X18. The continuation of the OpenAI generation checks readiness before it
    looks at the request: when the client is not ready and cannot be
    reconnected, every request, well formed or not, is answered 503 and the
    provider is not contacted. *)
Theorem continuation_needs_the_client (W : World) (body : JsVal) (st : St) :
  made_ready W st = None ->
  OpenAI.chat_continue W body st
  = (res_status_json 503 (error_body "MCP client failed to connect"),
     snd (initialize W st))
  /\ model_requests (trace (snd (initialize W st))) = model_requests (trace st).
Proof.
  intros Hr. split.
  - unfold OpenAI.chat_continue, respond.
    rewrite (ensure_ready_fails W _ st Hr). reflexivity.
  - rewrite initialize_cases. cbv zeta.
    destruct (client_connect W (trace st)) as [[]|e1];
      [destruct (client_listTools W (trace st ++ [EvConnect]))|];
      simpl; unfold model_requests; rewrite !filter_app; simpl;
      rewrite ?app_nil_r; reflexivity.
Qed.

Lemma continuation_needs_the_client_witness :
  let W := double_offline openai_final_turn in
  OpenAI.chat_continue W JUndefined boot
  = (res_status_json 503 (error_body "MCP client failed to connect"),
     snd (initialize W boot))
  /\ model_requests (trace (snd (initialize W boot)))
     = model_requests (trace boot).
Proof.
  exact (continuation_needs_the_client (double_offline openai_final_turn)
           JUndefined boot eq_refl).
Defined.

Lemma getProp_other (v : JsVal) (k k' : string) (x : JsVal) :
  getProp v k = Ok x -> exists y, getProp v k' = Ok y.
Proof.
  destruct v; simpl; intros H; try discriminate; eexists; reflexivity.
Qed.

Lemma array_map_non_array (expr : string) (f : JsVal -> Res JsVal)
      (v : JsVal) :
  isArray v = false -> exists e, array_map expr f v = Throw e.
Proof.
  destruct v; simpl; intros H; try discriminate; eexists; reflexivity.
Qed.

(** X19. The continuation does not validate its input: when [messages] is not an
    array the request is answered 500, not 400, and the provider is not
    contacted.  (OpenAI generation: once the client is ready.) *)
Theorem continuation_does_not_validate (W : World) (body messages : JsVal)
        (st : St) :
  getProp body "messages" = Ok messages ->
  isArray messages = false ->
  (exists msg,
      Anthropic.chat_continue W body st
      = (res_status_json 500 (error_body msg), st))
  /\ (forall st1,
         made_ready W st = Some st1 ->
         exists msg,
           OpenAI.chat_continue W body st
           = (res_status_json 500 (error_body msg), st1)).
Proof.
  intros Hb Ha.
  destruct (getProp_other body "messages" "toolResults" messages Hb)
    as [trs Ht].
  destruct (getProp_other body "messages" "assistantResponse" messages Hb)
    as [ar Har].
  destruct (array_map_non_array "messages" cleanMessage messages Ha) as [e He].
  split.
  - exists (message e).
    unfold Anthropic.chat_continue, respond.
    unfold bind at 1. unfold lift at 1. rewrite Hb.
    unfold bind at 1. unfold lift at 1. rewrite Ht.
    unfold bind at 1. unfold lift at 1. rewrite Har.
    unfold bind at 1. unfold lift at 1. rewrite He. reflexivity.
  - intros st1 Hr. exists (message e).
    unfold OpenAI.chat_continue, respond.
    rewrite (ensure_ready_passes W _ st st1 Hr).
    unfold bind at 1. unfold lift at 1. rewrite Hb.
    unfold bind at 1. unfold lift at 1. rewrite Ht.
    unfold bind at 1. unfold lift at 1. rewrite Har.
    unfold bind at 1. unfold lift at 1. rewrite He. reflexivity.
Qed.

Lemma continuation_does_not_validate_witness :
  let W := double openai_final_turn in
  (exists msg,
      Anthropic.chat_continue W (JObj []) boot
      = (res_status_json 500 (error_body msg), boot))
  /\ (forall st1,
         made_ready W boot = Some st1 ->
         exists msg,
           OpenAI.chat_continue W (JObj []) boot
           = (res_status_json 500 (error_body msg), st1)).
Proof.
  exact (continuation_does_not_validate (double openai_final_turn)
           (JObj []) JUndefined boot eq_refl eq_refl).
Defined.

(** X29. The continuation never executes a tool, in either generation: whatever
    the request and whatever the provider answers, also when it asks for
    tools again, [/api/chat/continue] adds no tool execution to the trace. *)
Theorem continuation_runs_no_tool (W : World) (body : JsVal) (st : St) :
  (exists evs,
      trace (snd (OpenAI.chat_continue W body st)) = trace st ++ evs
      /\ forallb not_tool evs = true)
  /\ (exists evs,
         snd (Anthropic.chat_continue W body st) = add_events st evs
         /\ forallb not_tool evs = true).
Proof.
  split.
  - unfold OpenAI.chat_continue. apply trace_adds_respond.
    apply trace_adds_ensure_ready; try reflexivity.
    apply trace_adds_bind; [apply trace_adds_lift|]. intros messages.
    apply trace_adds_bind; [apply trace_adds_lift|]. intros toolResults.
    apply trace_adds_bind; [apply trace_adds_lift|]. intros assistantResponse.
    apply trace_adds_bind; [apply trace_adds_lift|]. intros cleanedMessages.
    apply trace_adds_bind; [apply trace_adds_lift|]. intros toolResultMessages.
    cbv zeta.
    apply trace_adds_bind;
      [apply adds_only_trace_adds, adds_only_getTools|]. intros mcpTools.
    apply trace_adds_bind;
      [apply adds_only_trace_adds, adds_only_external; reflexivity|].
    intros response.
    apply trace_adds_bind; [apply trace_adds_lift|]. intros reply.
    apply trace_adds_bind; [apply trace_adds_lift|]. intros needs.
    apply trace_adds_ret.
  - unfold Anthropic.chat_continue. apply adds_only_respond.
    apply adds_only_bind; [apply adds_only_lift|]. intros messages.
    apply adds_only_bind; [apply adds_only_lift|]. intros toolResults.
    apply adds_only_bind; [apply adds_only_lift|]. intros assistantResponse.
    apply adds_only_bind; [apply adds_only_lift|]. intros cleanedMessages.
    apply adds_only_bind; [apply adds_only_lift|]. intros toolResultContent.
    apply adds_only_bind; [apply adds_only_lift|]. intros assistantContent.
    cbv zeta.
    apply adds_only_bind; [apply adds_only_getTools|]. intros mcpTools.
    apply adds_only_bind; [apply adds_only_external; reflexivity|].
    intros response.
    apply adds_only_bind; [apply adds_only_lift|]. intros stop_reason.
    apply adds_only_ret.
Qed.

(** The provider asks for a tool again: the reply says so, and carries no
    tool result; no tool has been executed. *)
Example continuation_asked_again :
  let W := double (openai_tool_turn_js [call_1]) in
  let out := OpenAI.chat_continue W (continue_body [entry_ok]) boot in
  fst out = res_json (JObj [("response", openai_tool_message [call_1]);
                            ("needsToolResponse", JBool true)])
  /\ tool_executions (trace (snd out)) = [].
Proof. split; reflexivity. Qed.

(** X30. The flag of the OpenAI continuation is the value of
    [message.tool_calls && message.tool_calls.length > 0]: when the
    provider's message has no truthy [tool_calls], [needsToolResponse] is
    that property's own value ([undefined] for a message without the
    property), not [false]. *)
Theorem continuation_flag_is_the_raw_value
        (W : World) (body : JsVal) (msgs : list JsVal)
        (assistantResponse : JsVal) (trs : list JsVal) (st st1 : St)
        (response reply tool_calls : JsVal) :
  continuation_body body msgs assistantResponse trs ->
  made_ready W st = Some st1 ->
  model_create W (trace st1)
    (openai_request
       (openai_conversation (rendered_if_truthy W) msgs assistantResponse trs)
       (tools (mcpClient st1))) = Ok response ->
  OpenAI.first_message response = Ok reply ->
  getProp reply "tool_calls" = Ok tool_calls ->
  truthy tool_calls = false ->
  fst (OpenAI.chat_continue W body st)
  = res_json (JObj [("response", reply); ("needsToolResponse", tool_calls)]).
Proof.
  intros [Hm [Ht [Ha [Hnm [Hnt Hna]]]]] Hr Hmodel Hfirst Hcalls Hfalsy.
  unfold OpenAI.chat_continue, respond.
  rewrite (ensure_ready_passes W _ st st1 Hr).
  unfold bind at 1. unfold lift at 1. rewrite Hm.
  unfold bind at 1. unfold lift at 1. rewrite Ht.
  unfold bind at 1. unfold lift at 1. rewrite Ha.
  unfold bind at 1. unfold lift at 1. rewrite (array_map_clean msgs Hnm).
  unfold bind at 1. unfold lift at 1.
  rewrite (array_map_ok (OpenAI.toolResultMessage W) _ trs
             (toolResultMessage_ok W) Hnt).
  unfold bind at 1. unfold getTools at 1.
  unfold bind at 1, get_mcp at 1, ret at 1.
  unfold bind at 1. unfold OpenAI.completions_create, external.
  cbv zeta. cbv beta. cbv iota. cbv beta.
  fold (openai_conversation (rendered_if_truthy W) msgs assistantResponse trs).
  fold (openai_request
          (openai_conversation (rendered_if_truthy W) msgs assistantResponse trs)
          (tools (mcpClient st1))).
  rewrite Hmodel.
  unfold bind at 1. unfold lift at 1. rewrite Hfirst.
  unfold bind at 1. unfold lift at 1.
  unfold OpenAI.has_tool_calls. rewrite Hcalls. simpl res_bind.
  rewrite Hfalsy. reflexivity.
Qed.

Lemma continuation_flag_is_the_raw_value_witness :
  let W := double openai_final_turn in
  fst (OpenAI.chat_continue W (continue_body [entry_ok]) boot)
  = res_json (JObj [("response",
                     JObj [("role", JStr "assistant");
                           ("content", JStr "Hello")]);
                    ("needsToolResponse", JUndefined)]).
Proof.
  intros W.
  apply (continuation_flag_is_the_raw_value W (continue_body [entry_ok])
           [hello] (openai_tool_message [call_1; call_2]) [entry_ok] boot
           (connected W) openai_final_turn
           (JObj [("role", JStr "assistant"); ("content", JStr "Hello")])
           JUndefined); try reflexivity.
  repeat split; reflexivity.
Defined.


Lemma anthropic_tool_turn_witness :
  let blocks := [TextBlock "Let me look.";
                 ToolUseBlock "toolu_1" "search" (JObj []);
                 ToolUseBlock "toolu_2" "search" (JObj [])] in
  let W := double_failing_tool (anthropic_tool_turn_js blocks) in
  let request := anthropic_request (map cleaned [hello])
                                   (tools (mcpClient (connected W))) in
  Anthropic.chat W (JObj [("messages", JArr [hello])]) (connected W)
  = (res_json
       (JObj [("response", anthropic_tool_turn_js blocks);
              ("toolResults",
               JArr (anthropic_entries W
                       (trace (connected W) ++ [EvModel request]) blocks));
              ("needsToolResponse", JBool true)]),
     add_events (connected W) (EvModel request :: block_executions blocks)).
Proof.
  intros blocks W.
  apply (anthropic_tool_turn W (JObj [("messages", JArr [hello])]) [hello]
           (connected W) (anthropic_tool_turn_js blocks) blocks);
    reflexivity.
Defined.

(** X20. The tool declarations sent to the provider are the cached descriptors,
    in order, with name, description and schema as they were fetched:
    reading the declarations back gives the cached list.  Both shapes. *)
Theorem tool_declarations_round_trip (mcpTools : list ToolDescriptor) :
  map declared_by_openai (array_items (OpenAI.openaiTools mcpTools)) = mcpTools
  /\ map declared_by_anthropic (array_items (Anthropic.claudeTools mcpTools))
     = mcpTools.
Proof.
  unfold OpenAI.openaiTools, Anthropic.claudeTools. simpl. split.
  - induction mcpTools as [|[n d i] rest IH]; simpl; [reflexivity|].
    rewrite IH. reflexivity.
  - induction mcpTools as [|[n d i] rest IH]; simpl; [reflexivity|].
    rewrite IH. reflexivity.
Qed.

(* ================================================================== *)
(** * The routes beside the relay *)
(* ================================================================== *)

(** X21. [/api/tools] of the OpenAI generation never fails and never contacts the
    provider: it answers 200 with the cached tools.  A ready client is left
    alone; a client that is not ready is reconnected once, and when that
    fails the route still answers 200, with the list cached before. *)
Theorem tools_route_degrades (W : World) (st : St) :
  let (response, st') := OpenAIRoutes.tools_route W st in
  response = res_json (tools_body (tools (mcpClient st')))
  /\ (isConnected (mcpClient st) = true -> st' = st)
  /\ (isConnected (mcpClient st) = false ->
      st' = snd (initialize W st)
      /\ (fst (initialize W st) = Ok false ->
          response = res_json (tools_body (tools (mcpClient st))))).
Proof.
  unfold OpenAIRoutes.tools_route, respond, isReady, getTools.
  unfold_monad.
  destruct (isConnected (mcpClient st)) eqn:E; simpl.
  - repeat split; try discriminate; reflexivity.
  - pose proof (initialize_cases W st) as Hi. cbv zeta in Hi.
    destruct (client_connect W (trace st)) as [[]|e1];
      [destruct (client_listTools W (trace st ++ [EvConnect]))|];
      rewrite Hi; simpl; repeat split; try discriminate; reflexivity.
Qed.

Lemma tools_route_degrades_witness :
  let W := double_offline openai_final_turn in
  let st := {| mcpClient := {| client := Some tt; isConnected := false;
                                tools := [search_tool] |};
               trace := [] |} in
  fst (OpenAIRoutes.tools_route W st) = res_json (tools_body [search_tool]).
Proof.
  intros W st.
  pose proof (tools_route_degrades W st) as H.
  destruct (OpenAIRoutes.tools_route W st) as [response st'].
  destruct H as [_ [_ H]].
  destruct (H eq_refl) as [_ Hstale].
  exact (Hstale eq_refl).
Defined.

Example tools_route_offline :
  OpenAIRoutes.tools_route (double_offline openai_final_turn) boot
  = (res_json (tools_body []),
     {| mcpClient := {| client := Some tt; isConnected := false; tools := [] |};
        trace := [EvConnect] |}).
Proof. reflexivity. Qed.

Lemma anthropic_chat_not_ready (W : World) (body : JsVal) (st : St) :
  isConnected (mcpClient st) = false ->
  status (fst (Anthropic.chat W body st)) <> 200.
Proof.
  intros Hn. unfold Anthropic.chat, respond, isReady. unfold_monad.
  destruct (getProp body "messages") as [messages|e]; simpl; [|discriminate].
  destruct (messages_rejected messages); simpl; [discriminate|].
  rewrite Hn. simpl. discriminate.
Qed.

Lemma anthropic_serve_keeps_manager (W : World) (r : RelayRequest) (st : St) :
  mcpClient (snd (AnthropicRoutes.serve W r st)) = mcpClient st.
Proof.
  destruct r as [body|body| |now]; simpl.
  - destruct (anthropic_handlers_add_only W body st) as [[evs [E _]] _].
    rewrite E. reflexivity.
  - destruct (anthropic_handlers_add_only W body st) as [_ [evs [E _]]].
    rewrite E. reflexivity.
  - reflexivity.
  - reflexivity.
Qed.

(** X22. In the Anthropic generation a failed start is permanent: on a process
    whose client is not ready, no sequence of requests makes it ready, and
    no [/api/chat] request of the sequence is answered 200. *)
Theorem anthropic_startup_failure_is_permanent (W : World)
        (rs : list RelayRequest) :
  forall st,
    isConnected (mcpClient st) = false ->
    isConnected (mcpClient (snd (AnthropicRoutes.serve_all W rs st))) = false
    /\ Forall (fun entry => is_post_chat (fst entry) = true ->
                            status (snd entry) <> 200)
              (fst (AnthropicRoutes.serve_all W rs st)).
Proof.
  induction rs as [|r rest IH]; intros st Hn; simpl.
  - split; [exact Hn | constructor].
  - pose proof (anthropic_serve_keeps_manager W r st) as Hk.
    assert (Hchat : is_post_chat r = true ->
                    status (fst (AnthropicRoutes.serve W r st)) <> 200).
    { destruct r; simpl; try discriminate.
      intros _. apply anthropic_chat_not_ready. exact Hn. }
    destruct (AnthropicRoutes.serve W r st) as [response st1]. simpl in *.
    assert (Hn1 : isConnected (mcpClient st1) = false) by (rewrite Hk; exact Hn).
    destruct (IH st1 Hn1) as [H1 H2].
    destruct (AnthropicRoutes.serve_all W rest st1) as [log st2]. simpl in *.
    split; [exact H1|]. constructor; [exact Hchat | exact H2].
Qed.

Lemma anthropic_startup_failure_is_permanent_witness :
  let W := double_offline anthropic_final_turn in
  let st := snd (AnthropicRoutes.startServer W boot) in
  let rs := [GetHealth "2025-01-01T00:00:00.000Z";
             PostChat (JObj [("messages", JArr [hello])]);
             GetTools;
             PostChat (JObj [])] in
  isConnected (mcpClient (snd (AnthropicRoutes.serve_all W rs st))) = false
  /\ Forall (fun entry => is_post_chat (fst entry) = true ->
                          status (snd entry) <> 200)
            (fst (AnthropicRoutes.serve_all W rs st)).
Proof.
  intros W st rs.
  exact (anthropic_startup_failure_is_permanent W rs st eq_refl).
Defined.

Example anthropic_after_failed_start :
  let W := double_offline anthropic_final_turn in
  map (fun entry => status (snd entry))
      (fst (AnthropicRoutes.serve_all W
              [GetHealth "2025-01-01T00:00:00.000Z";
               PostChat (JObj [("messages", JArr [hello])]);
               GetTools;
               PostChat (JObj [])]
              (snd (AnthropicRoutes.startServer W boot))))
  = [200; 503; 200; 400].
Proof. reflexivity. Qed.

(* ================================================================== *)
(** * Authentication and the chat routes *)
(* ================================================================== *)

Module SiteProperties.
Import Site.

Lemma route_without_user (cast : JsVal -> string) (r : ChatRoute)
        (req : Request) (b : Backend) :
  truthy (req_user req) = false ->
  chat_route cast r req b = (unauthorized, b).
Proof.
  intros H.
  destruct r; simpl;
    unfold post_chats, get_chats, get_chat, post_message, patch_chat,
      delete_chat; rewrite H; reflexivity.
Qed.

(** Every chat route refuses a request without a user: it answers 401
    ['Unauthorized'] whatever the path and the body, and neither store is
    touched. *)
Theorem chat_routes_require_user (cast : JsVal -> string) (r : ChatRoute)
        (req : Request) (b : Backend) :
  truthy (req_user req) = false ->
  chat_route cast r req b = (unauthorized, b).
Proof.
  exact (route_without_user cast r req b).
Qed.

Lemma chat_routes_require_user_witness :
  chat_route ToString DeleteChat (request_for_c2 None JUndefined) fresh_backend
  = (unauthorized, fresh_backend).
Proof.
  apply (chat_routes_require_user ToString DeleteChat
           (request_for_c2 None JUndefined) fresh_backend).
  reflexivity.
Defined.

Lemma extractUser_on_bearer
        (auth : list AuthCall -> AuthCall -> Res AuthResult)
        (req : Request) (token : string) (b : Backend) (result : AuthResult) :
  authorization req = Some ("Bearer " ++ token)%string ->
  auth (auth_calls b) (GetUserSession (JStr token)) = Ok result ->
  extractUser auth req b
  = (Ok (if success result
         then {| authorization := authorization req;
                 req_user := user result;
                 chatId := chatId req;
                 body := body req |}
         else req),
     {| store := store b;
        auth_calls := auth_calls b ++ [GetUserSession (JStr token)] |}).
Proof.
  intros Hh Ha. unfold extractUser, call_auth. rewrite Hh.
  simpl. rewrite Nat.sub_0_r, substring_all, Ha.
  replace (String.prefix "" token) with true by (destruct token; reflexivity).
  reflexivity.
Qed.

(** X23. The middleware reads the token off a [Bearer] header: it asks the
    authentication service once, about exactly the text after ['Bearer '],
    and attaches the user of the session when the service vouches for it;
    otherwise the request goes on as it came. *)
Theorem extractUser_bearer
        (auth : list AuthCall -> AuthCall -> Res AuthResult)
        (req : Request) (token : string) (b : Backend) (result : AuthResult) :
  authorization req = Some ("Bearer " ++ token)%string ->
  auth (auth_calls b) (GetUserSession (JStr token)) = Ok result ->
  extractUser auth req b
  = (Ok (if success result
         then {| authorization := authorization req;
                 req_user := user result;
                 chatId := chatId req;
                 body := body req |}
         else req),
     {| store := store b;
        auth_calls := auth_calls b ++ [GetUserSession (JStr token)] |}).
Proof.
  exact (extractUser_on_bearer auth req token b result).
Qed.

Lemma extractUser_bearer_witness :
  extractUser auth_double (request_for_c2 (Some "Bearer alices-token") JUndefined)
              fresh_backend
  = (Ok {| authorization := Some "Bearer alices-token";
           req_user := alice_user; chatId := "c2"; body := JUndefined |},
     {| store := shared_store [];
        auth_calls := [GetUserSession (JStr "alices-token")] |}).
Proof.
  exact (extractUser_bearer auth_double
           (request_for_c2 (Some "Bearer alices-token") JUndefined)
           "alices-token" fresh_backend _ eq_refl eq_refl).
Defined.

(** X24. A request that carries no usable credentials never reaches the store.
    Without an [Authorization] header, or with one that does not start with
    ['Bearer '], the authentication service is not even asked; with a token
    the service does not vouch for, it is asked once.  In all three cases
    every chat route answers 401 and the chat store is as it was. *)
Theorem anonymous_requests_are_refused
        (auth : list AuthCall -> AuthCall -> Res AuthResult)
        (cast : JsVal -> string) (r : ChatRoute) (req : Request) (b : Backend) :
  req_user req = JUndefined ->
  (authorization req = None ->
   through_middleware auth cast r req b = (Ok unauthorized, b))
  /\ (forall header,
         authorization req = Some header ->
         String.prefix "Bearer " header = false ->
         through_middleware auth cast r req b = (Ok unauthorized, b))
  /\ (forall token result,
         authorization req = Some ("Bearer " ++ token)%string ->
         auth (auth_calls b) (GetUserSession (JStr token)) = Ok result ->
         success result = false ->
         through_middleware auth cast r req b
         = (Ok unauthorized,
            {| store := store b;
               auth_calls := auth_calls b ++ [GetUserSession (JStr token)] |})).
Proof.
  intros Hu.
  assert (Hroute : forall b', chat_route cast r req b' = (unauthorized, b')).
  { intros b'. apply route_without_user. rewrite Hu. reflexivity. }
  repeat split.
  - intros Hh. unfold through_middleware, extractUser. rewrite Hh, Hroute.
    reflexivity.
  - intros header Hh Hp. unfold through_middleware, extractUser.
    rewrite Hh, Hp, andb_false_r, Hroute. reflexivity.
  - intros token result Hh Ha Hs. unfold through_middleware.
    rewrite (extractUser_on_bearer auth req token b result Hh Ha), Hs, Hroute.
    reflexivity.
Qed.

Lemma anonymous_requests_are_refused_witness :
  through_middleware auth_double ToString DeleteChat
    (request_for_c2 (Some "Bearer stolen") JUndefined) fresh_backend
  = (Ok unauthorized,
     {| store := shared_store [];
        auth_calls := [GetUserSession (JStr "stolen")] |}).
Proof.
  destruct (anonymous_requests_are_refused auth_double ToString DeleteChat
              (request_for_c2 (Some "Bearer stolen") JUndefined)
              fresh_backend eq_refl) as [_ [_ H]].
  exact (H "stolen" _ eq_refl eq_refl eq_refl).
Defined.

(** X25. The chat routes validate before they touch the store: for a signed-in
    user, a create or a rename without a title is answered 400 ['Title is
    required'], and a message without a role or without a content is
    answered 400 ['Role and content are required']; the store is as it
    was. *)
Theorem chat_routes_validate (cast : JsVal -> string) (id now : string)
        (req : Request) (b : Backend) :
  truthy (req_user req) = true ->
  (forall title,
      getProp (body req) "title" = Ok title -> truthy title = false ->
      post_chats cast id now req b
      = (res_status_json 400 (error_body "Title is required"), b)
      /\ patch_chat cast req b
         = (res_status_json 400 (error_body "Title is required"), b))
  /\ (forall role content,
         getProp (body req) "role" = Ok role ->
         getProp (body req) "content" = Ok content ->
         truthy role && truthy content = false ->
         post_message cast now req b
         = (res_status_json 400 (error_body "Role and content are required"),
            b)).
Proof.
  intros Hu. split.
  - intros title Ht Hf. unfold post_chats, patch_chat.
    rewrite Hu, Ht, Hf. split; reflexivity.
  - intros role content Hr Hc Hf. unfold post_message.
    rewrite Hu, Hr, Hc.
    rewrite <- negb_andb, Hf. reflexivity.
Qed.

Lemma chat_routes_validate_witness :
  let req := {| authorization := None; req_user := alice_user;
                chatId := "c1"; body := JObj [("role", JStr "user")] |} in
  post_chats ToString "c9" "2025-01-06T00:00:00.000Z" req fresh_backend
  = (res_status_json 400 (error_body "Title is required"), fresh_backend)
  /\ post_message ToString "2025-01-06T00:00:00.000Z" req fresh_backend
     = (res_status_json 400 (error_body "Role and content are required"),
        fresh_backend).
Proof.
  intros req.
  destruct (chat_routes_validate ToString "c9" "2025-01-06T00:00:00.000Z"
              req fresh_backend eq_refl) as [Ht Hm].
  split.
  - apply (Ht JUndefined); reflexivity.
  - apply (Hm (JStr "user") JUndefined); reflexivity.
Defined.

(** X26. Through the routes, a signed-in user cannot read, extend or delete a
    chat of someone else: on a healthy service the three routes answer 400
    ['Chat not found'] and leave every row as it was. *)
Theorem foreign_chat_through_the_routes (cast : JsVal -> string)
        (now userId : string) (req : Request) (b : Backend)
        (role content : string) :
  getProp (req_user req) "id" = Ok (JStr userId) ->
  getProp (body req) "role" = Ok (JStr role) ->
  getProp (body req) "content" = Ok (JStr content) ->
  role <> ""%string -> content <> ""%string ->
  healthy (store b) ->
  ChatDatabase.owns (ChatDatabase.tables (store b)) userId (chatId req) = false ->
  let refused (out : Response * Backend) :=
    fst out = res_status_json 400 (error_body "Chat not found")
    /\ ChatDatabase.tables (store (snd out)) = ChatDatabase.tables (store b)
    /\ auth_calls (snd out) = auth_calls b in
  refused (get_chat cast req b)
  /\ refused (post_message cast now req b)
  /\ refused (delete_chat cast req b).
Proof.
  intros Hid Hr Hc Hrole Hcontent Hh Ho refused. subst refused. cbv beta.
  assert (Hu : truthy (req_user req) = true).
  { destruct (req_user req); try discriminate; reflexivity. }
  destruct (ChatDatabaseFacts.guarded_functions_refuse now (chatId req)
              role content userId (store b) Ho) as [Hget [Hadd Hdel]].
  cbv zeta beta in Hget, Hadd, Hdel.
  unfold healthy in Hh.
  assert (Hnot_crashed :
            forall r,
              (r = ChatDatabase.Failed "Chat not found"
               \/ exists m, hd ChatDatabase.Healthy
                               (ChatDatabase.faults (store b))
                            = ChatDatabase.Crashed m
                            /\ r = ChatDatabase.Failed m) ->
              r = ChatDatabase.Failed "Chat not found").
  { intros r [H|[m [H _]]]; [exact H|].
    rewrite Hh in H. discriminate H. }
  assert (Htruthy : forall s, s <> ""%string -> truthy (JStr s) = true).
  { intros s Hs. simpl. destruct (String.eqb_spec s ""); [contradiction|].
    reflexivity. }
  unfold get_chat, post_message, delete_chat.
  rewrite Hu, Hid, Hr, Hc. simpl as_text.
  rewrite (Htruthy role Hrole), (Htruthy content Hcontent). simpl.
  repeat split.
  - destruct Hget as [_ [_ Hf]]. apply Hnot_crashed in Hf.
    destruct (ChatDatabase.getChatWithMessages (chatId req) userId (store b))
      as [res s1]. simpl in *. subst res. reflexivity.
  - destruct Hget as [Ht _].
    destruct (ChatDatabase.getChatWithMessages (chatId req) userId (store b))
      as [res s1]. simpl in *. exact Ht.
  - destruct (ChatDatabase.getChatWithMessages (chatId req) userId (store b));
      reflexivity.
  - destruct Hadd as [_ [_ Hf]]. apply Hnot_crashed in Hf.
    destruct (ChatDatabase.addMessageToChat now (chatId req) role content
                userId (store b)) as [res s1]. simpl in *. subst res.
    reflexivity.
  - destruct Hadd as [Ht _].
    destruct (ChatDatabase.addMessageToChat now (chatId req) role content
                userId (store b)) as [res s1]. simpl in *. exact Ht.
  - destruct (ChatDatabase.addMessageToChat now (chatId req) role content
                userId (store b)); reflexivity.
  - destruct Hdel as [_ [_ Hf]]. apply Hnot_crashed in Hf.
    destruct (ChatDatabase.deleteChat (chatId req) userId (store b))
      as [res s1]. simpl in *. subst res. reflexivity.
  - destruct Hdel as [Ht _].
    destruct (ChatDatabase.deleteChat (chatId req) userId (store b))
      as [res s1]. simpl in *. exact Ht.
  - destruct (ChatDatabase.deleteChat (chatId req) userId (store b));
      reflexivity.
Qed.

Lemma foreign_chat_through_the_routes_witness :
  let req := {| authorization := Some "Bearer alices-token";
                req_user := alice_user; chatId := "c2";
                body := JObj [("role", JStr "user");
                              ("content", JStr "Hi Bob")] |} in
  let refused (out : Response * Backend) :=
    fst out = res_status_json 400 (error_body "Chat not found")
    /\ ChatDatabase.tables (store (snd out))
       = ChatDatabase.tables (store fresh_backend)
    /\ auth_calls (snd out) = auth_calls fresh_backend in
  refused (get_chat ToString req fresh_backend)
  /\ refused (post_message ToString "2025-01-06T00:00:00.000Z" req fresh_backend)
  /\ refused (delete_chat ToString req fresh_backend).
Proof.
  intros req.
  apply (foreign_chat_through_the_routes ToString "2025-01-06T00:00:00.000Z"
           "alice" req fresh_backend "user" "Hi Bob");
    try reflexivity; discriminate.
Defined.

(** The owner, through the same routes, is served. *)
Example owner_through_the_routes :
  let req := {| authorization := Some "Bearer alices-token";
                req_user := alice_user; chatId := "c1";
                body := JUndefined |} in
  fst (get_chat ToString req fresh_backend)
  = res_json (JObj [("success", JBool true);
                    ("chat", chat_js alices_chat);
                    ("messages", JArr [message_js alices_message])]).
Proof. reflexivity. Qed.

(** X27. The sign-up, sign-in and session routes check their input before they
    ask the authentication service: without an email or without a password
    the first two answer 400 ['Email and password are required'], without a
    token the third answers 400 ['Token is required'], and the service has
    not been called. *)
Theorem credentials_are_checked_first
        (auth : list AuthCall -> AuthCall -> Res AuthResult)
        (req : Request) (b : Backend) :
  (forall email password,
      getProp (body req) "email" = Ok email ->
      getProp (body req) "password" = Ok password ->
      truthy email && truthy password = false ->
      signup auth req b
      = (res_status_json 400 (error_body "Email and password are required"), b)
      /\ signin auth req b
         = (res_status_json 400 (error_body "Email and password are required"),
            b))
  /\ (forall token,
         getProp (body req) "token" = Ok token ->
         truthy token = false ->
         session_route auth req b
         = (res_status_json 400 (error_body "Token is required"), b)).
Proof.
  split.
  - intros email password He Hp Hf.
    unfold signup, signin, with_credentials.
    rewrite He, Hp, <- negb_andb, Hf. split; reflexivity.
  - intros token Ht Hf. unfold session_route. rewrite Ht, Hf. reflexivity.
Qed.

Lemma credentials_are_checked_first_witness :
  let req := request_for_c2 None (JObj [("email", JStr "alice@example.org");
                                       ("password", JStr "")]) in
  signin auth_double req fresh_backend
  = (res_status_json 400 (error_body "Email and password are required"),
     fresh_backend)
  /\ session_route auth_double req fresh_backend
     = (res_status_json 400 (error_body "Token is required"), fresh_backend).
Proof.
  intros req.
  destruct (credentials_are_checked_first auth_double req fresh_backend)
    as [Hc Ht].
  split.
  - apply (Hc (JStr "alice@example.org") (JStr "")); reflexivity.
  - apply (Ht JUndefined); reflexivity.
Defined.

(** X28. The verdict of the authentication service is passed on.  With an email
    and a password, sign-in asks the service once: a refusal is answered
    400 with the service's own error, an acceptance 200 with the user and
    the session.  With a token, the session route asks once: a refusal is
    answered 401 with the service's error, an acceptance 200 with the
    user. *)
Theorem auth_verdicts_are_passed_on
        (auth : list AuthCall -> AuthCall -> Res AuthResult)
        (req : Request) (b : Backend) (result : AuthResult) :
  (forall email password,
      getProp (body req) "email" = Ok email ->
      getProp (body req) "password" = Ok password ->
      truthy email && truthy password = true ->
      auth (auth_calls b) (SignInUser email password) = Ok result ->
      signin auth req b
      = (if success result
         then res_json (JObj [("success", JBool true);
                              ("user", user result);
                              ("session", session result)])
         else res_status_json 400 (JObj [("error", error result)]),
         {| store := store b;
            auth_calls := auth_calls b ++ [SignInUser email password] |}))
  /\ (forall token,
         getProp (body req) "token" = Ok token ->
         truthy token = true ->
         auth (auth_calls b) (GetUserSession token) = Ok result ->
         session_route auth req b
         = (if success result
            then res_json (JObj [("success", JBool true);
                                 ("user", user result)])
            else res_status_json 401 (JObj [("error", error result)]),
            {| store := store b;
               auth_calls := auth_calls b ++ [GetUserSession token] |})).
Proof.
  split.
  - intros email password He Hp Ht Ha.
    unfold signin, with_credentials, call_auth.
    rewrite He, Hp, <- negb_andb, Ht, Ha. simpl.
    destruct (success result); reflexivity.
  - intros token Ht Htr Ha. unfold session_route, call_auth.
    rewrite Ht, Htr, Ha. simpl.
    destruct (success result); reflexivity.
Qed.

Lemma auth_verdicts_are_passed_on_witness :
  session_route auth_double
    (request_for_c2 None (JObj [("token", JStr "stolen")])) fresh_backend
  = (res_status_json 401 (JObj [("error", JStr "Invalid credentials")]),
     {| store := shared_store [];
        auth_calls := [GetUserSession (JStr "stolen")] |}).
Proof.
  destruct (auth_verdicts_are_passed_on auth_double
              (request_for_c2 None (JObj [("token", JStr "stolen")]))
              fresh_backend
              {| success := false; user := JUndefined;
                 session := JUndefined;
                 error := JStr "Invalid credentials" |}) as [_ H].
  exact (H (JStr "stolen") eq_refl eq_refl eq_refl).
Defined.

End SiteProperties.
